(** * routes4life API: the secret managers, the place filter and its views

    A shallow embedding of [routes4life_api/utils.py], [validators.py],
    [models.py], the two place-filter serializers of [serializers.py] and
    [FilterPlacesNewAPIView] of [views.py], followed by the properties
    of these functions. The embedding goes on with the password rule, the
    serializers and views of the accounts and of the password reset,
    [permissions.py], and the serializers and views that list, make,
    change and delete the places and their images.

    Conventions.
    - The Django cache is an explicit store threaded through every call,
      together with the clock reading (whole seconds) of that call.
    - [random.choices] reads its draws from an oracle [nat -> nat].
    - A Python float is a number, kept exact as a rational ([Qc]), an
      infinity or NaN; rounding is outside the model. Python compares
      floats one way and the database another: see [float_lt] and
      [float8_le].
    - [Decimal] values with two decimal places are integers counting
      hundredths: 4.50 is [450].
    - A queryset is the list of its rows, in the order the database
      yields them. *)

From Stdlib Require Import Ascii String QArith Qcanon.
From stdpp Require Import gmap strings list sorting.

Close Scope Q_scope.
Close Scope Qc_scope.

Set Default Proof Using "Type".

(** ** django.core.cache *)

Module cache.

(** A cached value and the instant at which it stops being live. *)
Record entry := Entry { value : string; expires : nat }.

Abbreviation store := (gmap string entry).

(** The computations of the managers: they read the clock and update
    the store. *)
Definition M (A : Type) : Type := nat → store → A * store.

#[global] Instance ret : MRet M := λ A a _ s, (a, s).

#[global] Instance bind : MBind M :=
  λ A B k c now s, let '(a, s') := c now s in k a now s'.

Definition live (now : nat) (e : entry) : Prop := now < expires e.

#[global] Instance live_dec now e : Decision (live now e).
Proof. unfold live. apply _. Defined.

(** [cache.get(key, None)]: an entry past its expiry reads as absent. *)
Definition get (key : string) : M (option string) :=
  λ now s,
    match s !! key with
    | Some e => if decide (live now e) then (Some (value e), s) else (None, s)
    | None => (None, s)
    end.

(** [cache.add(key, value, timeout)]: stores only when no live entry
    is there, and tells whether it stored. *)
Definition add (key val : string) (timeout : nat) : M bool :=
  λ now s,
    match fst (get key now s) with
    | Some _ => (false, s)
    | None => (true, <[key := Entry val (now + timeout)]> s)
    end.

(** [cache.delete(key)] *)
Definition delete (key : string) : M unit :=
  λ _ s, (tt, base.delete key s).

End cache.

(** ** routes4life_api/utils.py *)

Module utils.

(** [string.digits] and [string.ascii_letters] *)
Definition digits : string := "0123456789".
Definition ascii_letters : string :=
  "abcdefghijklmnopqrstuvwxyzABCDEFGHIJKLMNOPQRSTUVWXYZ".

(** [random.choices(population, k=k)]: draw [i] selects the element at
    index [rng i] (reduced into range) of the population. *)
Definition choices (rng : nat → nat) (population : string) (k : nat)
  : list ascii :=
  let pop := list_ascii_of_string population in
  (λ i, nth (rng i mod length pop) pop Ascii.zero) <$> seq 0 k.

(** ["".join(...)] *)
Definition join (cs : list ascii) : string := string_of_list_ascii cs.

Module ResetCodeManager.

(** [timedelta(minutes=2).seconds] *)
Definition ttl_seconds : nat := 120.

Definition get_or_create_code (email : string) (rng : nat → nat)
  : cache.M (option string) :=
  let key := email +:+ "__code" in
  code ← cache.get key;
  match code with
  | Some code => mret (Some code)
  | None =>
      let code := join (choices rng digits 4) in
      cache.add key code ttl_seconds;;
      cache.get key
  end.

Definition try_use_code (email code : string) : cache.M bool :=
  let key := email +:+ "__code" in
  stored ← cache.get key;
  if decide (stored ≠ Some code) then mret false
  else cache.delete key;; mret true.

End ResetCodeManager.

Module SessionTokenManager.

(** [timedelta(minutes=10).seconds] *)
Definition ttl_seconds : nat := 600.

Definition get_or_create_token (email : string) (rng : nat → nat)
  : cache.M (option string) :=
  let key := email +:+ "__token" in
  token ← cache.get key;
  match token with
  | Some token => mret (Some token)
  | None =>
      let token := join (choices rng (digits +:+ ascii_letters) 32) in
      cache.add key token ttl_seconds;;
      cache.get key
  end.

Definition try_use_token (email token : string) : cache.M bool :=
  let key := email +:+ "__token" in
  stored ← cache.get key;
  if decide (stored ≠ Some token) then mret false
  else cache.delete key;; mret true.

End SessionTokenManager.

End utils.

(** ** Values and exceptions shared by the modules below *)

(** A Python float: a number, kept exact, an infinity or NaN. *)
Inductive pyfloat :=
  | number (q : Qc)
  | inf
  | neg_inf
  | nan.

#[global] Instance pyfloat_eq_dec : EqDecision pyfloat.
Proof. solve_decision. Defined.

(** The float a literal stands for. *)
Definition float (q : Q) : pyfloat := number (Q2Qc q).

(** [a < b] in Python: false as soon as one side is NaN. *)
Definition float_lt (a b : pyfloat) : Prop :=
  match a, b with
  | number p, number q => (p < q)%Qc
  | number _, inf => True
  | neg_inf, number _ => True
  | neg_inf, inf => True
  | _, _ => False
  end.

(** [a <= b] in Python: false as soon as one side is NaN. *)
Definition float_le (a b : pyfloat) : Prop :=
  match a, b with
  | number p, number q => (p ≤ q)%Qc
  | number _, inf => True
  | neg_inf, number _ => True
  | neg_inf, inf => True
  | inf, inf => True
  | neg_inf, neg_inf => True
  | _, _ => False
  end.

#[global] Instance float_lt_dec : RelDecision float_lt.
Proof. intros [p| | |] [q| | |]; simpl; apply _. Defined.

#[global] Instance float_le_dec : RelDecision float_le.
Proof. intros [p| | |] [q| | |]; simpl; apply _. Defined.

(** A [Decimal] with two decimal places, counted in hundredths. *)
Definition Decimal := Z.
Bind Scope Z_scope with Decimal.

Definition Decimal_to_float (d : Decimal) : Qc := Q2Qc (d # 100).

(** The outcome of a call that either raises [E] or returns a value. *)
Inductive except (E A : Type) : Type :=
  | Raised (e : E)
  | Returned (a : A).
Arguments Raised {E A} e.
Arguments Returned {E A} a.

(** ** routes4life_api/validators.py *)

Module validators.

(** [ValidationError({field: message})] *)
Record ValidationError := { field : string; message : string }.

Definition validate_latitude (value : pyfloat)
  : except ValidationError unit :=
  if decide (float_lt value (float (-90)) ∨ float_lt (float 90) value)
  then Raised {| field := "latitude";
                 message := "Latitude is supposed to be between -90 and 90." |}
  else Returned ().

Definition validate_longitude (value : pyfloat)
  : except ValidationError unit :=
  if decide (float_lt value (float (-180)) ∨ float_lt (float 180) value)
  then Raised {| field := "longitude";
                 message :=
                   "Longitude is supposed to be between -180 and 180." |}
  else Returned ().

Definition validate_rating (value : Decimal)
  : except ValidationError unit :=
  if decide ((value < 0)%Z ∨ (500 < value)%Z)
  then Raised {| field := "rating";
                 message := "Rating is supposed to be from 0 to 5." |}
  else Returned ().

Definition validate_distance (value : pyfloat)
  : except ValidationError unit :=
  if decide (float_le value (float 0) ∨ float_le (float 40076) value)
  then Raised {| field := "distance";
                 message :=
                   "Distance must be between 0 and 40076 kilometers." |}
  else Returned ().

Definition validate_place_ordering (value : string)
  : except ValidationError unit :=
  if decide (value ∉ ["distance"; "-distance"; "rating"; "-rating"])
  then Raised {| field := "ordering";
                 message := "Unallowed value for ordering." |}
  else Returned ().

Definition allowed_categories : list string :=
  [ "barsAndPubs"; "hookahBars"; "cafesAndRestaurants"; "coffeeHouses";
    "pastryShopsAndBakeries"; "attractions"; "art"; "city"; "sport";
    "other" ].

Definition validate_category (value : string)
  : except ValidationError unit :=
  if decide (value ∉ allowed_categories)
  then Raised {| field := "category"; message := "Unallowed category." |}
  else Returned ().

End validators.

(** ** routes4life_api/models.py *)

Module models.

(** A [PointField] value; [x] is the longitude and [y] the latitude. *)
Record Point := { x : pyfloat; y : pyfloat }.

(** [a <= b] in the database, on double precision: NaN is equal to
    itself and above every other value. *)
Definition float8_le (a b : pyfloat) : Prop :=
  match a, b with
  | _, nan => True
  | nan, _ => False
  | number p, number q => (p ≤ q)%Qc
  | neg_inf, _ => True
  | _, inf => True
  | _, _ => False
  end.

#[global] Instance float8_le_dec : RelDecision float8_le.
Proof. intros [p| | |] [q| | |]; simpl; apply _. Defined.

(** Users are referred to by primary key. Image fields are left out. *)
Module Place.
Record t := {
  id : nat;
  added_by : nat;
  name : string;
  description : string;
  address : string;
  category : string;
  location : Point
}.
End Place.

Module PlaceRating.
Record t := {
  id : nat;
  user : nat;
  place : nat;
  rating : Decimal
}.
End PlaceRating.

(** The tables, each in the order the database yields its rows. *)
Record database := {
  Place_objects : list Place.t;
  PlaceRating_objects : list PlaceRating.t
}.

(** The geometry functions of the spatial database. *)
Class GeoBackend := {
  (** distance in the plane, in degrees: what [dwithin] tests and what
      [GeometryDistance] returns on the geometry column *)
  planar_distance : Point → Point → pyfloat;
  (** distance on the sphere, in metres: what [distance_lte] compares
      with a [D] measure *)
  sphere_distance : Point → Point → pyfloat
}.

(** [user.places]: the reverse relation of [Place.added_by] *)
Definition places (db : database) (user : nat) : list Place.t :=
  filter (λ p, Place.added_by p = user) (Place_objects db).

(** [place.ratings]: the reverse relation of [PlaceRating.place] *)
Definition ratings (db : database) (place : Place.t)
  : list PlaceRating.t :=
  filter (λ r, PlaceRating.place r = Place.id place)
    (PlaceRating_objects db).

End models.

(** ** rest_framework: the fields the filter serializers declare

    Text is ASCII. A request body has, for each field, no value, a value
    the field cannot read, or a value of the field's type. For a
    [FloatField] the value is what [float] makes of the data: the text
    [nan] is read, as NaN, and so are the infinities. *)

Module fields.

Import validators.

Inductive raw (A : Type) : Type :=
  | Missing
  | Malformed
  | Given (a : A).
Arguments Missing {A}.
Arguments Malformed {A}.
Arguments Given {A} a.

(** The error list of a serializer: field name and message. *)
Definition errors := list (string * string).

(** Fields are validated one after the other and their errors are
    gathered; the validated data exist only when there is none. *)
Definition validation (A : Type) := except errors A.

Definition ap {A B} (f : validation (A → B)) (x : validation A)
  : validation B :=
  match f, x with
  | Returned g, Returned a => Returned (g a)
  | Returned _, Raised e => Raised e
  | Raised e, Returned _ => Raised e
  | Raised e1, Raised e2 => Raised (e1 ++ e2)
  end.

(** [Field.run_validators]: a validator that raises a dictionary of
    errors ends the run of the field. *)
Definition run_validators {A}
    (validators : list (A → except ValidationError unit)) (value : A)
  : except ValidationError unit :=
  foldr (λ validator rest,
           match validator value with
           | Raised e => Raised e
           | Returned _ => rest
           end)
        (Returned ()) validators.

(** [Field.run_validation] of a field with [required=False]: a field
    without value is left out of the validated data. *)
Definition run_validation {A B} (field_name : string)
    (to_internal_value : A → except string B)
    (validators : list (B → except ValidationError unit))
    (data : raw A) : validation (option B) :=
  match data with
  | Missing => Returned None
  | Malformed => Raised [(field_name, "A valid value is required.")]
  | Given a =>
      match to_internal_value a with
      | Raised msg => Raised [(field_name, msg)]
      | Returned value =>
          match run_validators validators value with
          | Raised e => Raised [(field_name, message e)]
          | Returned _ => Returned (Some value)
          end
      end
  end.

(** The same with [required=True]. *)
Definition run_validation_required {A B} (field_name : string)
    (to_internal_value : A → except string B)
    (validators : list (B → except ValidationError unit))
    (data : raw A) : validation B :=
  match run_validation field_name to_internal_value validators data with
  | Raised e => Raised e
  | Returned (Some value) => Returned value
  | Returned None => Raised [(field_name, "This field is required.")]
  end.

Definition BooleanField (data : bool) : except string bool :=
  Returned data.

(** [FloatField]: the value is [float(data)], whatever float it is;
    data on which [float] raises are [Malformed]. *)
Definition FloatField (data : pyfloat) : except string pyfloat :=
  Returned data.

(** [DecimalField(max_digits, 2)]: the digits of the value, decimal
    places included, are at most [max_digits]. *)
Definition DecimalField (max_digits : nat) (data : Decimal)
  : except string Decimal :=
  if decide (Z.abs data < 10 ^ Z.of_nat max_digits)%Z then Returned data
  else Raised "Ensure that there are no more than 3 digits in total.".

(** [str.isspace] on ASCII *)
Definition isspace (c : ascii) : bool :=
  let n := nat_of_ascii c in
  bool_decide ((9 ≤ n ∧ n ≤ 13) ∨ (28 ≤ n ∧ n ≤ 32)).

Fixpoint lstrip (s : string) : string :=
  match s with
  | String c s' => if isspace c then lstrip s' else s
  | EmptyString => EmptyString
  end.

(** [str.strip()] *)
Definition strip (s : string) : string :=
  String.rev (lstrip (String.rev (lstrip s))).

(** [CharField]: the value is stripped, and must not be blank. *)
Definition CharField (data : string) : except string string :=
  let value := strip data in
  if decide (value = "") then Raised "This field may not be blank."
  else Returned value.

(** The validator [CharField(max_length=n)] appends to its own. *)
Definition MaxLengthValidator (max_length : nat) (value : string)
  : except ValidationError unit :=
  if decide (max_length < String.length value)
  then Raised {| field := "";
                 message := "Ensure this field has no more characters." |}
  else Returned ().

(** The validator every [CharField] carries against NUL characters. *)
Definition ProhibitNullCharactersValidator (value : string)
  : except ValidationError unit :=
  if decide (Ascii.zero ∈ list_ascii_of_string value)
  then Raised {| field := "";
                 message := "Null characters are not allowed." |}
  else Returned ().

(** [ListField(child=...)]: every element goes through the child. *)
Fixpoint ListField {A B} (child : A → except string B) (data : list A)
  : except string (list B) :=
  match data with
  | [] => Returned []
  | a :: data' =>
      match child a with
      | Raised msg => Raised msg
      | Returned b =>
          match ListField child data' with
          | Raised msg => Raised msg
          | Returned bs => Returned (b :: bs)
          end
      end
  end.

(** The child [CharField(max_length=n)] of a list, with its validators. *)
Definition CharField_max_length (max_length : nat) (data : string)
  : except string string :=
  match CharField data with
  | Raised msg => Raised msg
  | Returned value =>
      match run_validators
              [MaxLengthValidator max_length;
               ProhibitNullCharactersValidator] value with
      | Raised e => Raised (message e)
      | Returned _ => Returned value
      end
  end.

End fields.

Infix "<*>" := fields.ap (at level 61, left associativity).

(** ** routes4life_api/serializers.py: the place serializers *)

Module serializers.

Import validators models fields.

(** [needle in haystack] on strings *)
Fixpoint contains (needle haystack : string) : bool :=
  String.prefix needle haystack
  || match haystack with
     | String _ rest => contains needle rest
     | EmptyString => false
     end.

(** [GEOSGeometry("POINT({} {})".format(longitude, latitude), srid=4326)]
    on two floats *)
Definition GEOSGeometry_POINT (longitude latitude : pyfloat) : Point :=
  {| x := longitude; y := latitude |}.

(** [D(km=dist)], held in metres: the product with 1000, which leaves
    an infinity and NaN as they are. *)
Definition D_km (dist : pyfloat) : pyfloat :=
  match dist with
  | number q => number (q * Q2Qc 1000)
  | inf => inf
  | neg_inf => neg_inf
  | nan => nan
  end.

(** The row orders of an annotation. *)
Definition ascending {K} (le : relation K) (annotation : Place.t → K)
  : relation Place.t :=
  λ p q, le (annotation p) (annotation q).

Definition descending {K} (le : relation K) (annotation : Place.t → K)
  : relation Place.t :=
  λ p q, le (annotation q) (annotation p).

#[global] Instance ascending_dec {K} (le : relation K) `{!RelDecision le}
  (annotation : Place.t → K) : RelDecision (ascending le annotation).
Proof. intros p q. unfold ascending. apply _. Defined.

#[global] Instance descending_dec {K} (le : relation K) `{!RelDecision le}
  (annotation : Place.t → K) : RelDecision (descending le annotation).
Proof. intros p q. unfold descending. apply _. Defined.

(** [queryset.order_by(ordering)] on an annotation: descending when
    the name carries a leading minus, ascending otherwise. *)
Definition order_by {K} (le : relation K) `{!RelDecision le}
    (annotation : Place.t → K) (ordering : string) (qs : list Place.t)
  : list Place.t :=
  if String.prefix "-" ordering
  then merge_sort (descending le annotation) qs
  else merge_sort (ascending le annotation) qs.

(** The order of a nullable annotation: NULL sorts after every value
    when ascending, hence first when descending. *)
Definition le_nulls_last (a b : option Qc) : Prop :=
  match a, b with
  | Some a, Some b => (a ≤ b)%Qc
  | _, None => True
  | None, Some _ => False
  end.

#[global] Instance le_nulls_last_dec : RelDecision le_nulls_last.
Proof. intros [a|] [b|]; simpl; apply _. Defined.

(** [Avg] over the rows of a subquery of decimals: NULL over no row.
    The properties below use it on no row and on a single row; over two
    rows or more, which no view writes for a user and a place, the
    database refuses the subquery, and the model takes their mean. *)
Definition Avg (values : list Decimal) : option Qc :=
  match values with
  | [] => None
  | _ :: _ =>
      Some (Q2Qc (foldr Z.add 0%Z values
                  # (100 * Pos.of_nat (length values))))
  end.

(** [PlaceRating.objects.filter(user=user, place=OuterRef("pk"))
      .values("rating")] for the outer row [place] *)
Definition rating_subquery (db : database) (user : nat) (place : Place.t)
  : list Decimal :=
  PlaceRating.rating <$>
    filter (λ r, PlaceRating.user r = user
                 ∧ PlaceRating.place r = Place.id place)
      (PlaceRating_objects db).

(** The loop that gathers [place_ids_to_exclude] for a threshold. *)
Definition place_ids_to_exclude (db : database) (rating : Decimal)
    (qs : list Place.t) : list nat :=
  foldl (λ ids place,
           let ratings_from_author :=
             filter (λ r, PlaceRating.user r = Place.added_by place)
               (ratings db place) in
           match ratings_from_author with
           | first :: _ =>
               if decide (PlaceRating.rating first < rating)%Z
               then ids ++ [Place.id place]
               else ids
           | [] => ids
           end)
        [] qs.

Module GetPlaceSerializer.

(** The serialized place; the image and e-mail fields are left out. *)
Record representation := {
  instance : Place.t;
  rating : Decimal;
  can_edit : bool;
  latitude : pyfloat;
  longitude : pyfloat
}.

Definition get_rating (db : database) (user : nat)
    (current_place : Place.t) : Decimal :=
  let queryset :=
    filter (λ r, PlaceRating.user r = user) (ratings db current_place) in
  match queryset with
  | first :: _ => PlaceRating.rating first
  | [] => 0%Z
  end.

Definition get_can_edit (user : nat) (current_place : Place.t) : bool :=
  bool_decide (Place.added_by current_place = user).

Definition get_latitude (current_place : Place.t) : pyfloat :=
  y (Place.location current_place).

Definition get_longitude (current_place : Place.t) : pyfloat :=
  x (Place.location current_place).

Definition to_representation (db : database) (user : nat)
    (current_place : Place.t) : representation :=
  {| instance := current_place;
     rating := get_rating db user current_place;
     can_edit := get_can_edit user current_place;
     latitude := get_latitude current_place;
     longitude := get_longitude current_place |}.

(** [KeyError: 'user'] *)
Inductive KeyError := KeyError_user.

(** [GetPlaceSerializer(places, many=True, context=context).data]:
    the method fields read [self.context["user"]] for every place. *)
Definition data (db : database) (context_user : option nat)
    (places : list Place.t) : except KeyError (list representation) :=
  match context_user, places with
  | Some user, _ => Returned (to_representation db user <$> places)
  | None, [] => Returned []
  | None, _ :: _ => Raised KeyError_user
  end.

End GetPlaceSerializer.

Module PlaceFilterSerializer.

Record validated_data := {
  latitude : pyfloat;
  longitude : pyfloat;
  distance : pyfloat;
  categories : option (list string);
  rating : option Decimal;
  ordering : option string
}.

Definition get_filters_applied_queryset `{GeoBackend} (db : database)
    (user : nat) (data : validated_data) : list Place.t :=
  let current_point :=
    GEOSGeometry_POINT (longitude data) (latitude data) in
  let qs :=
    filter (λ p, float8_le
                   (planar_distance (Place.location p) current_point)
                   (float 0.05))
      (places db user) in
  let location__distance_lte := D_km (distance data) in
  let qs :=
    match categories data with
    | Some category__in =>
        filter (λ p, float8_le
                       (sphere_distance (Place.location p) current_point)
                       location__distance_lte
                     ∧ Place.category p ∈ category__in) qs
    | None =>
        filter (λ p, float8_le
                       (sphere_distance (Place.location p) current_point)
                       location__distance_lte) qs
    end in
  let qs :=
    match rating data with
    | Some rating =>
        let ids := place_ids_to_exclude db rating qs in
        filter (λ p, Place.id p ∉ ids) qs
    | None => qs
    end in
  let ordering := default "" (ordering data) in
  if contains "distance" ordering then
    order_by float8_le
      (λ p, planar_distance (Place.location p) current_point)
      ordering qs
  else if contains "rating" ordering then
    order_by le_nulls_last (λ p, Avg (rating_subquery db user p))
      ordering qs
  else qs.

End PlaceFilterSerializer.

Module PlaceFilterNewSerializer.

(** The request body, field by field. *)
Record initial_data := {
  raw_apply_filters : raw bool;
  raw_split_categories : raw bool;
  raw_latitude : raw pyfloat;
  raw_longitude : raw pyfloat;
  raw_distance : raw pyfloat;
  raw_categories : raw (list string);
  raw_rating : raw Decimal;
  raw_ordering : raw string
}.

Record validated_data := {
  apply_filters : bool;
  split_categories : bool;
  latitude : pyfloat;
  longitude : pyfloat;
  distance : option pyfloat;
  categories : option (list string);
  rating : option Decimal;
  ordering : option string
}.

(** [serializer.is_valid()] together with [serializer.validated_data],
    from the declarations of the fields *)
Definition is_valid (data : initial_data) : validation validated_data :=
  Returned Build_validated_data
  <*> run_validation_required "apply_filters" BooleanField []
        (raw_apply_filters data)
  <*> run_validation_required "split_categories" BooleanField []
        (raw_split_categories data)
  <*> run_validation_required "latitude" FloatField [validate_latitude]
        (raw_latitude data)
  <*> run_validation_required "longitude" FloatField [validate_longitude]
        (raw_longitude data)
  <*> run_validation "distance" FloatField [validate_distance]
        (raw_distance data)
  <*> run_validation "categories" (ListField (CharField_max_length 50)) []
        (raw_categories data)
  <*> run_validation "rating" (DecimalField 3) [] (raw_rating data)
  <*> run_validation "ordering" CharField
        [validate_place_ordering; MaxLengthValidator 50;
       ProhibitNullCharactersValidator]
        (raw_ordering data).

Definition get_filters_applied_queryset `{GeoBackend} (db : database)
    (user : nat) (data : validated_data) : list Place.t :=
  let current_point :=
    GEOSGeometry_POINT (longitude data) (latitude data) in
  let qs :=
    if apply_filters data
    then filter (λ p, float8_le
                        (planar_distance (Place.location p) current_point)
                        (float 0.05))
           (places db user)
    else places db user in
  if negb (apply_filters data) then qs else
  let dist := default (float 5.0) (distance data) in
  let location__distance_lte := D_km dist in
  let qs :=
    match categories data with
    | Some category__in =>
        filter (λ p, float8_le
                       (sphere_distance (Place.location p) current_point)
                       location__distance_lte
                     ∧ Place.category p ∈ category__in) qs
    | None =>
        filter (λ p, float8_le
                       (sphere_distance (Place.location p) current_point)
                       location__distance_lte) qs
    end in
  let qs :=
    match rating data with
    | Some rating =>
        let ids := place_ids_to_exclude db rating qs in
        filter (λ p, Place.id p ∉ ids) qs
    | None => qs
    end in
  let ordering := default "" (ordering data) in
  if contains "distance" ordering then
    order_by float8_le
      (λ p, planar_distance (Place.location p) current_point)
      ordering qs
  else if contains "rating" ordering then
    order_by le_nulls_last (λ p, Avg (rating_subquery db user p))
      ordering qs
  else qs.

End PlaceFilterNewSerializer.

End serializers.

(** ** routes4life_api/views.py: the filter view *)

Module views.

Import models fields serializers.

(** What the view takes from the REST framework and its settings. *)
Class GenericAPIView := {
  (** [SearchFilter] on name, category and address: whether a place
      matches the search terms of the query string *)
  search_matches : string → Place.t → bool;
  (** [paginate_queryset]: the page, or nothing without a paginator *)
  paginate_queryset : list Place.t → option (list Place.t)
}.

Record Request := {
  user : nat;
  data : PlaceFilterNewSerializer.initial_data;
  search : string
}.

(** The values of a response body. *)
Inductive json :=
  | JBool (b : bool)
  | JPlaces (places : list GetPlaceSerializer.representation).

Inductive HttpResponse :=
  | Response (body : gmap string json)
  | PaginatedResponse (results : list GetPlaceSerializer.representation)
  | BadRequest (errs : errors)
  | ServerError.

(** [dict(pairs)]: a later pair replaces an earlier one with its key. *)
Definition dict {V} (pairs : list (string * V)) : gmap string V :=
  foldl (λ d kv, <[kv.1 := kv.2]> d) ∅ pairs.

(** [qs.values("category").annotate(Count("category"))]: the
    categories of the rows, each with the number of its rows. On an
    ordered queryset the database may spread a category over several
    rows; the dictionary the view builds from the rows is the same. *)
Definition values_category_count (qs : list Place.t)
  : list (string * nat) :=
  (λ c, (c, length (filter (λ p, Place.category p = c) qs)))
    <$> remove_dups (Place.category <$> qs).

Module FilterPlacesNewAPIView.

Definition filter_queryset `{GenericAPIView} (request : Request)
    (qs : list Place.t) : list Place.t :=
  filter (λ p, search_matches (search request) p) qs.

Definition post `{GeoBackend, GenericAPIView} (db : database)
    (request : Request) : HttpResponse :=
  match PlaceFilterNewSerializer.is_valid (data request) with
  | Raised errs => BadRequest errs
  | Returned validated_data =>
      let filters_applied :=
        PlaceFilterNewSerializer.apply_filters validated_data in
      let qs_categ_split :=
        PlaceFilterNewSerializer.split_categories validated_data in
      let qs :=
        PlaceFilterNewSerializer.get_filters_applied_queryset
          db (user request) validated_data in
      let qs := filter_queryset request qs in
      if negb qs_categ_split then
        match paginate_queryset qs with
        | Some page =>
            match GetPlaceSerializer.data db None page with
            | Returned results => PaginatedResponse results
            | Raised _ => ServerError
            end
        | None =>
            match GetPlaceSerializer.data db (Some (user request)) qs with
            | Returned places =>
                Response {[ "filters_applied" := JBool filters_applied;
                            "is_split" := JBool qs_categ_split;
                            "places" := JPlaces places ]}
            | Raised _ => ServerError
            end
        end
      else
        let categories := values_category_count qs in
        let categories :=
          dict ((λ item,
                   (item.1,
                    take 10 (filter (λ p, Place.category p = item.1) qs)))
                <$> filter (λ item, item.2 ≠ 0) categories) in
        (* the serializer of every list gets the user in its
           context, so its [data] is the representation of each place *)
        let data_split_by_categories :=
          (λ qs, GetPlaceSerializer.to_representation db (user request)
                   <$> qs) <$> categories in
        Response ((JPlaces <$> data_split_by_categories)
                  ∪ {[ "filters_applied" := JBool filters_applied;
                       "is_split" := JBool qs_categ_split ]})
  end.

End FilterPlacesNewAPIView.

End views.


(** ** routes4life_api/validators.py: the password rule;
       tests/factories.py: the password of the tests *)

Module passwords.

Import utils.

(** [re.findall(pattern, password)] for a pattern that is one character
    class: the characters of the class, in order. *)
Definition findall (class : ascii → bool) (password : string) : list ascii :=
  filter (λ c, class c) (list_ascii_of_string password).

Definition in_range (low high : nat) (c : ascii) : bool :=
  bool_decide (low ≤ nat_of_ascii c ∧ nat_of_ascii c ≤ high).

(** [[A-Z]], [[a-z]] and [\d], on the ASCII characters the texts of
    the model are made of *)
Definition upper (c : ascii) : bool := in_range 65 90 c.
Definition lower (c : ascii) : bool := in_range 97 122 c.
Definition digit (c : ascii) : bool := in_range 48 57 c.

(** The class of the special characters; the last one is the double
    quote. *)
Definition special_characters : list ascii :=
  list_ascii_of_string "()[]{}|\`~!@#$%^&*_-+=;:',<>.?" ++ ["034"%char].

Definition special (c : ascii) : bool := bool_decide (c ∈ special_characters).

(** [\s] *)
Definition space (c : ascii) : bool := fields.isspace c.

(** [validate_password]: the message of the first rule that fails. *)
Definition validate_password (password : string) : except string unit :=
  if decide (String.length password < 8 ∨ 40 < String.length password) then
    Raised "The password must be at least 8 symbols long and 40 symbols long at max."
  else if decide (findall upper password = []) then
    Raised "The password must contain at least 1 uppercase letter, A-Z."
  else if decide (findall lower password = []) then
    Raised "The password must contain at least 1 lowercase letter, a-z."
  else if decide (findall digit password = []) then
    Raised "The password must contain at least 1 digit, 0-9."
  else if decide (findall special password = []) then
    Raised ("The password must contain at least 1 special character: "
            +:+ "()[]{}|`~!@#$%^&*_-+=;:'\" +:+ String "034" ",<>.?")
  else if decide (findall space password ≠ []) then
    Raised "The password must not contain any space characters"
  else Returned ().

(** [fake_password] of the test factories *)
Definition fake_password (rng : nat → nat) : string :=
  "pA$$wd" +:+ join (choices rng (digits +:+ ascii_letters) 20).

End passwords.

(** ** The account serializers and the password reset views *)

Module accounts.

Import validators fields utils passwords.

Module User.
Record t := {
  id : nat;
  email : string;
  password : string
}.
End User.

(** What the account code takes from Django: the normalization of an
    address, the check of [EmailField], and the password hasher. The
    hasher draws a salt for every hash it makes. *)
Class AuthBackend := {
  normalize_email : string → string;
  valid_email : string → bool;
  make_password : nat → string → string;
  check_password : string → string → bool
}.

(** [User.objects.filter(email=email)] *)
Definition filter_email (users : list User.t) (email : string)
  : list User.t :=
  filter (λ u, User.email u = email) users.

Inductive ObjectError := DoesNotExist | MultipleObjectsReturned.

(** [User.objects.get(email=email)] *)
Definition get_email (users : list User.t) (email : string)
  : except ObjectError User.t :=
  match filter_email users email with
  | [] => Raised DoesNotExist
  | [u] => Returned u
  | _ :: _ :: _ => Raised MultipleObjectsReturned
  end.

(** [instance.set_password(raw); instance.save()] *)
Definition set_password `{AuthBackend} (salt : nat) (instance : User.t)
    (raw : string) (users : list User.t) : list User.t :=
  (λ u, if decide (User.id u = User.id instance)
        then {| User.id := User.id instance;
                User.email := User.email instance;
                User.password := make_password salt raw |}
        else u) <$> users.

(** [EmailField]: a [CharField] whose value must look like an address. *)
Definition EmailField `{AuthBackend} (data : string) : except string string :=
  match CharField data with
  | Raised msg => Raised msg
  | Returned value =>
      if valid_email value then Returned value
      else Raised "Enter a valid email address."
  end.

(** A [CharField] with [validate_password] among its validators; the
    message is that of the first validator that fails. *)
Definition PasswordField (data : string) : except string string :=
  match CharField data with
  | Raised msg => Raised msg
  | Returned value =>
      match validate_password value with
      | Raised msg => Raised msg
      | Returned _ =>
          match ProhibitNullCharactersValidator value with
          | Raised e => Raised (message e)
          | Returned _ => Returned value
          end
      end
  end.

(** A [CharField] without validators of the serializer's own. *)
Definition PlainCharField (data : string) : except string string :=
  match CharField data with
  | Raised msg => Raised msg
  | Returned value =>
      match ProhibitNullCharactersValidator value with
      | Raised e => Raised (message e)
      | Returned _ => Returned value
      end
  end.

Definition no_user_found (norm_email : string) : string * string :=
  ("email", "No user " +:+ norm_email +:+ " was found.").

(** The answers of the account views. *)
Inductive AccountResponse :=
  | Ok200 (body : list (string * string))
  | BadRequest400 (errs : errors)
  | ServerError500 (e : ObjectError).

Module FindEmailSerializer.

Definition validate `{AuthBackend} (users : list User.t) (email : string)
  : except (string * string) string :=
  let norm_email := normalize_email email in
  if decide (filter_email users norm_email = [])
  then Raised (no_user_found norm_email)
  else Returned email.

Definition is_valid `{AuthBackend} (users : list User.t)
    (raw_email : raw string) : validation string :=
  match run_validation_required "email" EmailField [] raw_email with
  | Raised errs => Raised errs
  | Returned email =>
      match validate users email with
      | Raised e => Raised [e]
      | Returned email => Returned email
      end
  end.

(** The text of the mail; a missing code prints as [None]. *)
Definition mail_text (email : string) (code_to_send : option string)
  : string :=
  "Hi there, " +:+ email +:+ ". "
  +:+ "Please enter this code to reset your password: "
  +:+ default "None" code_to_send +:+ ". "
  +:+ "Its is only working for 2 minutes, so you should hurry!".

(** [save]: the mail handed to the mail service, as recipient and text,
    and the user, when exactly one has the address as it was given.
    The call of the mail service is taken to return. *)
Definition save (users : list User.t) (email : string) (rng : nat → nat)
  : cache.M ((string * string) * except ObjectError User.t) :=
  code_to_send ← ResetCodeManager.get_or_create_code email rng;
  mret ((email, mail_text email code_to_send), get_email users email).

End FindEmailSerializer.

Module CodeWithEmailSerializer.

Record validated_data := { email : string; code : string }.

Definition validate `{AuthBackend} (users : list User.t)
    (raw_data : validated_data)
  : cache.M (except (string * string) validated_data) :=
  let norm_email := normalize_email (email raw_data) in
  if decide (filter_email users norm_email = [])
  then mret (Raised (no_user_found norm_email))
  else if decide (String.length (code raw_data) ≠ 4
                  ∨ ¬ Forall (λ ch, ch ∈ list_ascii_of_string digits)
                        (list_ascii_of_string (code raw_data)))
  then mret (Raised ("code", "Invalid code provided."))
  else
    used ← ResetCodeManager.try_use_code norm_email (code raw_data);
    if negb used
    then mret (Raised ("code", "Code has expired or it is incorrect."))
    else mret (Returned raw_data).

Definition is_valid `{AuthBackend} (users : list User.t)
    (raw_email raw_code : raw string)
  : cache.M (validation validated_data) :=
  match Returned Build_validated_data
        <*> run_validation_required "email" EmailField [] raw_email
        <*> run_validation_required "code" PlainCharField [] raw_code with
  | Raised errs => mret (Raised errs)
  | Returned raw_data =>
      checked ← validate users raw_data;
      match checked with
      | Raised e => mret (Raised [e])
      | Returned data => mret (Returned data)
      end
  end.

(** [save]: the session token for the address as it was given. *)
Definition save (data : validated_data) (rng : nat → nat)
  : cache.M (option string) :=
  SessionTokenManager.get_or_create_token (email data) rng.

End CodeWithEmailSerializer.

Module ChangePasswordForgotSerializer.

Record validated_data := {
  email : string;
  session_token : string;
  new_password : string;
  confirmation_password : string
}.

(** [validate]: besides the data, the user it stores as [self.instance]. *)
Definition validate `{AuthBackend} (users : list User.t)
    (raw_data : validated_data)
  : cache.M (except (string * string + ObjectError)
               (validated_data * User.t)) :=
  let norm_email := normalize_email (email raw_data) in
  if decide (filter_email users norm_email = [])
  then mret (Raised (inl (no_user_found norm_email)))
  else
    match get_email users norm_email with
    | Raised e => mret (Raised (inr e))
    | Returned instance =>
        if decide (String.length (session_token raw_data) ≠ 32
                   ∨ ¬ Forall (λ ch, ch ∈ list_ascii_of_string
                                            (digits +:+ ascii_letters))
                         (list_ascii_of_string (session_token raw_data)))
        then mret (Raised (inl ("session_token",
                                "Invalid session token provided.")))
        else if decide (new_password raw_data
                        ≠ confirmation_password raw_data)
        then mret (Raised (inl ("non_field_errors",
                                "New passwords don't match!")))
        else
          used ← SessionTokenManager.try_use_token norm_email
                   (session_token raw_data);
          if negb used
          then mret (Raised (inl ("session_token",
                       "Session token has expired or it is incorrect.")))
          else mret (Returned (raw_data, instance))
    end.

Definition fields_valid `{AuthBackend}
    (raw_email raw_token raw_new raw_confirmation : raw string)
  : validation validated_data :=
  Returned Build_validated_data
  <*> run_validation_required "email" EmailField [] raw_email
  <*> run_validation_required "session_token" PlainCharField [] raw_token
  <*> run_validation_required "new_password" PasswordField [] raw_new
  <*> run_validation_required "confirmation_password" PasswordField []
        raw_confirmation.

End ChangePasswordForgotSerializer.

(** [ForgotPasswordViewSet]: the three actions, on the table of the
    users and the cache. *)
Module ForgotPasswordViewSet.

Definition send_email `{AuthBackend} (users : list User.t)
    (raw_email : raw string) (rng : nat → nat) : cache.M AccountResponse :=
  match FindEmailSerializer.is_valid users raw_email with
  | Raised errs => mret (BadRequest400 errs)
  | Returned email =>
      sent ← FindEmailSerializer.save users email rng;
      match sent.2 with
      | Raised e => mret (ServerError500 e)
      | Returned user =>
          mret (Ok200 [("success",
                        "Successfully sent a reset code to "
                        +:+ User.email user +:+ ".")])
      end
  end.

Definition send_reset_code `{AuthBackend} (users : list User.t)
    (raw_email raw_code : raw string) (rng : nat → nat)
  : cache.M AccountResponse :=
  valid ← CodeWithEmailSerializer.is_valid users raw_email raw_code;
  match valid with
  | Raised errs => mret (BadRequest400 errs)
  | Returned data =>
      session_token ← CodeWithEmailSerializer.save data rng;
      mret (Ok200 [("session_token", default "None" session_token)])
  end.

(** [change_password] also returns the table of the users it leaves. *)
Definition change_password `{AuthBackend} (users : list User.t)
    (raw_email raw_token raw_new raw_confirmation : raw string) (salt : nat)
  : cache.M (AccountResponse * list User.t) :=
  match ChangePasswordForgotSerializer.fields_valid
          raw_email raw_token raw_new raw_confirmation with
  | Raised errs => mret (BadRequest400 errs, users)
  | Returned raw_data =>
      checked ← ChangePasswordForgotSerializer.validate users raw_data;
      match checked with
      | Raised (inl e) => mret (BadRequest400 [e], users)
      | Raised (inr e) => mret (ServerError500 e, users)
      | Returned (data, instance) =>
          mret (Ok200 [("success",
                        "Successfully changed password for "
                        +:+ User.email instance +:+ ".")],
                set_password salt instance
                  (ChangePasswordForgotSerializer.new_password data) users)
      end
  end.

End ForgotPasswordViewSet.

End accounts.

(** ** routes4life_api/permissions.py *)

Module permissions.

Import models.

(** The HTTP methods, and the [SAFE_METHODS] of the REST framework. *)
Inductive Method := GET | HEAD | OPTIONS | POST | PUT | PATCH | DELETE.

#[global] Instance Method_eq_dec : EqDecision Method.
Proof. solve_decision. Defined.

Definition SAFE_METHODS : list Method := [GET; HEAD; OPTIONS].

Module IsSameUserOrReadonly.

(** [request.user] is a user, or nobody for the anonymous user, who is
    not authenticated. *)
Definition has_object_permission (method : Method) (user : option nat)
    (place : Place.t) : bool :=
  if decide (method ∈ SAFE_METHODS) then true
  else match user with
       | Some user => bool_decide (user = Place.added_by place)
       | None => false
       end.

End IsSameUserOrReadonly.

End permissions.

(** ** routes4life_api/utils.py: the GeoJSON form of the place data and
       the list of the error messages *)

Module place_utils.

(** The values of the validated data of a place. *)
Inductive value :=
  | VNone
  | VFloat (q : pyfloat)
  | VDecimal (d : Decimal)
  | VStr (s : string)
  | VFile (name : string)
  | VFiles (names : list string).

#[global] Instance value_eq_dec : EqDecision value.
Proof. solve_decision. Defined.

Record Geometry := { geometry_type : string; coordinates : list value }.

Record Feature := {
  geometry : option Geometry;
  type : string;
  properties : gmap string value
}.

(** [data.get(key)]: [None] also for a key that is not there. *)
Definition get (data : gmap string value) (key : string) : value :=
  default VNone (data !! key).

(** [convert_placedata_to_geojson]: the transformed data, and the
    argument as the call leaves it, for the function pops the
    coordinates from the dictionary it is given. *)
Definition convert_placedata_to_geojson (data : gmap string value)
  : Feature * gmap string value :=
  if decide (get data "latitude" ≠ VNone ∧ get data "longitude" ≠ VNone)
  then
    let latitude := get data "latitude" in
    let data := delete "latitude" data in
    let longitude := get data "longitude" in
    let data := delete "longitude" data in
    ({| geometry := Some {| geometry_type := "Point";
                            coordinates := [longitude; latitude] |};
        type := "Feature";
        properties := data |}, data)
  else
    ({| geometry := None; type := "Feature"; properties := data |}, data).

(** The data of an error response: a message, a list, or a dictionary
    in the order of its keys. *)
#[warnings="-register-all"]
Inductive error_data :=
  | ErrorDetail (message : string)
  | ErrorList (items : list error_data)
  | ErrorDict (items : list (string * error_data)).

Fixpoint get_list_from_errors (data : error_data) : list string :=
  match data with
  | ErrorDetail message => [message]
  | ErrorList items =>
      (fix extend (items : list error_data) : list string :=
         match items with
         | [] => []
         | err :: items => get_list_from_errors err ++ extend items
         end) items
  | ErrorDict items =>
      (fix extend (items : list (string * error_data)) : list string :=
         match items with
         | [] => []
         | (_, err) :: items => get_list_from_errors err ++ extend items
         end) items
  end.

Record newdata := { errors : list string; old_repr : error_data }.

(** [custom_exception_handler]: [response] is the data of the response
    of the framework's handler, when it makes one. *)
Definition custom_exception_handler (response : option error_data)
  : option newdata :=
  match response with
  | Some data =>
      Some {| errors := [] ++ get_list_from_errors data; old_repr := data |}
  | None => None
  end.

End place_utils.

(** ** routes4life_api/models.py: the secondary images and the deletion
       of a place *)

Module place_models.

Import models.

Module PlaceImage.
Record t := {
  id : nat;
  place : nat
}.
End PlaceImage.

(** The tables of the places with the table of their images. *)
Record tables := {
  rows : database;
  PlaceImage_objects : list PlaceImage.t
}.

(** [place.secondary_images]: the reverse relation of
    [PlaceImage.place] *)
Definition secondary_images (images : list PlaceImage.t) (place : Place.t)
  : list PlaceImage.t :=
  filter (λ i, PlaceImage.place i = Place.id place) images.

(** [place.delete()]: with [on_delete=CASCADE] the ratings and the
    images of the place are deleted, then the place. *)
Definition Place_delete (tb : tables) (place : Place.t) : tables :=
  {| rows :=
       {| Place_objects :=
            filter (λ p, Place.id p ≠ Place.id place)
              (Place_objects (rows tb));
          PlaceRating_objects :=
            filter (λ r, PlaceRating.place r ≠ Place.id place)
              (PlaceRating_objects (rows tb)) |};
     PlaceImage_objects :=
       filter (λ i, PlaceImage.place i ≠ Place.id place)
         (PlaceImage_objects tb) |}.

End place_models.

(** ** routes4life_api/serializers.py: the serializers that write *)

Module place_serializers.

Import validators models fields serializers accounts place_models.

(** A field of a serializer: with [partial] no field is required. *)
Definition field {A B} (partial required : bool) (field_name : string)
    (to_internal_value : A → except string B)
    (validators : list (B → except ValidationError unit))
    (data : raw A) : validation (option B) :=
  if required && negb partial then
    match run_validation_required field_name to_internal_value validators
            data with
    | Raised errs => Raised errs
    | Returned value => Returned (Some value)
    end
  else run_validation field_name to_internal_value validators data.

(** [CharField(allow_blank=True)] *)
Definition BlankCharField (data : string) : except string string :=
  Returned (strip data).

(** [ImageField]: the file, which is taken to be an image. *)
Definition ImageField (data : string) : except string string :=
  Returned data.

Module CreateUpdatePlaceSerializer.

(** The validated data: a field may be absent. The main image is the
    name of its file; the place of the model has no column for it. *)
Record validated_data := {
  name : option string;
  description : option string;
  address : option string;
  category : option string;
  location : option Point;
  main_image : option string;
  rating : option Decimal
}.

(** [KeyError] of [validated_data.pop], or the error of the database
    for a place without location. *)
Inductive CreateError :=
  | KeyError_main_image
  | KeyError_rating
  | IntegrityError.

(** [create]: [place_pk] and [rating_pk] are the primary keys the
    database gives to the two new rows. A text column that is not
    given is empty. *)
Definition create (db : database) (user : nat)
    (validated_data : validated_data) (place_pk rating_pk : nat)
  : except CreateError (database * Place.t) :=
  match main_image validated_data, rating validated_data with
  | None, _ => Raised KeyError_main_image
  | Some _, None => Raised KeyError_rating
  | Some _, Some rating =>
      match location validated_data with
      | None => Raised IntegrityError
      | Some location =>
          let instance :=
            {| Place.id := place_pk; Place.added_by := user;
               Place.name := default "" (name validated_data);
               Place.description :=
                 default "" (description validated_data);
               Place.address := default "" (address validated_data);
               Place.category := default "" (category validated_data);
               Place.location := location |} in
          Returned
            ({| Place_objects := Place_objects db ++ [instance];
                PlaceRating_objects :=
                  PlaceRating_objects db
                  ++ [ {| PlaceRating.id := rating_pk;
                          PlaceRating.user := user;
                          PlaceRating.place := place_pk;
                          PlaceRating.rating := rating |} ] |},
             instance)
      end
  end.

(** [update]: the fields that are given replace those of the instance,
    which is saved in the place of its row, or as a new row when it has
    none; a rating that is given replaces the rating of every rating
    row of the user for this place. *)
Definition update (db : database) (user : nat) (instance : Place.t)
    (validated_data : validated_data) : database * Place.t :=
  let instance :=
    {| Place.id := Place.id instance;
       Place.added_by := Place.added_by instance;
       Place.name := default (Place.name instance) (name validated_data);
       Place.description :=
         default (Place.description instance) (description validated_data);
       Place.address :=
         default (Place.address instance) (address validated_data);
       Place.category :=
         default (Place.category instance) (category validated_data);
       Place.location :=
         default (Place.location instance) (location validated_data) |} in
  let Place_objects :=
    if decide (Place.id instance ∈ Place.id <$> Place_objects db)
    then (λ p, if decide (Place.id p = Place.id instance)
               then instance else p) <$> Place_objects db
    else Place_objects db ++ [instance] in
  let PlaceRating_objects :=
    match rating validated_data with
    | Some rating =>
        (λ r, if decide (PlaceRating.place r = Place.id instance
                         ∧ PlaceRating.user r = user)
              then {| PlaceRating.id := PlaceRating.id r;
                      PlaceRating.user := PlaceRating.user r;
                      PlaceRating.place := PlaceRating.place r;
                      PlaceRating.rating := rating |}
              else r)
          <$> PlaceRating_objects db
    | None => PlaceRating_objects db
    end in
  ({| Place_objects := Place_objects;
      PlaceRating_objects := PlaceRating_objects |}, instance).

(** What the fields read in the properties of the feature. *)
Definition read {B} (attrs : gmap string place_utils.value) (key : string)
    (as_value : place_utils.value → option B) : raw B :=
  match attrs !! key with
  | None => Missing
  | Some v =>
      match as_value v with
      | Some b => Given b
      | None => Malformed
      end
  end.

Definition as_str (v : place_utils.value) : option string :=
  match v with place_utils.VStr s => Some s | _ => None end.

Definition as_decimal (v : place_utils.value) : option Decimal :=
  match v with place_utils.VDecimal d => Some d | _ => None end.

Definition as_file (v : place_utils.value) : option string :=
  match v with place_utils.VFile name => Some name | _ => None end.

(** The geometry field reads a point from its GeoJSON form: the
    coordinates are x, the longitude, and y, the latitude. *)
Definition read_geometry (geometry : option place_utils.Geometry)
  : raw Point :=
  match geometry with
  | None => Missing
  | Some g =>
      match place_utils.coordinates g with
      | [place_utils.VFloat longitude; place_utils.VFloat latitude] =>
          if decide (place_utils.geometry_type g = "Point")
          then Given {| x := longitude; y := latitude |}
          else Malformed
      | _ => Malformed
      end
  end.

(** [is_valid] on a feature: the fields are read in its properties and
    the location in its geometry. Without [partial] the name, the
    address, the category, the location and the rating are required. *)
Definition is_valid (partial : bool) (feature : place_utils.Feature)
  : validation validated_data :=
  let attrs := place_utils.properties feature in
  Returned (λ rating name description address category location main_image,
              {| name := name; description := description;
                 address := address; category := category;
                 location := location; main_image := main_image;
                 rating := rating |})
  <*> field partial true "rating" (DecimalField 3) []
        (read attrs "rating" as_decimal)
  <*> field partial true "name" (CharField_max_length 200) []
        (read attrs "name" as_str)
  <*> field partial false "description" BlankCharField
        [ProhibitNullCharactersValidator] (read attrs "description" as_str)
  <*> field partial true "address" (CharField_max_length 200) []
        (read attrs "address" as_str)
  <*> field partial true "category" (CharField_max_length 200) []
        (read attrs "category" as_str)
  <*> field partial true "location" (λ p : Point, Returned p) []
        (read_geometry (place_utils.geometry feature))
  <*> field partial false "main_image" ImageField []
        (read attrs "main_image" as_file).

End CreateUpdatePlaceSerializer.

Module ClientValidatePlaceSerializer.

Import place_utils.

(** The request, field by field; an image is the name of its file. *)
Record initial_data := {
  raw_latitude : raw pyfloat;
  raw_longitude : raw pyfloat;
  raw_rating : raw Decimal;
  raw_secondary_images : raw (list string);
  raw_name : raw string;
  raw_description : raw string;
  raw_address : raw string;
  raw_category : raw string;
  raw_main_image : raw string
}.

(** An entry of the validated data, for a field that has a value. *)
Definition entry {B} (key : string) (to_value : B → value) (v : option B)
    (data : gmap string value) : gmap string value :=
  match v with
  | Some b => <[key := to_value b]> data
  | None => data
  end.

(** [is_valid] with the validated data, a dictionary. *)
Definition is_valid (partial : bool) (data : initial_data)
  : validation (gmap string value) :=
  Returned (λ latitude longitude rating secondary_images name description
              address category main_image,
              entry "latitude" VFloat latitude
                (entry "longitude" VFloat longitude
                   (entry "rating" VDecimal rating
                      (entry "secondary_images" VFiles secondary_images
                         (entry "name" VStr name
                            (entry "description" VStr description
                               (entry "address" VStr address
                                  (entry "category" VStr category
                                     (entry "main_image" VFile main_image
                                        ∅)))))))))
  <*> field partial true "latitude" FloatField [validate_latitude]
        (raw_latitude data)
  <*> field partial true "longitude" FloatField [validate_longitude]
        (raw_longitude data)
  <*> field partial true "rating" (DecimalField 3) [validate_rating]
        (raw_rating data)
  <*> field partial false "secondary_images" (ListField ImageField) []
        (raw_secondary_images data)
  <*> field partial true "name" (CharField_max_length 200) []
        (raw_name data)
  <*> field partial false "description" BlankCharField
        [ProhibitNullCharactersValidator] (raw_description data)
  <*> field partial true "address" (CharField_max_length 200) []
        (raw_address data)
  <*> field partial true "category" CharField
        [validate_category; MaxLengthValidator 200;
         ProhibitNullCharactersValidator] (raw_category data)
  <*> field partial true "main_image" ImageField [] (raw_main_image data).

End ClientValidatePlaceSerializer.

Module UpdatePlaceImagesSerializer.

(** An uploaded image is its file name. *)
Record validated_data := {
  images_to_upload : list string;
  image_ids_to_delete : list Z
}.

(** [place.secondary_images.values_list("id", flat=True)] *)
Definition values_list_id (images : list PlaceImage.t) (place : Place.t)
  : list Z :=
  (λ i, Z.of_nat (PlaceImage.id i)) <$> secondary_images images place.

(** [validate]: [list(set(ids))] keeps one of every id; the order of
    the ids plays no part in what follows. *)
Definition validate (images : list PlaceImage.t) (place : Place.t)
    (images_to_upload : option (list string))
    (image_ids_to_delete : option (list Z))
  : except (string * string) validated_data :=
  let images_to_upload := default [] images_to_upload in
  let image_ids_to_delete := default [] image_ids_to_delete in
  let image_ids_to_delete := remove_dups image_ids_to_delete in
  let count := Z.of_nat (length (secondary_images images place)) in
  let num_delete := (count - Z.of_nat (length image_ids_to_delete))%Z in
  if decide (num_delete < 0)%Z then
    Raised ("image_ids_to_delete",
            "You want to remove more images than there is!")
  else if decide (Exists (λ _id, _id ∉ values_list_id images place)
                    image_ids_to_delete) then
    Raised ("image_ids_to_delete", "Some ids do not exist.")
  else
    let num_upload :=
      (count - num_delete + Z.of_nat (length images_to_upload))%Z in
    if decide (num_upload > 10)%Z then
      Raised ("images_to_upload",
              "Total of secondary images has to be less or equal to 10!")
    else
      Returned {| images_to_upload := images_to_upload;
                  image_ids_to_delete := image_ids_to_delete |}.

(** [place_images.get(pk=_id).delete()] *)
Definition get_delete (place : Place.t) (_id : Z)
    (images : list PlaceImage.t)
  : except ObjectError (list PlaceImage.t) :=
  match filter (λ i, Z.of_nat (PlaceImage.id i) = _id)
          (secondary_images images place) with
  | [] => Raised DoesNotExist
  | [image] =>
      Returned (filter (λ i, PlaceImage.id i ≠ PlaceImage.id image) images)
  | _ :: _ :: _ => Raised MultipleObjectsReturned
  end.

(** [save]: the images to delete go, one after the other, then a row
    is made for every upload; [pk] is the primary key the database
    gives to the first of them, the next rows get the keys after it. *)
Definition save (images : list PlaceImage.t) (place : Place.t)
    (validated_data : validated_data) (pk : nat)
  : except ObjectError (list PlaceImage.t) :=
  match
    foldl (λ acc _id,
             match acc with
             | Raised e => Raised e
             | Returned images => get_delete place _id images
             end)
      (Returned images) (image_ids_to_delete validated_data)
  with
  | Raised e => Raised e
  | Returned images =>
      Returned
        (images
         ++ ((λ k, {| PlaceImage.id := k;
                      PlaceImage.place := Place.id place |})
             <$> seq pk (length (images_to_upload validated_data))))
  end.

End UpdatePlaceImagesSerializer.

Module LocationSerializer.

Record validated_data := {
  latitude : pyfloat;
  longitude : pyfloat;
  distance : option pyfloat
}.

(** A required field whose value in the data is [None]. *)
Definition not_null {A B} (field_name : string)
    (to_internal_value : A → except string B)
    (validators : list (B → except ValidationError unit))
    (data : raw A) : validation B :=
  match data with
  | Missing => Raised [(field_name, "This field may not be null.")]
  | _ => run_validation_required field_name to_internal_value validators data
  end.

(** [is_valid] on the data the nearest-places view builds: every key is
    there, and a parameter the query string lacks is [None]. *)
Definition is_valid (latitude longitude distance : raw pyfloat)
  : validation validated_data :=
  Returned Build_validated_data
  <*> not_null "latitude" FloatField [validate_latitude] latitude
  <*> not_null "longitude" FloatField [validate_longitude] longitude
  <*> run_validation "distance" FloatField [validate_distance] distance.

End LocationSerializer.

Module ChangePasswordSerializer.

Import passwords.

Record attrs := {
  password : option string;
  new_password : option string;
  confirmation_password : option string
}.

(** The fields, with [partial=True]: a field the request lacks is left
    out. [password] is the field of the model, of at most 128
    characters. *)
Definition fields_valid (raw_password raw_new raw_confirmation : raw string)
  : validation attrs :=
  Returned Build_attrs
  <*> run_validation "password" (CharField_max_length 128) [] raw_password
  <*> run_validation "new_password" PasswordField [] raw_new
  <*> run_validation "confirmation_password" PasswordField []
        raw_confirmation.

Definition validate `{AuthBackend} (instance : User.t) (raw_data : attrs)
  : except string attrs :=
  match password raw_data, new_password raw_data,
        confirmation_password raw_data with
  | Some password, Some new_password, Some confirmation_password =>
      if negb (check_password password (User.password instance)) then
        Raised "Old password is incorrect!"
      else if check_password new_password (User.password instance) then
        Raised "Changing to the same password is not allowed!"
      else if decide (new_password ≠ confirmation_password) then
        Raised "New passwords don't match!"
      else Returned raw_data
  | _, _, _ => Raised "No fields were provided."
  end.

Definition is_valid `{AuthBackend} (instance : User.t)
    (raw_password raw_new raw_confirmation : raw string)
  : validation attrs :=
  match fields_valid raw_password raw_new raw_confirmation with
  | Raised errs => Raised errs
  | Returned raw_data =>
      match validate instance raw_data with
      | Raised msg => Raised [("non_field_errors", msg)]
      | Returned data => Returned data
      end
  end.

(** [save]: the new password of validated data; these always have it. *)
Definition save `{AuthBackend} (salt : nat) (instance : User.t)
    (validated_data : attrs) (users : list User.t) : list User.t :=
  set_password salt instance (default "" (new_password validated_data))
    users.

End ChangePasswordSerializer.

End place_serializers.

(** ** routes4life_api/views.py: the views of the places and of the
       password of the user *)

Module place_views.

Import models fields serializers accounts permissions place_models.
Import place_serializers.

(** How a view ends: with its result, or with the refusal of
    [get_object_or_404], of the permissions, or of a serializer. *)
Inductive Outcome (A : Type) : Type :=
  | Done (a : A)
  | NotFound
  | PermissionDenied
  | Invalid (errs : errors)
  | Failed (e : ObjectError)
  | Errored (e : CreateUpdatePlaceSerializer.CreateError).
Arguments Done {A} a.
Arguments NotFound {A}.
Arguments PermissionDenied {A}.
Arguments Invalid {A} errs.
Arguments Failed {A} e.
Arguments Errored {A} e.

(** [get_object] of the views that take a place by its key. *)
Definition get_object (db : database) (method : Method) (user : option nat)
    (pk : nat) : Outcome Place.t :=
  match filter (λ p, Place.id p = pk) (Place_objects db) with
  | [] => NotFound
  | [obj] =>
      if IsSameUserOrReadonly.has_object_permission method user obj
      then Done obj else PermissionDenied
  | _ :: _ :: _ => Failed MultipleObjectsReturned
  end.

(** [homepage], the part on the places: those of the user. The
    serializer has the user in its context, so its data are the
    representations of the places. *)
Definition homepage (db : database) (user : option nat)
  : Outcome (list GetPlaceSerializer.representation) :=
  match user with
  | None => PermissionDenied
  | Some user =>
      Done (GetPlaceSerializer.to_representation db user <$> places db user)
  end.

Module PlaceViewSet.

(** [get_places]: the queryset of the view set is [Place.objects.all()]. *)
Definition get_places (db : database) (user : option nat)
  : Outcome (list GetPlaceSerializer.representation) :=
  match user with
  | None => PermissionDenied
  | Some user =>
      Done (GetPlaceSerializer.to_representation db user
              <$> Place_objects db)
  end.

Definition delete_place (tb : tables) (user : option nat) (pk : nat)
  : Outcome unit * tables :=
  match get_object (rows tb) DELETE user pk with
  | Done place => (Done (), Place_delete tb place)
  | NotFound => (NotFound, tb)
  | PermissionDenied => (PermissionDenied, tb)
  | Invalid errs => (Invalid errs, tb)
  | Failed e => (Failed e, tb)
  | Errored e => (Errored e, tb)
  end.

(** [create_place]: the place as it is shown, and the tables as the
    request leaves them; [place_pk], [rating_pk] and [image_pk] are the
    primary keys the database gives to the new rows. *)
Definition create_place (tb : tables) (user : option nat)
    (data : ClientValidatePlaceSerializer.initial_data)
    (place_pk rating_pk image_pk : nat)
  : Outcome GetPlaceSerializer.representation * tables :=
  match user with
  | None => (PermissionDenied, tb)
  | Some user =>
      match ClientValidatePlaceSerializer.is_valid false data with
      | Raised errs => (Invalid errs, tb)
      | Returned validated_data =>
          let transformed_data :=
            (place_utils.convert_placedata_to_geojson validated_data).1 in
          match CreateUpdatePlaceSerializer.is_valid false
                  transformed_data with
          | Raised errs => (Invalid errs, tb)
          | Returned inner_data =>
              match CreateUpdatePlaceSerializer.create (rows tb) user
                      inner_data place_pk rating_pk with
              | Raised e => (Errored e, tb)
              | Returned (db, place) =>
                  let tb := {| rows := db;
                               PlaceImage_objects :=
                                 PlaceImage_objects tb |} in
                  match place_utils.properties transformed_data
                          !! "secondary_images" with
                  | Some (place_utils.VFiles images) =>
                      match UpdatePlaceImagesSerializer.validate
                              (PlaceImage_objects tb) place (Some images)
                              None with
                      | Raised e => (Invalid [e], tb)
                      | Returned validated_data =>
                          match UpdatePlaceImagesSerializer.save
                                  (PlaceImage_objects tb) place
                                  validated_data image_pk with
                          | Raised e => (Failed e, tb)
                          | Returned images =>
                              (Done (GetPlaceSerializer.to_representation
                                       db user place),
                               {| rows := db;
                                  PlaceImage_objects := images |})
                          end
                      end
                  | Some _ =>
                      (Invalid [("images_to_upload",
                                 "Expected a list of items.")], tb)
                  | None =>
                      (Done (GetPlaceSerializer.to_representation db user
                               place), tb)
                  end
              end
          end
      end
  end.

(** [update_place] *)
Definition update_place (tb : tables) (user : option nat) (pk : nat)
    (data : ClientValidatePlaceSerializer.initial_data)
  : Outcome GetPlaceSerializer.representation * tables :=
  match get_object (rows tb) PATCH user pk, user with
  | Done place, Some user =>
      match ClientValidatePlaceSerializer.is_valid true data with
      | Raised errs => (Invalid errs, tb)
      | Returned validated_data =>
          let transformed_data :=
            (place_utils.convert_placedata_to_geojson validated_data).1 in
          match CreateUpdatePlaceSerializer.is_valid true
                  transformed_data with
          | Raised errs => (Invalid errs, tb)
          | Returned inner_data =>
              let '(db, place) :=
                CreateUpdatePlaceSerializer.update (rows tb) user place
                  inner_data in
              (Done (GetPlaceSerializer.to_representation db user place),
               {| rows := db; PlaceImage_objects := PlaceImage_objects tb |})
          end
      end
  | Done _, None => (PermissionDenied, tb)
  | NotFound, _ => (NotFound, tb)
  | PermissionDenied, _ => (PermissionDenied, tb)
  | Invalid errs, _ => (Invalid errs, tb)
  | Failed e, _ => (Failed e, tb)
  | Errored e, _ => (Errored e, tb)
  end.

End PlaceViewSet.

Module UpdatePlaceSecondaryImagesAPIView.

(** [put]: the images of the place after the request. The two lists
    are those the fields of the serializer have read in the request,
    when it has them. *)
Definition put (tb : tables) (user : option nat) (pk : nat)
    (images_to_upload : option (list string))
    (image_ids_to_delete : option (list Z)) (image_pk : nat)
  : Outcome (list PlaceImage.t) * tables :=
  match get_object (rows tb) PUT user pk with
  | Done place =>
      match UpdatePlaceImagesSerializer.validate (PlaceImage_objects tb)
              place images_to_upload image_ids_to_delete with
      | Raised e => (Invalid [e], tb)
      | Returned validated_data =>
          match UpdatePlaceImagesSerializer.save (PlaceImage_objects tb)
                  place validated_data image_pk with
          | Raised e => (Failed e, tb)
          | Returned images =>
              (Done (secondary_images images place),
               {| rows := rows tb; PlaceImage_objects := images |})
          end
      end
  | NotFound => (NotFound, tb)
  | PermissionDenied => (PermissionDenied, tb)
  | Invalid errs => (Invalid errs, tb)
  | Failed e => (Failed e, tb)
  | Errored e => (Errored e, tb)
  end.

End UpdatePlaceSecondaryImagesAPIView.

Module NearestPlacesAPIView.

(** What the view takes from Python and from GEOS on the text of a
    query parameter. *)
Class QueryText := {
  (** [float(text)]: nothing when it raises *)
  python_float : string → option pyfloat;
  (** [GEOSGeometry(text, srid=4326)]: nothing when it raises *)
  GEOSGeometry : string → option Point
}.

(** What [get_queryset] raises: the errors of the serializer, or the
    exception of [GEOSGeometry] or of [D] on a text it cannot read. *)
Inductive Exception :=
  | ValidationErrors (errs : errors)
  | ValueError.

(** [request.query_params.get(name)] as the data of a [FloatField]:
    [None] without the parameter; a text of more than 1000 characters
    is refused, any other goes to [float]. *)
Definition data_of `{QueryText} (param : option string) : raw pyfloat :=
  match param with
  | None => Missing
  | Some text =>
      if decide (1000 < String.length text) then Malformed
      else
        match python_float text with
        | Some value => Given value
        | None => Malformed
        end
  end.

(** ["{}".format(param)] *)
Definition format (param : option string) : string :=
  default "None" param.

(** The number of kilometres of [D(km=dist)], which calls [float] on
    [dist]: on the text of the parameter, or on the number 10 when the
    query string has none. *)
Definition km `{QueryText} (dist : option string) : option pyfloat :=
  match dist with
  | None => Some (float 10)
  | Some text => python_float text
  end.

(** [get_queryset]: [lon], [lat] and [dist] are the parameters of the
    query string. The serializer validates what [float] reads in them;
    the point is made from the texts of [lon] and [lat] themselves, and
    the measure from [dist]. *)
Definition get_queryset `{GeoBackend, QueryText} (db : database)
    (user : nat) (lon lat dist : option string)
  : except Exception (list Place.t) :=
  let distance :=
    match dist with
    | None => Given (float 10)
    | Some _ => data_of dist
    end in
  match LocationSerializer.is_valid (data_of lat) (data_of lon) distance with
  | Raised errs => Raised (ValidationErrors errs)
  | Returned _ =>
      match GEOSGeometry ("POINT(" +:+ format lon +:+ " " +:+ format lat
                          +:+ ")") with
      | None => Raised ValueError
      | Some current_point =>
          match km dist with
          | None => Raised ValueError
          | Some dist =>
              Returned
                (filter (λ p, float8_le
                                (sphere_distance (Place.location p)
                                   current_point)
                                (D_km dist))
                   (filter (λ p, float8_le
                                   (planar_distance (Place.location p)
                                      current_point)
                                   (float 0.1))
                      (places db user)))
          end
      end
  end.

End NearestPlacesAPIView.

(** [change_my_password]: the users after the request. *)
Definition change_my_password `{AuthBackend} (users : list User.t)
    (user : option User.t) (raw_password raw_new raw_confirmation : raw string)
    (salt : nat) : Outcome (list (string * string)) * list User.t :=
  match user with
  | None => (PermissionDenied, users)
  | Some instance =>
      match ChangePasswordSerializer.is_valid instance raw_password raw_new
              raw_confirmation with
      | Raised errs => (Invalid errs, users)
      | Returned validated_data =>
          (Done [("message", "Successfully changed password.")],
           ChangePasswordSerializer.save salt instance validated_data users)
      end
  end.

End place_views.

(** ** routes4life_api/models.py, serializers.py and views.py: the
       registration *)

Module registration.

Import validators fields passwords accounts.

(** [UniqueValidator(queryset=User.objects.all())]: the validator the
    model serializer gives to the address, whose column is unique. *)
Definition UniqueValidator (users : list User.t) (value : string)
  : except ValidationError unit :=
  if decide (filter_email users value ≠ [])
  then Raised {| field := "";
                 message := "user with this email already exists." |}
  else Returned ().

(** [ValueError] of the manager, and the error of the database for a
    second row with an address. *)
Inductive CreateUserError := ValueError | IntegrityError.

(** [UserManager._create_user]; [pk] is the primary key the database
    gives to the row, [salt] the salt of the hasher. The columns the
    properties do not read are left out, as in [User.t]. *)
Definition _create_user `{AuthBackend} (users : list User.t)
    (email password : string) (pk salt : nat)
  : except CreateUserError (list User.t * User.t) :=
  if decide (email = "") then Raised ValueError
  else
    let email := normalize_email email in
    let user := {| User.id := pk; User.email := email;
                   User.password := make_password salt password |} in
    if decide (filter_email users email ≠ []) then Raised IntegrityError
    else Returned (users ++ [user], user).

Definition create_user `{AuthBackend} (users : list User.t)
    (email password : string) (pk salt : nat)
  : except CreateUserError (list User.t * User.t) :=
  _create_user users email password pk salt.

Module RegisterUserSerializer.

Record validated_data := {
  email : string;
  phone_number : string;
  password : string;
  confirmation_password : string
}.

(** A field that is not required and has a default. *)
Definition with_default {B} (value : B) (v : validation (option B))
  : validation B :=
  match v with
  | Raised errs => Raised errs
  | Returned v => Returned (default value v)
  end.

Definition validate (raw_data : validated_data)
  : except string validated_data :=
  if decide (password raw_data ≠ confirmation_password raw_data)
  then Raised "Passwords don't match!"
  else Returned raw_data.

Definition is_valid `{AuthBackend} (users : list User.t)
    (raw_email raw_phone raw_password raw_confirmation : raw string)
  : validation validated_data :=
  match Returned Build_validated_data
        <*> run_validation_required "email" EmailField
              [MaxLengthValidator 254; UniqueValidator users] raw_email
        <*> with_default "+000000000"
              (run_validation "phone_number" (CharField_max_length 16) []
                 raw_phone)
        <*> run_validation_required "password" PasswordField
              [MaxLengthValidator 128] raw_password
        <*> run_validation_required "confirmation_password" PasswordField []
              raw_confirmation with
  | Raised errs => Raised errs
  | Returned raw_data =>
      match validate raw_data with
      | Raised msg => Raised [("non_field_errors", msg)]
      | Returned data => Returned data
      end
  end.

(** [create]: the telephone number goes to a column that [User.t]
    leaves out. *)
Definition create `{AuthBackend} (users : list User.t)
    (validated_data : validated_data) (pk salt : nat)
  : except CreateUserError (list User.t * User.t) :=
  create_user users (email validated_data) (password validated_data) pk salt.

End RegisterUserSerializer.

(** How the registration ends; the tokens of the answer are left
    out. *)
Inductive Registration :=
  | Created201 (user : User.t)
  | BadRequest400 (errs : errors)
  | ServerError500 (e : CreateUserError).

Module RegisterAPIView.

(** [create]: the answer and the users after the request. *)
Definition create `{AuthBackend} (users : list User.t)
    (raw_email raw_phone raw_password raw_confirmation : raw string)
    (pk salt : nat) : Registration * list User.t :=
  match RegisterUserSerializer.is_valid users raw_email raw_phone
          raw_password raw_confirmation with
  | Raised errs => (BadRequest400 errs, users)
  | Returned validated_data =>
      match RegisterUserSerializer.create users validated_data pk salt with
      | Raised e => (ServerError500 e, users)
      | Returned (users, user) => (Created201 user, users)
      end
  end.

End RegisterAPIView.

End registration.

(** ** routes4life_api/views.py: the first filter view *)

Module filter_views.

Import validators models fields serializers views.

Module FilterPlacesAPIView.

(** The body of the request: the fields [PlaceFilterSerializer] reads,
    and whether the body has keys besides them. *)
Record initial_data := {
  raw_latitude : raw pyfloat;
  raw_longitude : raw pyfloat;
  raw_distance : raw pyfloat;
  raw_categories : raw (list string);
  raw_rating : raw Decimal;
  raw_ordering : raw string;
  other_keys : bool
}.

Definition present {A} (data : raw A) : bool :=
  match data with
  | Missing => false
  | _ => true
  end.

(** [bool(request.data != {})] *)
Definition filters_applied (data : initial_data) : bool :=
  present (raw_latitude data) || present (raw_longitude data)
  || present (raw_distance data) || present (raw_categories data)
  || present (raw_rating data) || present (raw_ordering data)
  || other_keys data.

(** [PlaceFilterSerializer(data=request.data).is_valid()] with the
    validated data, from the declarations of the fields *)
Definition is_valid (data : initial_data)
  : validation PlaceFilterSerializer.validated_data :=
  Returned PlaceFilterSerializer.Build_validated_data
  <*> run_validation_required "latitude" FloatField [validate_latitude]
        (raw_latitude data)
  <*> run_validation_required "longitude" FloatField [validate_longitude]
        (raw_longitude data)
  <*> run_validation_required "distance" FloatField [validate_distance]
        (raw_distance data)
  <*> run_validation "categories" (ListField (CharField_max_length 50)) []
        (raw_categories data)
  <*> run_validation "rating" (DecimalField 3) [] (raw_rating data)
  <*> run_validation "ordering" CharField
        [validate_place_ordering; MaxLengthValidator 50;
         ProhibitNullCharactersValidator]
        (raw_ordering data).

Definition post `{GeoBackend, GenericAPIView} (db : database) (user : nat)
    (search : string) (data : initial_data) : HttpResponse :=
  let filters_applied := filters_applied data in
  if filters_applied then
    match is_valid data with
    | Raised errs => BadRequest errs
    | Returned validated_data =>
        let qs :=
          PlaceFilterSerializer.get_filters_applied_queryset db user
            validated_data in
        let qs := filter (λ p, search_matches search p) qs in
        match paginate_queryset qs with
        | Some page =>
            match GetPlaceSerializer.data db None page with
            | Returned results => PaginatedResponse results
            | Raised _ => ServerError
            end
        | None =>
            match GetPlaceSerializer.data db (Some user) qs with
            | Returned places =>
                Response {[ "filters_applied" := JBool filters_applied;
                            "places" := JPlaces places ]}
            | Raised _ => ServerError
            end
        end
    end
  else
    let categories := values_category_count (places db user) in
    let categories :=
      dict ((λ item,
               (item.1,
                take 10 (filter (λ p, Place.category p = item.1)
                           (places db user))))
            <$> filter (λ item, item.2 ≠ 0) categories) in
    let data_split_by_categories :=
      (λ qs, GetPlaceSerializer.to_representation db user <$> qs)
        <$> categories in
    Response ((JPlaces <$> data_split_by_categories)
              ∪ {[ "filters_applied" := JBool filters_applied ]}).

End FilterPlacesAPIView.

End filter_views.
(** * The vocabulary of the properties *)

Section secret_vocabulary.

Import utils.

(** The contract both managers instantiate, written once over the key. *)
Definition get_or_create (key secret : string) (ttl : nat)
  : cache.M (option string) :=
  stored ← cache.get key;
  match stored with
  | Some v => mret (Some v)
  | None => cache.add key secret ttl;; cache.get key
  end.

Definition try_consume (key candidate : string) : cache.M bool :=
  stored ← cache.get key;
  if decide (stored ≠ Some candidate) then mret false
  else cache.delete key;; mret true.

(** The single-use contract of a consuming function that works on the
    entry stored under [key]. *)
Definition single_use (key : string) (consume : string → cache.M bool)
  : Prop :=
  ∀ candidate now s,
    let '(ok, s') := consume candidate now s in
    (ok = true ↔
       ∃ e, s !! key = Some e ∧ cache.live now e
            ∧ cache.value e = candidate)
    ∧ (ok = true → s' = delete key s)
    ∧ (ok = false → s' = s)
    ∧ (ok = true → ∀ now', consume candidate now' s' = (false, s')).

(** A code as [get_or_create_code] mints it: four characters, each a
    decimal digit. *)
Definition four_digits (code : string) : Prop :=
  String.length code = 4
  ∧ Forall (λ c, c ∈ list_ascii_of_string digits)
      (list_ascii_of_string code).

End secret_vocabulary.

Section filter_vocabulary.

Import models serializers.

(** [place.ratings.filter(user=place.added_by)] *)
Definition ratings_from_author (db : database) (place : Place.t)
  : list PlaceRating.t :=
  filter (λ r, PlaceRating.user r = Place.added_by place) (ratings db place).

(** The owner's rating as the filter reads it: the rating of the
    first such record, if there is one. *)
Definition owner_rating (db : database) (place : Place.t)
  : option Decimal :=
  PlaceRating.rating <$> head (ratings_from_author db place).

(** What the rating step promises for a threshold, between the places
    that enter it and the places that are returned: the returned places
    entered it and none has an owner rating below the threshold. *)
Definition rating_step_sound (db : database) (R : Decimal)
    (candidates returned : list Place.t) : Prop :=
  (∀ p, p ∈ returned →
        owner_rating db p = None
        ∨ ∃ r, owner_rating db p = Some r ∧ (R ≤ r)%Z)
  ∧ (∀ p, p ∈ returned → p ∈ candidates).

(** The places left out are exactly those with an owner rating below
    the threshold; a place without owner rating is never left out. *)
Definition rating_step_exact (db : database) (R : Decimal)
    (candidates returned : list Place.t) : Prop :=
  (∀ p, p ∈ candidates →
        (p ∉ returned ↔ ∃ r, owner_rating db p = Some r ∧ (r < R)%Z))
  ∧ (∀ p, p ∈ candidates → owner_rating db p = None → p ∈ returned).

(** The same validated data without the [rating] parameter. *)
Definition without_rating (data : PlaceFilterNewSerializer.validated_data)
  : PlaceFilterNewSerializer.validated_data :=
  {| PlaceFilterNewSerializer.apply_filters :=
       PlaceFilterNewSerializer.apply_filters data;
     PlaceFilterNewSerializer.split_categories :=
       PlaceFilterNewSerializer.split_categories data;
     PlaceFilterNewSerializer.latitude :=
       PlaceFilterNewSerializer.latitude data;
     PlaceFilterNewSerializer.longitude :=
       PlaceFilterNewSerializer.longitude data;
     PlaceFilterNewSerializer.distance :=
       PlaceFilterNewSerializer.distance data;
     PlaceFilterNewSerializer.categories :=
       PlaceFilterNewSerializer.categories data;
     PlaceFilterNewSerializer.rating := None;
     PlaceFilterNewSerializer.ordering :=
       PlaceFilterNewSerializer.ordering data |}.

Definition without_rating_old (data : PlaceFilterSerializer.validated_data)
  : PlaceFilterSerializer.validated_data :=
  {| PlaceFilterSerializer.latitude := PlaceFilterSerializer.latitude data;
     PlaceFilterSerializer.longitude := PlaceFilterSerializer.longitude data;
     PlaceFilterSerializer.distance := PlaceFilterSerializer.distance data;
     PlaceFilterSerializer.categories :=
       PlaceFilterSerializer.categories data;
     PlaceFilterSerializer.rating := None;
     PlaceFilterSerializer.ordering := PlaceFilterSerializer.ordering data |}.

(** The data [PlaceFilterNewSerializer] would hold for a request that
    [PlaceFilterSerializer] validated: filters are always applied and
    the distance is always there. *)
Definition as_new (data : PlaceFilterSerializer.validated_data)
  : PlaceFilterNewSerializer.validated_data :=
  {| PlaceFilterNewSerializer.apply_filters := true;
     PlaceFilterNewSerializer.split_categories := false;
     PlaceFilterNewSerializer.latitude := PlaceFilterSerializer.latitude data;
     PlaceFilterNewSerializer.longitude :=
       PlaceFilterSerializer.longitude data;
     PlaceFilterNewSerializer.distance :=
       Some (PlaceFilterSerializer.distance data);
     PlaceFilterNewSerializer.categories :=
       PlaceFilterSerializer.categories data;
     PlaceFilterNewSerializer.rating := PlaceFilterSerializer.rating data;
     PlaceFilterNewSerializer.ordering :=
       PlaceFilterSerializer.ordering data |}.

(** The bounds of steps 1 to 3 of the pipeline: owner, prefilter,
    distance and categories. *)
Definition within_bounds `{GeoBackend} (db : database) (user : nat)
    (data : PlaceFilterNewSerializer.validated_data) (p : Place.t) : Prop :=
  let current_point :=
    GEOSGeometry_POINT (PlaceFilterNewSerializer.longitude data)
      (PlaceFilterNewSerializer.latitude data) in
  p ∈ places db user
  ∧ float8_le (planar_distance (Place.location p) current_point)
      (float 0.05)
  ∧ float8_le (sphere_distance (Place.location p) current_point)
      (D_km (default (float 5.0) (PlaceFilterNewSerializer.distance data)))
  ∧ (∀ cs, PlaceFilterNewSerializer.categories data = Some cs →
           Place.category p ∈ cs).

(** A stand-in for the spatial database, for the examples: degrees are
    measured along the axes and one degree is 111 km everywhere; the
    distance is NaN unless all four coordinates are numbers. *)
Definition axis_distance (a b : Point) : pyfloat :=
  match x a, y a, x b, y b with
  | number xa, number ya, number xb, number yb =>
      let dx := (xa - xb)%Qc in
      let dy := (ya - yb)%Qc in
      number ((if decide (dx < 0)%Qc then - dx else dx)
              + (if decide (dy < 0)%Qc then - dy else dy))%Qc
  | _, _, _, _ => nan
  end.

Definition example_backend : GeoBackend :=
  {| planar_distance := axis_distance;
     sphere_distance a b :=
       match axis_distance a b with
       | number degrees => number (degrees * Q2Qc 111000)
       | other => other
       end |}.

Definition example_place (id user : nat) (category : string)
    (longitude latitude : Q) : Place.t :=
  {| Place.id := id; Place.added_by := user; Place.name := "place";
     Place.description := ""; Place.address := "street";
     Place.category := category;
     Place.location := GEOSGeometry_POINT (float longitude) (float latitude) |}.

Definition example_rating (id user place : nat) (rating : Decimal)
  : PlaceRating.t :=
  {| PlaceRating.id := id; PlaceRating.user := user;
     PlaceRating.place := place; PlaceRating.rating := rating |}.

(** User 1 owns places 1 to 3 near the origin, user 2 owns place 4.
    The owner rated place 1 with 4.50 and place 2 with 2.00; place 3
    carries a rating by user 2 only. *)
Definition example_db : database :=
  {| Place_objects :=
       [ example_place 1 1 "art" 0 0;
         example_place 2 1 "city" 0.01 0;
         example_place 3 1 "city" 0.03 0.01;
         example_place 4 2 "city" 0 0 ];
     PlaceRating_objects :=
       [ example_rating 1 1 1 450; example_rating 2 1 2 200;
         example_rating 3 2 3 100 ] |}.

Definition example_data (apply_filters split_categories : bool)
    (distance : option pyfloat) (rating : option Decimal)
    (ordering : option string)
  : PlaceFilterNewSerializer.validated_data :=
  {| PlaceFilterNewSerializer.apply_filters := apply_filters;
     PlaceFilterNewSerializer.split_categories := split_categories;
     PlaceFilterNewSerializer.latitude := float 0;
     PlaceFilterNewSerializer.longitude := float 0;
     PlaceFilterNewSerializer.distance := distance;
     PlaceFilterNewSerializer.categories := None;
     PlaceFilterNewSerializer.rating := rating;
     PlaceFilterNewSerializer.ordering := ordering |}.

End filter_vocabulary.

Section validation_vocabulary.

Import fields.

(** A serializer fails with an error entry: it raises an error list
    that holds the entry. *)
Definition fails_with {A} (v : validation A) (entry : string * string)
  : Prop :=
  ∃ errs, v = Raised errs ∧ entry ∈ errs.

End validation_vocabulary.

Section request_vocabulary.

Import models fields serializers views.
Import PlaceFilterNewSerializer.

(** A coordinate the validator of its field refuses: absent,
    unreadable, or found below the range or above it. *)
Definition coordinate_rejected (low high : Q) (r : raw pyfloat) : Prop :=
  match r with
  | Missing | Malformed => True
  | Given v => float_lt v (float low) ∨ float_lt (float high) v
  end.

(** A coordinate that is not in the closed range: absent, unreadable,
    or a float that is not both at least [low] and at most [high]. NaN
    is in no range. *)
Definition outside_range (low high : Q) (r : raw pyfloat) : Prop :=
  match r with
  | Missing | Malformed => True
  | Given v => ¬ (float_le (float low) v ∧ float_le v (float high))
  end.

(** The shape [CharField(max_length=50)] asks of a list member. *)
Definition well_shaped (c : string) : Prop :=
  strip c ≠ "" ∧ String.length (strip c) ≤ 50
  ∧ Ascii.zero ∉ list_ascii_of_string (strip c).

(** A request body around the origin, for the examples. *)
Definition example_body (apply_filters split_categories : bool)
    (latitude : Q) (distance : raw pyfloat) (categories : raw (list string))
  : initial_data :=
  {| raw_apply_filters := Given apply_filters;
     raw_split_categories := Given split_categories;
     raw_latitude := Given (float latitude);
     raw_longitude := Given (float 0);
     raw_distance := distance;
     raw_categories := categories;
     raw_rating := Missing;
     raw_ordering := Missing |}.

(** The body that asks for all the places of the user, unsplit, with
    NaN for both coordinates: the text [nan] in both fields. *)
Definition nan_body : initial_data :=
  {| raw_apply_filters := Given false;
     raw_split_categories := Given false;
     raw_latitude := Given nan;
     raw_longitude := Given nan;
     raw_distance := Missing;
     raw_categories := Missing;
     raw_rating := Missing;
     raw_ordering := Missing |}.

(** A view without paginator whose search keeps every place. *)
Definition example_view : GenericAPIView :=
  {| search_matches := λ _ _, true;
     paginate_queryset := λ _, None |}.

(** Twelve places in category city and three in category art, all of
    user 1. *)
Definition crowded_db : database :=
  {| Place_objects :=
       ((λ i, example_place i 1 "city" 0 0) <$> seq 1 12)
       ++ ((λ i, example_place i 1 "art" 0 0) <$> seq 13 3);
     PlaceRating_objects := [] |}.

End request_vocabulary.


(** ** Vocabulary of the further properties *)

Section ordering_vocabulary.

Import models serializers.

(** The same validated data without the [ordering] parameter. *)
Definition without_ordering (data : PlaceFilterNewSerializer.validated_data)
  : PlaceFilterNewSerializer.validated_data :=
  {| PlaceFilterNewSerializer.apply_filters :=
       PlaceFilterNewSerializer.apply_filters data;
     PlaceFilterNewSerializer.split_categories :=
       PlaceFilterNewSerializer.split_categories data;
     PlaceFilterNewSerializer.latitude :=
       PlaceFilterNewSerializer.latitude data;
     PlaceFilterNewSerializer.longitude :=
       PlaceFilterNewSerializer.longitude data;
     PlaceFilterNewSerializer.distance :=
       PlaceFilterNewSerializer.distance data;
     PlaceFilterNewSerializer.categories :=
       PlaceFilterNewSerializer.categories data;
     PlaceFilterNewSerializer.rating :=
       PlaceFilterNewSerializer.rating data;
     PlaceFilterNewSerializer.ordering := None |}.

(** The annotations the two orders sort by. *)
Definition distance_annotation `{GeoBackend}
    (data : PlaceFilterNewSerializer.validated_data) (p : Place.t)
  : pyfloat :=
  planar_distance (Place.location p)
    (GEOSGeometry_POINT (PlaceFilterNewSerializer.longitude data)
       (PlaceFilterNewSerializer.latitude data)).

Definition rating_annotation (db : database) (user : nat) (p : Place.t)
  : option Qc :=
  Avg (rating_subquery db user p).

End ordering_vocabulary.

Section account_vocabulary.

Import fields utils passwords accounts.

(** A stand-in for Django's part of the account code, for the examples:
    the address is normalized by lowering the letters after the last at
    sign, an address is valid when it has an at sign, and the hash is
    the password behind a tag. *)
Definition lower_ascii (c : ascii) : ascii :=
  if upper c then ascii_of_nat (nat_of_ascii c + 32) else c.

Fixpoint lower_domain (s : string) : string * bool :=
  match s with
  | EmptyString => (EmptyString, false)
  | String c rest =>
      let '(rest', seen) := lower_domain rest in
      if seen then (String c rest', true)
      else if decide (c = "@"%char) then (String c rest', true)
      else (String (lower_ascii c) rest', false)
  end.

Definition example_normalize_email (email : string) : string :=
  let '(lowered, seen) := lower_domain email in
  if seen then lowered else email.

Definition example_auth : AuthBackend :=
  {| normalize_email := example_normalize_email;
     valid_email := λ email, serializers.contains "@" email;
     make_password := λ _ raw, "hash$" +:+ raw;
     check_password := λ raw hashed, bool_decide (hashed = "hash$" +:+ raw) |}.

Definition example_users : list User.t :=
  [ {| User.id := 1; User.email := "ann@mail.io";
       User.password := "hash$pA$$w0rd-old" |};
    {| User.id := 2; User.email := "bob@mail.io";
       User.password := "hash$s3cret-PW!" |} ].

End account_vocabulary.

Section place_vocabulary.

Import models serializers place_models place_serializers.

(** What the views that write keep: every place has its own key and
    exactly one rating row, and that row is the owner's. *)
Definition owner_rated (db : database) : Prop :=
  NoDup (Place.id <$> Place_objects db)
  ∧ NoDup (PlaceRating.place <$> PlaceRating_objects db)
  ∧ (∀ p, p ∈ Place_objects db →
          Place.id p ∈ PlaceRating.place <$> PlaceRating_objects db)
  ∧ (∀ r, r ∈ PlaceRating_objects db →
          ∃ p, p ∈ Place_objects db ∧ Place.id p = PlaceRating.place r
               ∧ Place.added_by p = PlaceRating.user r).

(** The databases the serializer and the deletion build from the empty
    one: a new place gets a key no place has, and a place that is
    updated is a row of the table. *)
Inductive built : database → Prop :=
  | built_empty :
      built {| Place_objects := []; PlaceRating_objects := [] |}
  | built_create db user validated_data place_pk rating_pk db' instance :
      built db →
      place_pk ∉ Place.id <$> Place_objects db →
      CreateUpdatePlaceSerializer.create db user validated_data place_pk
        rating_pk = Returned (db', instance) →
      built db'
  | built_update db user instance validated_data :
      built db →
      instance ∈ Place_objects db →
      built (CreateUpdatePlaceSerializer.update db user instance
               validated_data).1
  | built_delete db images place :
      built db →
      built (rows (Place_delete
                     {| rows := db; PlaceImage_objects := images |} place)).

(** The database after user 1 has made a place of category art, rated
    4.50, in the empty database. *)
Definition empty_db : database :=
  {| Place_objects := []; PlaceRating_objects := [] |}.

Definition example_created : database :=
  {| Place_objects := [example_place 1 1 "art" 0 0];
     PlaceRating_objects := [example_rating 1 1 1 450] |}.

(** The images of user 1's place 1 and place 2. *)
Definition example_images : list PlaceImage.t :=
  [ {| PlaceImage.id := 1; PlaceImage.place := 1 |};
    {| PlaceImage.id := 2; PlaceImage.place := 2 |};
    {| PlaceImage.id := 3; PlaceImage.place := 1 |} ].

Definition example_tables : tables :=
  {| rows := example_db; PlaceImage_objects := example_images |}.

(** The data of a new place at the origin. *)
Definition example_place_data (category : string) (rating : Decimal)
  : CreateUpdatePlaceSerializer.validated_data :=
  {| CreateUpdatePlaceSerializer.name := Some "place";
     CreateUpdatePlaceSerializer.description := None;
     CreateUpdatePlaceSerializer.address := Some "street";
     CreateUpdatePlaceSerializer.category := Some category;
     CreateUpdatePlaceSerializer.location :=
       Some (GEOSGeometry_POINT (float 0) (float 0));
     CreateUpdatePlaceSerializer.main_image := Some "main.png";
     CreateUpdatePlaceSerializer.rating := Some rating |}.

(** Data that change the rating only. *)
Definition example_rating_data (rating : Decimal)
  : CreateUpdatePlaceSerializer.validated_data :=
  {| CreateUpdatePlaceSerializer.name := None;
     CreateUpdatePlaceSerializer.description := None;
     CreateUpdatePlaceSerializer.address := None;
     CreateUpdatePlaceSerializer.category := None;
     CreateUpdatePlaceSerializer.location := None;
     CreateUpdatePlaceSerializer.main_image := None;
     CreateUpdatePlaceSerializer.rating := Some rating |}.

(** A request for a cafe of category art with one secondary image. *)
Definition example_place_request
  : ClientValidatePlaceSerializer.initial_data :=
  {| ClientValidatePlaceSerializer.raw_latitude := fields.Given (float 0.5);
     ClientValidatePlaceSerializer.raw_longitude := fields.Given (float 1.5);
     ClientValidatePlaceSerializer.raw_rating := fields.Given 450%Z;
     ClientValidatePlaceSerializer.raw_secondary_images :=
       fields.Given ["a.png"];
     ClientValidatePlaceSerializer.raw_name := fields.Given "cafe";
     ClientValidatePlaceSerializer.raw_description := fields.Missing;
     ClientValidatePlaceSerializer.raw_address := fields.Given "street";
     ClientValidatePlaceSerializer.raw_category := fields.Given "art";
     ClientValidatePlaceSerializer.raw_main_image :=
       fields.Given "main.png" |}.

(** A request that sends a latitude and nothing else. *)
Definition example_latitude_request
  : ClientValidatePlaceSerializer.initial_data :=
  {| ClientValidatePlaceSerializer.raw_latitude := fields.Given (float 0.5);
     ClientValidatePlaceSerializer.raw_longitude := fields.Missing;
     ClientValidatePlaceSerializer.raw_rating := fields.Missing;
     ClientValidatePlaceSerializer.raw_secondary_images := fields.Missing;
     ClientValidatePlaceSerializer.raw_name := fields.Missing;
     ClientValidatePlaceSerializer.raw_description := fields.Missing;
     ClientValidatePlaceSerializer.raw_address := fields.Missing;
     ClientValidatePlaceSerializer.raw_category := fields.Missing;
     ClientValidatePlaceSerializer.raw_main_image := fields.Missing |}.

(** A stand-in for the readers of the text of a query parameter, for
    the examples: [float] reads the texts [0], [0_0] and [2] as numbers
    and the text [nan] as NaN, and GEOS reads the origin from its text
    and a point without numbers from the text with [nan]. *)
Definition example_text : place_views.NearestPlacesAPIView.QueryText :=
  {| place_views.NearestPlacesAPIView.python_float text :=
       if decide (text = "0") then Some (float 0)
       else if decide (text = "0_0") then Some (float 0)
       else if decide (text = "2") then Some (float 2)
       else if decide (text = "nan") then Some nan
       else None;
     place_views.NearestPlacesAPIView.GEOSGeometry text :=
       if decide (text = "POINT(0 0)")
       then Some (GEOSGeometry_POINT (float 0) (float 0))
       else if decide (text = "POINT(nan nan)")
       then Some (GEOSGeometry_POINT nan nan)
       else None |}.

End place_vocabulary.

Section registration_vocabulary.

Import accounts.

(** Eve, as the registration stores her. *)
Definition example_eve : User.t :=
  {| User.id := 3; User.email := "eve@mail.io";
     User.password := "hash$n3w-Passw0rd" |}.

End registration_vocabulary.

Section filter_view_vocabulary.

Import models fields serializers views filter_views.

(** Two responses that differ at most in the key [is_split]. *)
Definition same_but_is_split (a b : HttpResponse) : Prop :=
  match a, b with
  | Response x, Response y => ∀ k, k ≠ "is_split" → x !! k = y !! k
  | _, _ => a = b
  end.

(** The request to the second filter view that asks what a request with
    a body asks of the first: the same fields, with the filters
    applied and without the split. *)
Definition filtering_request (user : nat) (search : string)
    (data : FilterPlacesAPIView.initial_data) : Request :=
  {| views.user := user; views.search := search;
     views.data :=
       {| PlaceFilterNewSerializer.raw_apply_filters := Given true;
          PlaceFilterNewSerializer.raw_split_categories := Given false;
          PlaceFilterNewSerializer.raw_latitude :=
            FilterPlacesAPIView.raw_latitude data;
          PlaceFilterNewSerializer.raw_longitude :=
            FilterPlacesAPIView.raw_longitude data;
          PlaceFilterNewSerializer.raw_distance :=
            FilterPlacesAPIView.raw_distance data;
          PlaceFilterNewSerializer.raw_categories :=
            FilterPlacesAPIView.raw_categories data;
          PlaceFilterNewSerializer.raw_rating :=
            FilterPlacesAPIView.raw_rating data;
          PlaceFilterNewSerializer.raw_ordering :=
            FilterPlacesAPIView.raw_ordering data |} |}.

(** The request to the second filter view for the split of the places,
    from a point. *)
Definition splitting_request (user : nat) (search : string)
    (latitude longitude : pyfloat) : Request :=
  {| views.user := user; views.search := search;
     views.data :=
       {| PlaceFilterNewSerializer.raw_apply_filters := Given false;
          PlaceFilterNewSerializer.raw_split_categories := Given true;
          PlaceFilterNewSerializer.raw_latitude := Given latitude;
          PlaceFilterNewSerializer.raw_longitude := Given longitude;
          PlaceFilterNewSerializer.raw_distance := Missing;
          PlaceFilterNewSerializer.raw_categories := Missing;
          PlaceFilterNewSerializer.raw_rating := Missing;
          PlaceFilterNewSerializer.raw_ordering := Missing |} |}.

(** The empty body, and a body with the three required fields. *)
Definition empty_body : FilterPlacesAPIView.initial_data :=
  {| FilterPlacesAPIView.raw_latitude := Missing;
     FilterPlacesAPIView.raw_longitude := Missing;
     FilterPlacesAPIView.raw_distance := Missing;
     FilterPlacesAPIView.raw_categories := Missing;
     FilterPlacesAPIView.raw_rating := Missing;
     FilterPlacesAPIView.raw_ordering := Missing;
     FilterPlacesAPIView.other_keys := false |}.

Definition example_filter_body : FilterPlacesAPIView.initial_data :=
  {| FilterPlacesAPIView.raw_latitude := Given (float 0);
     FilterPlacesAPIView.raw_longitude := Given (float 0);
     FilterPlacesAPIView.raw_distance := Given (float 2);
     FilterPlacesAPIView.raw_categories := Missing;
     FilterPlacesAPIView.raw_rating := Missing;
     FilterPlacesAPIView.raw_ordering := Missing;
     FilterPlacesAPIView.other_keys := false |}.

End filter_view_vocabulary.
(** * Properties *)

Section cache_facts.

Implicit Types (s : cache.store) (key : string) (now : nat).

Lemma cache_get_store key now s : (cache.get key now s).2 = s.
Proof. unfold cache.get. destruct (s !! key); [case_decide|]; done. Qed.

Lemma cache_get_Some key now s v :
  (cache.get key now s).1 = Some v ↔
  ∃ e, s !! key = Some e ∧ cache.live now e ∧ cache.value e = v.
Proof.
  unfold cache.get. destruct (s !! key) as [e|] eqn:E.
  - case_decide; simpl; split.
    + intros [= <-]. by exists e.
    + by intros (? & [= <-] & _ & <-).
    + done.
    + intros (? & [= <-] & ? & _). done.
  - simpl. split; [done|]. by intros (? & ? & _).
Qed.

Lemma cache_get_None key now s :
  (cache.get key now s).1 = None ↔
  ∀ e, s !! key = Some e → ¬ cache.live now e.
Proof.
  unfold cache.get. destruct (s !! key) as [e|] eqn:E.
  - case_decide; simpl; split; try done.
    + intros H'. by destruct (H' e).
    + by intros _ ? [= <-].
  - simpl. split; done.
Qed.

End cache_facts.

(** ** The secret managers *)

Section string_facts.

Lemma string_length_app (a b : string) :
  String.length (a +:+ b) = String.length a + String.length b.
Proof. induction a as [|c a IH]; simpl; [done|]. by rewrite IH. Qed.

(** Two emails that get the same suffix appended are the same email. *)
Lemma string_app_inj_r (suffix a b : string) :
  a +:+ suffix = b +:+ suffix → a = b.
Proof.
  revert b. induction a as [|c a IH]; intros [|d b] E.
  - done.
  - apply (f_equal String.length) in E.
    rewrite !string_length_app in E. simpl in E. lia.
  - apply (f_equal String.length) in E.
    rewrite !string_length_app in E. simpl in E. lia.
  - change (String c (a +:+ suffix) = String d (b +:+ suffix)) in E.
    injection E as -> E. f_equal. by apply IH.
Qed.

Lemma string_length_join (cs : list ascii) :
  String.length (utils.join cs) = length cs.
Proof. induction cs as [|c cs IH]; simpl; [done|]. by rewrite IH. Qed.

End string_facts.

Section secret_store.

Implicit Types (s : cache.store) (key email : string) (now : nat).

Lemma get_or_create_code_unfold email rng :
  utils.ResetCodeManager.get_or_create_code email rng =
  get_or_create (email +:+ "__code")
    (utils.join (utils.choices rng utils.digits 4)) 120.
Proof. reflexivity. Qed.

Lemma get_or_create_token_unfold email rng :
  utils.SessionTokenManager.get_or_create_token email rng =
  get_or_create (email +:+ "__token")
    (utils.join
       (utils.choices rng (utils.digits +:+ utils.ascii_letters) 32)) 600.
Proof. reflexivity. Qed.

Lemma try_use_code_unfold email code :
  utils.ResetCodeManager.try_use_code email code =
  try_consume (email +:+ "__code") code.
Proof. reflexivity. Qed.

Lemma try_use_token_unfold email token :
  utils.SessionTokenManager.try_use_token email token =
  try_consume (email +:+ "__token") token.
Proof. reflexivity. Qed.

(** What [try_consume] returns and what it leaves behind. *)
Lemma try_consume_hit key candidate now s e :
  s !! key = Some e → cache.live now e → cache.value e = candidate →
  try_consume key candidate now s = (true, delete key s).
Proof.
  intros E L V. unfold try_consume, mbind, cache.bind, cache.get.
  rewrite E. rewrite decide_True by done. rewrite V.
  rewrite decide_False by (intros ?; congruence). done.
Qed.

Lemma try_consume_miss key candidate now s :
  (∀ e, s !! key = Some e → cache.live now e → cache.value e ≠ candidate) →
  try_consume key candidate now s = (false, s).
Proof.
  intros N. unfold try_consume, mbind, cache.bind, cache.get.
  destruct (s !! key) as [e|] eqn:E; [|done].
  destruct (decide (cache.live now e)) as [L|L]; [|done].
  rewrite decide_True; [done|]. intros [= V]. by eapply N.
Qed.

Lemma try_consume_spec key candidate now s :
  (∃ e, s !! key = Some e ∧ cache.live now e ∧ cache.value e = candidate
        ∧ try_consume key candidate now s = (true, delete key s))
  ∨ ((∀ e, s !! key = Some e → cache.live now e → cache.value e ≠ candidate)
     ∧ try_consume key candidate now s = (false, s)).
Proof.
  destruct (s !! key) as [e|] eqn:E.
  - destruct (decide (cache.live now e ∧ cache.value e = candidate))
      as [[L V]|N].
    + left. exists e. eauto using try_consume_hit.
    + right. split; [intros e' [= <-]; tauto|].
      apply try_consume_miss. intros e' E'. rewrite E in E'.
      injection E' as <-. tauto.
  - right. split; [by intros ? [=]|].
    apply try_consume_miss. intros ? E'. by rewrite E in E'.
Qed.

(** The four facts of the single-use contract, for the generic form. *)
Lemma try_consume_single_use key : single_use key (try_consume key).
Proof.
  intros candidate now s.
  destruct (try_consume_spec key candidate now s)
    as [(e & E & L & V & ->)|[N ->]].
  - split_and!; [split; eauto|done|done|].
    intros _ now'. apply try_consume_miss.
    intros e'. by rewrite lookup_delete_eq.
  - split_and!; [split; [done|]|done..].
    intros (e & E & L & V). by destruct (N e).
Qed.

(** What [get_or_create] returns and what it leaves behind. *)
Lemma get_or_create_live key secret ttl now s e :
  s !! key = Some e → cache.live now e →
  get_or_create key secret ttl now s = (Some (cache.value e), s).
Proof.
  intros E L. unfold get_or_create, mbind, cache.bind, cache.get.
  rewrite E. by rewrite decide_True.
Qed.

Lemma get_or_create_fresh key secret ttl now s :
  (∀ e, s !! key = Some e → ¬ cache.live now e) → 0 < ttl →
  get_or_create key secret ttl now s =
  (Some secret, <[key := cache.Entry secret (now + ttl)]> s).
Proof.
  intros N T. unfold get_or_create, mbind, cache.bind.
  assert ((cache.get key now s) = (None, s)) as G.
  { rewrite (surjective_pairing (cache.get key now s)).
    rewrite cache_get_store. f_equal. by apply cache_get_None. }
  rewrite G. unfold cache.add. rewrite G. simpl.
  unfold cache.get. rewrite lookup_insert_eq.
  rewrite decide_True; [done|]. unfold cache.live. simpl. lia.
Qed.

Lemma get_or_create_cases key secret ttl now s :
  0 < ttl →
  (∃ e, s !! key = Some e ∧ cache.live now e
        ∧ get_or_create key secret ttl now s = (Some (cache.value e), s))
  ∨ ((cache.get key now s).1 = None
     ∧ get_or_create key secret ttl now s =
       (Some secret, <[key := cache.Entry secret (now + ttl)]> s)).
Proof.
  intros T. destruct ((cache.get key now s).1) as [v|] eqn:G.
  - apply cache_get_Some in G as (e & E & L & _).
    left. exists e. eauto using get_or_create_live.
  - right. split; [done|]. apply get_or_create_fresh; [|done].
    by apply cache_get_None.
Qed.

End secret_store.

Section secret_properties.

Import utils.

Implicit Types (s : cache.store) (email : string).

Lemma choices_length rng population k :
  length (choices rng population k) = k.
Proof. unfold choices. by rewrite length_fmap, length_seq. Qed.

Lemma choices_from_population rng population k :
  population ≠ "" →
  Forall (λ c, c ∈ list_ascii_of_string population)
    (choices rng population k).
Proof.
  intros NE. unfold choices. apply Forall_fmap, Forall_forall.
  intros i _. simpl. apply list_elem_of_In, nth_In.
  apply Nat.mod_upper_bound. by destruct population.
Qed.

Lemma minted_code_four_digits rng : four_digits (join (choices rng digits 4)).
Proof.
  split.
  - by rewrite string_length_join, choices_length.
  - unfold join. rewrite list_ascii_of_string_of_list_ascii.
    by apply choices_from_population.
Qed.

(** C4. [try_use_code] and [try_use_token] return true exactly when a
    live entry is stored under the email's key and its value equals the
    candidate; the entry is then deleted. Otherwise they return false
    and leave the store as it was. After a successful call the same
    candidate is refused at any later time. *)
Theorem try_use_code_and_token_single_use email :
  single_use (email +:+ "__code") (ResetCodeManager.try_use_code email)
  ∧ single_use (email +:+ "__token")
      (SessionTokenManager.try_use_token email).
Proof.
  split; intros candidate now s.
  - rewrite try_use_code_unfold. apply try_consume_single_use.
  - rewrite try_use_token_unfold. apply try_consume_single_use.
Qed.

(** A code is issued, refused for a wrong candidate, accepted once for
    the right one, and refused when offered again. *)
Example try_use_code_accepts_once :
  let '(code, s1) :=
    ResetCodeManager.get_or_create_code "ann@mail.io" (λ i, i + 4) 0 ∅ in
  let '(wrong, s2) := ResetCodeManager.try_use_code "ann@mail.io" "4568" 5 s1 in
  let '(first, s3) := ResetCodeManager.try_use_code "ann@mail.io" "4567" 6 s2 in
  let '(second, s4) := ResetCodeManager.try_use_code "ann@mail.io" "4567" 7 s3 in
  code = Some "4567" ∧ wrong = false ∧ s2 = s1
  ∧ first = true ∧ s3 = ∅ ∧ second = false ∧ s4 = s3.
Proof. by vm_compute. Qed.

(** C5. A call of [get_or_create_code] leaves a live entry holding the
    code it returns. When no live entry was there the code is the
    freshly drawn four-digit string and it expires 120 seconds later;
    the code is four digits whenever the entry found under the key was.
    A second call made before the expiry returns the very same code
    and leaves the store unchanged; a second call made at or after the
    expiry returns the string its own draws produce. *)
Theorem get_or_create_code_stable_until_expiry email rng1 rng2 t1 t2 s :
  let key := email +:+ "__code" in
  let '(c1, s1) := ResetCodeManager.get_or_create_code email rng1 t1 s in
  ∃ code e,
    c1 = Some code
    ∧ s1 !! key = Some (cache.Entry code e)
    ∧ t1 < e
    ∧ ((cache.get key t1 s).1 = None →
         code = join (choices rng1 digits 4)
         ∧ e = t1 + 120 ∧ four_digits code)
    ∧ ((∀ e0, s !! key = Some e0 → four_digits (cache.value e0)) →
       four_digits code)
    ∧ (t2 < e →
         ResetCodeManager.get_or_create_code email rng2 t2 s1
         = (Some code, s1))
    ∧ (e ≤ t2 →
         (ResetCodeManager.get_or_create_code email rng2 t2 s1).1
         = Some (join (choices rng2 digits 4))).
Proof.
  intros key. rewrite !get_or_create_code_unfold. fold key.
  set (mint1 := join (choices rng1 digits 4)).
  set (mint2 := join (choices rng2 digits 4)).
  destruct (get_or_create_cases key mint1 120 t1 s)
    as [(e & E & L & ->)|[G ->]]; [lia|..].
  - exists (cache.value e), (cache.expires e).
    assert (s !! key = Some (cache.Entry (cache.value e) (cache.expires e)))
      as E' by (by destruct e).
    split_and!; [done|done|done|..].
    + intros G. by destruct (proj1 (cache_get_None key t1 s) G e).
    + intros Stored. by apply Stored.
    + intros L2. by rewrite (get_or_create_live _ _ _ _ _ e).
    + intros L2. rewrite get_or_create_fresh; [done| |lia].
      intros e0 E0. rewrite E in E0. injection E0 as <-.
      unfold cache.live. lia.
  - exists mint1, (t1 + 120).
    split_and!; [done|by rewrite lookup_insert_eq|lia|..].
    + intros _. split_and!; [done..|]. apply minted_code_four_digits.
    + intros _. apply minted_code_four_digits.
    + intros L2.
      by rewrite (get_or_create_live _ _ _ _ _ (cache.Entry mint1 (t1 + 120)))
        by (by rewrite ?lookup_insert_eq).
    + intros L2. rewrite get_or_create_fresh; [done| |lia].
      intros e0. rewrite lookup_insert_eq. intros [= <-].
      unfold cache.live. simpl. lia.
Qed.

(** After the expiry the second code can indeed differ from the first. *)
Example get_or_create_code_after_expiry :
  let '(c1, s1) :=
    ResetCodeManager.get_or_create_code "ann@mail.io" (λ i, i) 0 ∅ in
  c1 = Some "0123"
  ∧ (ResetCodeManager.get_or_create_code "ann@mail.io" (λ i, 9 - i) 119 s1).1
    = Some "0123"
  ∧ (ResetCodeManager.get_or_create_code "ann@mail.io" (λ i, 9 - i) 120 s1).1
    = Some "9876".
Proof. by vm_compute. Qed.

(** C9, as stated, fails: when the secret stored for B is textually
    equal to the token issued to A, [try_use_token] under B accepts
    A's token. Both emails draw the same 32 characters here. *)
Lemma try_use_token_accepts_equal_secret_of_other_email :
  let A := "ann@mail.io" in
  let B := "bob@mail.io" in
  let '(tokA, s1) :=
    SessionTokenManager.get_or_create_token A (λ _, 7) 0 ∅ in
  let '(tokB, s2) :=
    SessionTokenManager.get_or_create_token B (λ _, 7) 0 s1 in
  A ≠ B
  ∧ tokA = Some "77777777777777777777777777777777"
  ∧ tokB = tokA
  ∧ (SessionTokenManager.try_use_token B
       "77777777777777777777777777777777" 1 s2).1 = true.
Proof. by vm_compute. Qed.

(** C9, amended. For distinct emails A and B the two cache keys differ;
    issuing a token to A leaves B's entry as it was; and
    [try_use_token] under B decides on B's own entry alone: it succeeds
    exactly when B's live secret equals the candidate, and it never
    changes A's entry. So A's token is refused under B whenever B has
    no live secret or a different one. *)
Theorem try_use_token_decides_on_own_key (A B : string) rng now s :
  A ≠ B →
  let keyA := A +:+ "__token" in
  let keyB := B +:+ "__token" in
  let '(tokA, s1) := SessionTokenManager.get_or_create_token A rng now s in
  keyA ≠ keyB
  ∧ s1 !! keyB = s !! keyB
  ∧ ∀ candidate now',
      let '(ok, s2) :=
        SessionTokenManager.try_use_token B candidate now' s1 in
      (ok = true ↔
         ∃ e, s !! keyB = Some e ∧ cache.live now' e
              ∧ cache.value e = candidate)
      ∧ s2 !! keyA = s1 !! keyA.
Proof.
  intros NE keyA keyB.
  assert (keyA ≠ keyB) as NK.
  { intros E. by apply string_app_inj_r in E. }
  rewrite get_or_create_token_unfold. fold keyA.
  set (mint := join _).
  assert (∀ s1, s1 !! keyB = s !! keyB →
    ∀ candidate now',
      let '(ok, s2) :=
        SessionTokenManager.try_use_token B candidate now' s1 in
      (ok = true ↔
         ∃ e, s !! keyB = Some e ∧ cache.live now' e
              ∧ cache.value e = candidate)
      ∧ s2 !! keyA = s1 !! keyA) as Use.
  { intros s1 Same candidate now'. rewrite try_use_token_unfold. fold keyB.
    destruct (try_consume_spec keyB candidate now' s1)
      as [(e & E & L & V & ->)|[N ->]].
    - split; [|by rewrite lookup_delete_ne].
      split; [|done]. intros _. exists e. by rewrite <- Same.
    - split; [|done]. split; [done|].
      intros (e & E & L & V). rewrite <- Same in E. by destruct (N e). }
  destruct (get_or_create_cases keyA mint 600 now s)
    as [(e & E & L & ->)|[G ->]]; [lia|..].
  - split_and!; [done|done|]. by apply Use.
  - assert (<[keyA:=cache.Entry mint (now + 600)]> s !! keyB = s !! keyB)
      as Same by (by rewrite lookup_insert_ne).
    split_and!; [done|done|]. by apply Use.
Qed.

Lemma try_use_token_decides_on_own_key_witness :
  "ann@mail.io" ≠ "bob@mail.io"
  ∧ let '(tokA, s1) :=
      SessionTokenManager.get_or_create_token "ann@mail.io" (λ i, i) 0 ∅ in
    ∀ candidate now',
      let '(ok, s2) :=
        SessionTokenManager.try_use_token "bob@mail.io" candidate now' s1 in
      ok = false.
Proof.
  split; [done|].
  pose proof (try_use_token_decides_on_own_key
                "ann@mail.io" "bob@mail.io" (λ i, i) 0 ∅) as H.
  destruct (SessionTokenManager.get_or_create_token _ _ _ _) as [tokA s1].
  destruct H as (_ & _ & H); [done|].
  intros candidate now'. specialize (H candidate now').
  destruct (SessionTokenManager.try_use_token _ _ _ _) as [ok s2].
  destruct H as [H _]. destruct ok; [|done].
  destruct H as [H _]. destruct H as (e & E & _); [done|].
  by rewrite lookup_empty in E.
Defined.

End secret_properties.

(** ** The place filter *)

Section filter_facts.

Import models fields serializers.
Context `{GeoBackend}.

Implicit Types (db : database) (p q : Place.t) (qs : list Place.t).

Lemma elem_of_order_by {K} (le : relation K) `{!RelDecision le}
    (annotation : Place.t → K) ordering qs p :
  p ∈ order_by le annotation ordering qs ↔ p ∈ qs.
Proof.
  unfold order_by.
  destruct (String.prefix "-" ordering); by rewrite merge_sort_Permutation.
Qed.

(** The place the loop of [place_ids_to_exclude] flags. *)
Lemma owner_rating_below db R p :
  (∃ r, owner_rating db p = Some r ∧ (r < R)%Z) ↔
  match ratings_from_author db p with
  | first :: _ => (PlaceRating.rating first < R)%Z
  | [] => False
  end.
Proof.
  unfold owner_rating. destruct (ratings_from_author db p) as [|r rs]; simpl.
  - split; [by intros (? & [=] & _)|done].
  - split; [by intros (? & [= <-] & ?)|eauto].
Qed.

Lemma elem_of_place_ids_to_exclude db R qs i :
  i ∈ place_ids_to_exclude db R qs ↔
  ∃ q, q ∈ qs ∧ Place.id q = i ∧ ∃ r, owner_rating db q = Some r ∧ (r < R)%Z.
Proof.
  unfold place_ids_to_exclude.
  induction qs as [|q qs IH] using rev_ind.
  - simpl. split; [by intros ?%elem_of_nil|]. by intros (? & ?%elem_of_nil & _).
  - rewrite foldl_snoc. fold (ratings_from_author db q).
    pose proof (owner_rating_below db R q) as B.
    assert (∀ P : Place.t → Prop,
              (∃ q', q' ∈ qs ++ [q] ∧ P q') ↔ (∃ q', q' ∈ qs ∧ P q') ∨ P q)
      as Split.
    { intros P. split.
      - intros (q' & [?| ->%list_elem_of_singleton]%elem_of_app & ?); eauto.
      - intros [(q' & ? & ?)|?]; [exists q'|exists q];
          (split; [apply elem_of_app|done]); [by left|right].
        by apply list_elem_of_singleton. }
    rewrite Split.
    destruct (ratings_from_author db q) as [|first rest].
    + rewrite IH. split; [by left|]. intros [?|(_ & Hr)]; [done|].
      by apply B in Hr.
    + case_decide as D.
      * rewrite elem_of_app, list_elem_of_singleton, IH.
        split; (intros [?|X]; [by left|right]).
        -- split; [done|]. by apply B.
        -- by destruct X as [<- _].
      * rewrite IH. split; [by left|]. intros [?|(_ & Hr)]; [done|].
        by apply B in Hr.
Qed.

(** Membership in the filtered queryset, step by step. *)
Lemma elem_of_filters_applied db user data p :
  PlaceFilterNewSerializer.apply_filters data = true →
  p ∈ PlaceFilterNewSerializer.get_filters_applied_queryset db user data ↔
  within_bounds db user data p
  ∧ ∀ R, PlaceFilterNewSerializer.rating data = Some R →
         ∀ q, within_bounds db user data q → Place.id q = Place.id p →
              ¬ ∃ r, owner_rating db q = Some r ∧ (r < R)%Z.
Proof.
  intros Apply.
  unfold PlaceFilterNewSerializer.get_filters_applied_queryset, within_bounds.
  rewrite Apply. simpl.
  set (pt := GEOSGeometry_POINT _ _).
  set (lim := D_km _).
  set (qs1 := match PlaceFilterNewSerializer.categories data with
              | Some cs => _ | None => _ end).
  assert (∀ q, q ∈ qs1 ↔
            q ∈ places db user
            ∧ float8_le (planar_distance (Place.location q) pt) (float 0.05)
            ∧ float8_le (sphere_distance (Place.location q) pt) lim
            ∧ (∀ cs, PlaceFilterNewSerializer.categories data = Some cs →
                     Place.category q ∈ cs)) as In1.
  { intros q. subst qs1.
    destruct (PlaceFilterNewSerializer.categories data) as [cs|].
    - rewrite !list_elem_of_filter. split.
      + intros ([? ?] & ? & ?). split_and!; [done..|]. by intros ? [= <-].
      + intros (? & ? & ? & C). split_and!; [done| |done..]. by apply C.
    - rewrite !list_elem_of_filter. split.
      + intros (? & ? & ?). split_and!; done.
      + intros (? & ? & ? & _). done. }
  set (qs2 := match PlaceFilterNewSerializer.rating data with
              | Some R => _ | None => _ end).
  assert (∀ q, q ∈ qs2 ↔
            q ∈ qs1
            ∧ ∀ R, PlaceFilterNewSerializer.rating data = Some R →
                   ∀ q', q' ∈ qs1 → Place.id q' = Place.id q →
                        ¬ ∃ r, owner_rating db q' = Some r ∧ (r < R)%Z)
    as In2.
  { intros q. subst qs2.
    destruct (PlaceFilterNewSerializer.rating data) as [R|].
    - rewrite list_elem_of_filter, elem_of_place_ids_to_exclude. split.
      + intros [N ?]. split; [done|]. intros ? [= <-] q' ? ? ?.
        apply N. by exists q'.
      + intros [? N]. split; [|done]. intros (q' & ? & ? & ?).
        by eapply (N R).
    - split; [|by intros [? _]]. intros ?. split; [done|]. by intros ? [=]. }
  assert (p ∈ qs2 ↔
    (p ∈ places db user
     ∧ float8_le (planar_distance (Place.location p) pt) (float 0.05)
     ∧ float8_le (sphere_distance (Place.location p) pt) lim
     ∧ (∀ cs, PlaceFilterNewSerializer.categories data = Some cs →
              Place.category p ∈ cs))
    ∧ ∀ R, PlaceFilterNewSerializer.rating data = Some R →
        ∀ q,
          (q ∈ places db user
           ∧ float8_le (planar_distance (Place.location q) pt) (float 0.05)
           ∧ float8_le (sphere_distance (Place.location q) pt) lim
           ∧ (∀ cs, PlaceFilterNewSerializer.categories data = Some cs →
                    Place.category q ∈ cs)) →
          Place.id q = Place.id p →
          ¬ ∃ r, owner_rating db q = Some r ∧ (r < R)%Z) as Goal2.
  { rewrite In2, In1. split.
    - intros [? N]. split; [done|]. intros R ? q ?%In1. by apply N.
    - intros [? N]. split; [done|]. intros R ? q ?%In1. by apply N. }
  destruct (contains "distance" _); [by rewrite elem_of_order_by|].
  destruct (contains "rating" _); [by rewrite elem_of_order_by|done].
Qed.

End filter_facts.

Section validation_facts.

Import validators fields serializers.
Import PlaceFilterNewSerializer.

Lemma ap_Returned {A B} (f : validation (A → B)) (x : validation A) b :
  f <*> x = Returned b →
  ∃ g a, f = Returned g ∧ x = Returned a ∧ b = g a.
Proof. destruct f as [?|g], x as [?|a]; intros [= <-]. by exists g, a. Qed.

Lemma fails_with_ap_l {A B} (f : validation (A → B)) x entry :
  fails_with f entry → fails_with (f <*> x) entry.
Proof.
  intros (errs & -> & In). destruct x as [e2|a]; simpl.
  - exists (errs ++ e2). split; [done|]. apply elem_of_app. by left.
  - by exists errs.
Qed.

Lemma fails_with_ap_r {A B} (f : validation (A → B)) x entry :
  fails_with x entry → fails_with (f <*> x) entry.
Proof.
  intros (errs & -> & In). destruct f as [e1|g]; simpl.
  - exists (e1 ++ errs). split; [done|]. apply elem_of_app. by right.
  - by exists errs.
Qed.

Lemma run_validation_Some {A B} name (conv : A → except string B)
    validators r v :
  run_validation name conv validators r = Returned (Some v) →
  ∃ a, r = Given a ∧ conv a = Returned v
       ∧ run_validators validators v = Returned ().
Proof.
  unfold run_validation. destruct r as [| |a]; [done..|].
  destruct (conv a) as [?|b] eqn:C; [done|].
  destruct (run_validators validators b) as [?|[]] eqn:V; [done|].
  intros [= <-]. by exists a.
Qed.

Lemma run_validation_None {A B} name (conv : A → except string B)
    validators r :
  run_validation name conv validators r = Returned None → r = Missing.
Proof.
  unfold run_validation. destruct r as [| |a]; [done..|].
  destruct (conv a) as [?|b]; [done|].
  by destruct (run_validators validators b) as [?|[]].
Qed.

Lemma run_validation_required_Returned {A B} name
    (conv : A → except string B) validators r v :
  run_validation_required name conv validators r = Returned v →
  ∃ a, r = Given a ∧ conv a = Returned v
       ∧ run_validators validators v = Returned ().
Proof.
  unfold run_validation_required.
  destruct (run_validation name conv validators r) as [?|[b|]] eqn:V;
    [done| |done].
  intros [= <-]. by apply run_validation_Some in V.
Qed.

(** The fields behind validated data, one by one. *)
Lemma is_valid_Returned raw data :
  is_valid raw = Returned data →
  run_validation_required "apply_filters" BooleanField []
    (raw_apply_filters raw) = Returned (apply_filters data)
  ∧ run_validation_required "split_categories" BooleanField []
      (raw_split_categories raw) = Returned (split_categories data)
  ∧ run_validation_required "latitude" FloatField [validate_latitude]
      (raw_latitude raw) = Returned (latitude data)
  ∧ run_validation_required "longitude" FloatField [validate_longitude]
      (raw_longitude raw) = Returned (longitude data)
  ∧ run_validation "distance" FloatField [validate_distance]
      (raw_distance raw) = Returned (distance data)
  ∧ run_validation "categories" (ListField (CharField_max_length 50)) []
      (raw_categories raw) = Returned (categories data)
  ∧ run_validation "rating" (DecimalField 3) [] (raw_rating raw)
    = Returned (rating data)
  ∧ run_validation "ordering" CharField
      [validate_place_ordering; MaxLengthValidator 50;
       ProhibitNullCharactersValidator] (raw_ordering raw)
    = Returned (ordering data).
Proof.
  unfold is_valid. intros V.
  apply ap_Returned in V as (g8 & a8 & V & E8 & ->).
  apply ap_Returned in V as (g7 & a7 & V & E7 & ->).
  apply ap_Returned in V as (g6 & a6 & V & E6 & ->).
  apply ap_Returned in V as (g5 & a5 & V & E5 & ->).
  apply ap_Returned in V as (g4 & a4 & V & E4 & ->).
  apply ap_Returned in V as (g3 & a3 & V & E3 & ->).
  apply ap_Returned in V as (g2 & a2 & V & E2 & ->).
  apply ap_Returned in V as (g1 & a1 & V & E1 & ->).
  injection V as <-. simpl. by split_and!.
Qed.

(** What the comparisons of a validator leave: NaN, on which both are
    false, or a float on the right side of both bounds. *)
Lemma not_float_lt a b : ¬ float_lt a b → a = nan ∨ b = nan ∨ float_le b a.
Proof.
  destruct a as [p| | |], b as [q| | |]; simpl; try tauto.
  intros N. right. right. by apply Qcnot_lt_le.
Qed.

Lemma not_float_le a b : ¬ float_le a b → a = nan ∨ b = nan ∨ float_lt b a.
Proof.
  destruct a as [p| | |], b as [q| | |]; simpl; try tauto.
  intros N. right. right. by apply Qcnot_le_lt.
Qed.

Lemma float_lt_not_le a b : float_lt a b → ¬ float_le b a.
Proof.
  destruct a as [p| | |], b as [q| | |]; simpl; try tauto.
  apply Qclt_not_le.
Qed.

Lemma validate_distance_Returned v :
  run_validators [validate_distance] v = Returned () →
  v = nan ∨ (float_lt (float 0) v ∧ float_lt v (float 40076)).
Proof.
  simpl. unfold validate_distance. case_decide as D; [done|]. intros _.
  destruct (decide (v = nan)) as [->|NaN]; [by left|right].
  split.
  - destruct (not_float_le v (float 0)) as [?|[?|?]]; [tauto|done..].
  - destruct (not_float_le (float 40076) v) as [?|[?|?]]; [tauto|done..].
Qed.

Lemma validate_latitude_Returned v :
  run_validators [validate_latitude] v = Returned () →
  v = nan ∨ (float_le (float (-90)) v ∧ float_le v (float 90)).
Proof.
  simpl. unfold validate_latitude. case_decide as D; [done|]. intros _.
  destruct (decide (v = nan)) as [->|NaN]; [by left|right].
  split.
  - destruct (not_float_lt v (float (-90))) as [?|[?|?]]; [tauto|done..].
  - destruct (not_float_lt (float 90) v) as [?|[?|?]]; [tauto|done..].
Qed.

Lemma validate_longitude_Returned v :
  run_validators [validate_longitude] v = Returned () →
  v = nan ∨ (float_le (float (-180)) v ∧ float_le v (float 180)).
Proof.
  simpl. unfold validate_longitude. case_decide as D; [done|]. intros _.
  destruct (decide (v = nan)) as [->|NaN]; [by left|right].
  split.
  - destruct (not_float_lt v (float (-180))) as [?|[?|?]]; [tauto|done..].
  - destruct (not_float_lt (float 180) v) as [?|[?|?]]; [tauto|done..].
Qed.

End validation_facts.

Section filter_properties.

Import models fields serializers.
Context `{GeoBackend}.

Implicit Types (db : database) (p q : Place.t) (qs : list Place.t).

(** [PlaceFilterSerializer] runs the pipeline of
    [PlaceFilterNewSerializer] with the filters applied. *)
Lemma old_filter_as_new db user data :
  PlaceFilterSerializer.get_filters_applied_queryset db user data =
  PlaceFilterNewSerializer.get_filters_applied_queryset db user (as_new data).
Proof. reflexivity. Qed.

(** Primary keys tell the places of a table apart. *)
Lemma place_of_id db p q :
  NoDup (Place.id <$> Place_objects db) →
  p ∈ Place_objects db → q ∈ Place_objects db →
  Place.id p = Place.id q → p = q.
Proof.
  induction (Place_objects db) as [|a l IH]; simpl.
  - by intros _ ?%elem_of_nil.
  - intros [N ND]%NoDup_cons [->|Hp]%elem_of_cons [->|Hq]%elem_of_cons E.
    + done.
    + destruct N. rewrite E. by apply list_elem_of_fmap_2.
    + destruct N. rewrite <- E. by apply list_elem_of_fmap_2.
    + by apply IH.
Qed.

Lemma within_bounds_in_table db user data p :
  within_bounds db user data p → p ∈ Place_objects db.
Proof. intros [In _]. unfold places in In. by apply list_elem_of_filter in In as [_ ?]. Qed.

Lemma candidates_of_new db user data p :
  PlaceFilterNewSerializer.apply_filters data = true →
  p ∈ PlaceFilterNewSerializer.get_filters_applied_queryset db user
        (without_rating data) ↔ within_bounds db user data p.
Proof.
  intros Apply. rewrite elem_of_filters_applied by done.
  change (within_bounds db user (without_rating data))
    with (within_bounds db user data).
  split; [by intros [? _]|]. intros ?. split; [done|]. by intros ? [=].
Qed.

Lemma rating_step_sound_of_new db user data R :
  PlaceFilterNewSerializer.apply_filters data = true →
  PlaceFilterNewSerializer.rating data = Some R →
  rating_step_sound db R
    (PlaceFilterNewSerializer.get_filters_applied_queryset db user
       (without_rating data))
    (PlaceFilterNewSerializer.get_filters_applied_queryset db user data).
Proof.
  intros Apply Rating. split.
  - intros p [B N]%elem_of_filters_applied; [|done].
    specialize (N R Rating p B eq_refl).
    destruct (owner_rating db p) as [r|]; [|by left].
    right. exists r. split; [done|]. destruct (decide (R ≤ r)%Z); [done|].
    destruct N. exists r. split; [done|lia].
  - intros p [B _]%elem_of_filters_applied; [|done].
    by apply candidates_of_new.
Qed.

Lemma rating_step_exact_of_new db user data R :
  NoDup (Place.id <$> Place_objects db) →
  PlaceFilterNewSerializer.apply_filters data = true →
  PlaceFilterNewSerializer.rating data = Some R →
  rating_step_exact db R
    (PlaceFilterNewSerializer.get_filters_applied_queryset db user
       (without_rating data))
    (PlaceFilterNewSerializer.get_filters_applied_queryset db user data).
Proof.
  intros ND Apply Rating.
  assert (∀ p,
    p ∈ PlaceFilterNewSerializer.get_filters_applied_queryset db user data ↔
    within_bounds db user data p
    ∧ ¬ ∃ r, owner_rating db p = Some r ∧ (r < R)%Z) as Ret.
  { intros p. rewrite elem_of_filters_applied by done. split.
    - intros [B N]. split; [done|]. by apply (N R Rating p).
    - intros [B N]. split; [done|]. intros R' E q Bq Eid.
      rewrite Rating in E. injection E as <-.
      by rewrite (place_of_id db q p ND) by eauto using within_bounds_in_table. }
  assert (∀ p, Decision (∃ r, owner_rating db p = Some r ∧ (r < R)%Z))
    as Dec.
  { intros p. destruct (owner_rating db p) as [r|].
    - destruct (decide (r < R)%Z); [left; eauto|right].
      by intros (? & [= <-] & ?).
    - right. by intros (? & [=] & _). }
  split.
  - intros p B%candidates_of_new; [|done]. rewrite Ret. split.
    + intros N. destruct (Dec p); [done|]. by destruct N.
    + intros ? [_ ?]. done.
  - intros p B%candidates_of_new E; [|done]. apply Ret. split; [done|].
    rewrite E. by intros (? & [=] & _).
Qed.

(** C1. With a rating threshold [R], every returned place has no
    rating record by its owner or an owner rating of at least [R], and
    it is among the places the same request returns without the
    threshold. Place ids being primary keys, the places of the latter
    that are left out are exactly those whose owner rating exists and
    is below [R], and a place without owner rating is never left out.
    This holds for the filter of both serializers. *)
Theorem rating_threshold_drops_exactly_low_owner_ratings db user :
  (∀ data R,
     PlaceFilterNewSerializer.apply_filters data = true →
     PlaceFilterNewSerializer.rating data = Some R →
     let candidates :=
       PlaceFilterNewSerializer.get_filters_applied_queryset db user
         (without_rating data) in
     let returned :=
       PlaceFilterNewSerializer.get_filters_applied_queryset db user data in
     rating_step_sound db R candidates returned
     ∧ (NoDup (Place.id <$> Place_objects db) →
        rating_step_exact db R candidates returned))
  ∧ (∀ data R,
       PlaceFilterSerializer.rating data = Some R →
       let candidates :=
         PlaceFilterSerializer.get_filters_applied_queryset db user
           (without_rating_old data) in
       let returned :=
         PlaceFilterSerializer.get_filters_applied_queryset db user data in
       rating_step_sound db R candidates returned
       ∧ (NoDup (Place.id <$> Place_objects db) →
          rating_step_exact db R candidates returned)).
Proof.
  split.
  - intros data R Apply Rating. split.
    + by apply rating_step_sound_of_new.
    + intros ND. by apply rating_step_exact_of_new.
  - intros data R Rating candidates returned. subst candidates returned.
    rewrite !old_filter_as_new.
    change (as_new (without_rating_old data))
      with (without_rating (as_new data)).
    split.
    + by apply rating_step_sound_of_new.
    + intros ND. by apply rating_step_exact_of_new.
Qed.

(** C3. When the validated request applies the filters and its
    distance is a number, every returned place lies within that
    distance of the query point, whatever the coordinates of the point:
    within the given [distance] kilometres, or within 5 kilometres when
    none is given. The bound is [D(km=...)], in metres, on the distance
    the database measures on the sphere; the 0.05 degree prefilter
    holds as well. A distance the validation lets through is such a
    number, strictly between 0 and 40076, unless it is NaN. *)
Theorem returned_places_within_distance db user raw data :
  PlaceFilterNewSerializer.is_valid raw = Returned data →
  PlaceFilterNewSerializer.apply_filters data = true →
  let current_point :=
    GEOSGeometry_POINT (PlaceFilterNewSerializer.longitude data)
      (PlaceFilterNewSerializer.latitude data) in
  (∀ d, PlaceFilterNewSerializer.distance data = Some d →
        d = nan ∨ (float_lt (float 0) d ∧ float_lt d (float 40076)))
  ∧ ∀ d,
      default (float 5.0) (PlaceFilterNewSerializer.distance data)
      = number d →
      ∀ p,
        p ∈ PlaceFilterNewSerializer.get_filters_applied_queryset
              db user data →
        float8_le (sphere_distance (Place.location p) current_point)
          (number (d * Q2Qc 1000))
        ∧ float8_le (planar_distance (Place.location p) current_point)
            (float 0.05).
Proof.
  intros Valid Apply current_point. split.
  - intros d E. apply is_valid_Returned in Valid as (_ & _ & _ & _ & D & _).
    rewrite E in D. apply run_validation_Some in D as (a & _ & [= ->] & V).
    by apply validate_distance_Returned.
  - intros d E p In. apply elem_of_filters_applied in In as [B _]; [|done].
    destruct B as (_ & ? & S & _). rewrite E in S. by split.
Qed.

(** C7. Without [apply_filters] the queryset is the list of all places
    of the user, whatever the other parameters are. *)
Theorem unfiltered_queryset_is_all_places_of_user db user data :
  PlaceFilterNewSerializer.apply_filters data = false →
  PlaceFilterNewSerializer.get_filters_applied_queryset db user data
  = places db user
  ∧ (∀ p, p ∈ PlaceFilterNewSerializer.get_filters_applied_queryset
                 db user data
          ↔ p ∈ Place_objects db ∧ Place.added_by p = user)
  ∧ (∀ data',
       PlaceFilterNewSerializer.apply_filters data' = false →
       PlaceFilterNewSerializer.get_filters_applied_queryset db user data'
       = PlaceFilterNewSerializer.get_filters_applied_queryset db user data).
Proof.
  intros Apply.
  assert (∀ d, PlaceFilterNewSerializer.apply_filters d = false →
               PlaceFilterNewSerializer.get_filters_applied_queryset db user d
               = places db user) as All.
  { intros d A.
    unfold PlaceFilterNewSerializer.get_filters_applied_queryset.
    by rewrite A. }
  split_and!.
  - by apply All.
  - intros p. rewrite All by done. unfold places.
    rewrite list_elem_of_filter. tauto.
  - intros data' A'. by rewrite !All.
Qed.

End filter_properties.

Section filter_witnesses.

Import models fields serializers.

Lemma rating_threshold_drops_exactly_low_owner_ratings_witness :
  let data := example_data true false None (Some 300%Z) None in
  let candidates :=
    @PlaceFilterNewSerializer.get_filters_applied_queryset
      example_backend example_db 1 (without_rating data) in
  let returned :=
    @PlaceFilterNewSerializer.get_filters_applied_queryset
      example_backend example_db 1 data in
  NoDup (Place.id <$> Place_objects example_db)
  ∧ rating_step_sound example_db 300 candidates returned
  ∧ rating_step_exact example_db 300 candidates returned.
Proof.
  intros data candidates returned.
  assert (NoDup (Place.id <$> Place_objects example_db)) as ND
    by compute_done.
  split; [exact ND|].
  destruct (proj1 (@rating_threshold_drops_exactly_low_owner_ratings
                     example_backend example_db 1)
              data 300%Z eq_refl eq_refl) as [Sound Exact].
  split; [exact Sound|exact (Exact ND)].
Defined.

Lemma returned_places_within_distance_witness :
  let raw := example_body true false 0 (Given (float 2)) Missing in
  ∃ data,
    PlaceFilterNewSerializer.is_valid raw = Returned data
    ∧ PlaceFilterNewSerializer.apply_filters data = true
    ∧ default (float 5.0) (PlaceFilterNewSerializer.distance data)
      = number (Q2Qc 2)
    ∧ ∀ p,
        p ∈ @PlaceFilterNewSerializer.get_filters_applied_queryset
              example_backend example_db 1 data →
        float8_le
          (@sphere_distance example_backend (Place.location p)
             (GEOSGeometry_POINT (float 0) (float 0)))
          (number (Q2Qc 2 * Q2Qc 1000)).
Proof.
  intros raw.
  exists (example_data true false (Some (float 2)) None None).
  assert (PlaceFilterNewSerializer.is_valid raw
          = Returned (example_data true false (Some (float 2)) None None))
    as Valid by (vm_compute; reflexivity).
  split; [exact Valid|]. split; [reflexivity|]. split; [reflexivity|].
  intros p In.
  apply (proj2 (@returned_places_within_distance example_backend
                  example_db 1 raw _ Valid eq_refl) (Q2Qc 2) eq_refl)
    in In.
  apply In.
Defined.

Lemma unfiltered_queryset_is_all_places_of_user_witness :
  @PlaceFilterNewSerializer.get_filters_applied_queryset
    example_backend example_db 1
    (example_data false false (Some (float 2)) (Some 300%Z) (Some "rating"))
  = places example_db 1.
Proof.
  apply (@unfiltered_queryset_is_all_places_of_user
           example_backend example_db 1). reflexivity.
Defined.

End filter_witnesses.

(** ** Validation of the request *)

Section validation_properties.

Import validators models fields serializers views.
Import PlaceFilterNewSerializer.

Lemma coordinate_rejected_latitude r :
  coordinate_rejected (-90) 90 r →
  ∃ msg, fails_with
           (run_validation_required "latitude" FloatField
              [validate_latitude] r)
           ("latitude", msg).
Proof.
  destruct r as [| |v]; simpl.
  - intros _. eexists. eexists. split; [done|]. apply list_elem_of_here.
  - intros _. eexists. eexists. split; [done|]. apply list_elem_of_here.
  - intros Out. unfold run_validation_required, run_validation. simpl.
    unfold validate_latitude. rewrite decide_True by done.
    eexists. eexists. split; [done|]. apply list_elem_of_here.
Qed.

Lemma coordinate_rejected_longitude r :
  coordinate_rejected (-180) 180 r →
  ∃ msg, fails_with
           (run_validation_required "longitude" FloatField
              [validate_longitude] r)
           ("longitude", msg).
Proof.
  destruct r as [| |v]; simpl.
  - intros _. eexists. eexists. split; [done|]. apply list_elem_of_here.
  - intros _. eexists. eexists. split; [done|]. apply list_elem_of_here.
  - intros Out. unfold run_validation_required, run_validation. simpl.
    unfold validate_longitude. rewrite decide_True by done.
    eexists. eexists. split; [done|]. apply list_elem_of_here.
Qed.

(** Whatever [apply_filters] says, a request whose latitude is absent,
    unreadable or found outside [-90, 90] by the validator, or whose
    longitude is absent, unreadable or found outside [-180, 180], fails
    validation with an error for that field, and the view answers a
    failed validation with that error list and nothing else. *)
Lemma refused_coordinates_are_rejected_whatever_apply_filters
    `{GeoBackend, GenericAPIView} db request :
  let raw := data request in
  (coordinate_rejected (-90) 90 (raw_latitude raw) →
     ∃ msg, fails_with (is_valid raw) ("latitude", msg))
  ∧ (coordinate_rejected (-180) 180 (raw_longitude raw) →
       ∃ msg, fails_with (is_valid raw) ("longitude", msg))
  ∧ (∀ errs, is_valid raw = Raised errs →
             FilterPlacesNewAPIView.post db request = BadRequest errs).
Proof.
  intros raw. split_and!.
  - intros [msg F]%coordinate_rejected_latitude. exists msg.
    unfold is_valid. do 5 apply fails_with_ap_l. by apply fails_with_ap_r.
  - intros [msg F]%coordinate_rejected_longitude. exists msg.
    unfold is_valid. do 4 apply fails_with_ap_l. by apply fails_with_ap_r.
  - intros errs E. unfold FilterPlacesNewAPIView.post. fold raw.
    by rewrite E.
Qed.

(** A coordinate outside its range is one the validator refuses, unless
    it is NaN. *)
Lemma outside_range_rejected low high r :
  outside_range low high r →
  coordinate_rejected low high r ∨ r = Given nan.
Proof.
  destruct r as [| |v]; simpl; [by left..|]. intros Out.
  destruct (decide (float_lt v (float low))) as [?|Low]; [by left; left|].
  destruct (decide (float_lt (float high) v)) as [?|High];
    [by left; right|].
  apply not_float_lt in Low as [->|[?|?]]; [by right|done|].
  apply not_float_lt in High as [?|[->|?]]; [done|by right|].
  by destruct Out.
Qed.

(** C10. The ranges of the coordinates are not enforced on NaN. The
    body [nan_body], whose latitude and longitude are the text [nan]
    and which does not apply the filters, has its latitude outside
    [-90, 90] and its longitude outside [-180, 180]; yet it passes the
    validation, the validated coordinates being NaN, and the view
    answers it as it answers the same request from the origin, with the
    places of the user and not with a validation error. Every other
    request with a coordinate outside its range is refused by the view,
    with an error list that holds an error for that field. *)
Theorem not_a_number_passes_for_a_coordinate
    `{GeoBackend, GenericAPIView} db user search :
  let request := {| user := user; search := search; data := nan_body |} in
  outside_range (-90) 90 (raw_latitude nan_body)
  ∧ outside_range (-180) 180 (raw_longitude nan_body)
  ∧ (∃ validated,
       is_valid nan_body = Returned validated
       ∧ latitude validated = nan ∧ longitude validated = nan)
  ∧ (∀ errs, FilterPlacesNewAPIView.post db request ≠ BadRequest errs)
  ∧ FilterPlacesNewAPIView.post db request
    = FilterPlacesNewAPIView.post db
        {| user := user; search := search;
           data := example_body false false 0 Missing Missing |}
  ∧ ∀ other,
      (outside_range (-90) 90 (raw_latitude (data other)) →
       raw_latitude (data other) ≠ Given nan →
       ∃ msg errs,
         FilterPlacesNewAPIView.post db other = BadRequest errs
         ∧ ("latitude", msg) ∈ errs)
      ∧ (outside_range (-180) 180 (raw_longitude (data other)) →
         raw_longitude (data other) ≠ Given nan →
         ∃ msg errs,
           FilterPlacesNewAPIView.post db other = BadRequest errs
           ∧ ("longitude", msg) ∈ errs).
Proof.
  intros request.
  assert (is_valid nan_body
          = Returned {| apply_filters := false; split_categories := false;
                        latitude := nan; longitude := nan;
                        distance := None; categories := None;
                        rating := None; ordering := None |}) as Valid
    by (vm_compute; reflexivity).
  assert (is_valid (example_body false false 0 Missing Missing)
          = Returned {| apply_filters := false; split_categories := false;
                        latitude := float 0; longitude := float 0;
                        distance := None; categories := None;
                        rating := None; ordering := None |}) as Valid0
    by (vm_compute; reflexivity).
  split_and!.
  - simpl. tauto.
  - simpl. tauto.
  - eexists. by split_and!.
  - intros errs. unfold FilterPlacesNewAPIView.post, request.
    cbn [data]. rewrite Valid. cbn [split_categories negb].
    destruct (paginate_queryset _) as [page|].
    + by destruct (GetPlaceSerializer.data db None page).
    + by destruct (GetPlaceSerializer.data db (Some _) _).
  - unfold FilterPlacesNewAPIView.post, request. cbn [data].
    by rewrite Valid, Valid0.
  - intros other.
    destruct (refused_coordinates_are_rejected_whatever_apply_filters
                db other) as (Lat & Lon & Post).
    split.
    + intros [Out|NaN]%outside_range_rejected ?; [|done].
      destruct (Lat Out) as (msg & errs & E & In).
      exists msg, errs. split; [by apply Post|done].
    + intros [Out|NaN]%outside_range_rejected ?; [|done].
      destruct (Lon Out) as (msg & errs & E & In).
      exists msg, errs. split; [by apply Post|done].
Qed.

(** [CharField(max_length=50)] on one member of the list. *)
Lemma CharField_max_length_Returned c v :
  CharField_max_length 50 c = Returned v ↔ v = strip c ∧ well_shaped c.
Proof.
  unfold CharField_max_length, CharField, well_shaped. simpl.
  unfold MaxLengthValidator, ProhibitNullCharactersValidator.
  destruct (decide (strip c = "")) as [E|NE].
  - split; [done|]. by intros [_ [? _]].
  - destruct (decide (50 < String.length (strip c))) as [L|L].
    + split; [done|]. intros [_ (_ & ? & _)]. lia.
    + destruct (decide (Ascii.zero ∈ list_ascii_of_string (strip c)))
        as [Z|Z].
      * split; [done|]. by intros [_ (_ & _ & ?)].
      * split; [intros [= <-]|intros [-> _]]; [|done].
        split; [done|]. split_and!; [done|lia|done].
Qed.

Lemma ListField_CharField_Returned cs vs :
  ListField (CharField_max_length 50) cs = Returned vs ↔
  vs = strip <$> cs ∧ Forall well_shaped cs.
Proof.
  revert vs. induction cs as [|c cs IH]; intros vs; simpl.
  - split; [by intros [= <-]|by intros [-> _]].
  - destruct (CharField_max_length 50 c) as [?|v] eqn:C.
    + split; [done|]. intros [_ [W _]%Forall_cons].
      assert (CharField_max_length 50 c = Returned (strip c)) as C'
        by (by apply CharField_max_length_Returned).
      congruence.
    + apply CharField_max_length_Returned in C as [-> W].
      destruct (ListField (CharField_max_length 50) cs) as [?|vs'] eqn:L.
      * split; [done|]. intros [_ [_ Ws]%Forall_cons].
        assert (@Raised string (list string) e = Returned (strip <$> cs))
          as X by (by apply IH). done.
      * destruct (proj1 (IH vs') eq_refl) as [-> Ws]. split.
        -- intros [= <-]. split; [done|]. by apply Forall_cons.
        -- by intros [-> _].
Qed.

(** Where the entries of a failed validation come from. *)
Lemma fails_with_ap_inv {A B} (f : validation (A → B)) x entry :
  fails_with (f <*> x) entry → fails_with f entry ∨ fails_with x entry.
Proof.
  intros (errs & E & In). destruct f as [e1|g], x as [e2|a];
    simpl in E; [injection E as <-..|done].
  - apply elem_of_app in In as [?|?]; [left|right]; by eexists.
  - left. by eexists.
  - right. by eexists.
Qed.

Lemma fails_with_field_name {A B} name (conv : A → except string B)
    validators r entry :
  fails_with (run_validation name conv validators r) entry →
  entry.1 = name.
Proof.
  intros (errs & E & In). unfold run_validation in E.
  destruct r as [| |a]; [done| |].
  - injection E as <-. by apply list_elem_of_singleton in In as ->.
  - destruct (conv a) as [msg|v].
    + injection E as <-. by apply list_elem_of_singleton in In as ->.
    + destruct (run_validators validators v) as [e|[]]; [|done].
      injection E as <-. by apply list_elem_of_singleton in In as ->.
Qed.

Lemma fails_with_required_field_name {A B} name
    (conv : A → except string B) validators r entry :
  fails_with (run_validation_required name conv validators r) entry →
  entry.1 = name.
Proof.
  intros (errs & E & In). unfold run_validation_required in E.
  destruct (run_validation name conv validators r) as [e|[v|]] eqn:V.
  - injection E as <-. apply (fails_with_field_name name conv validators r).
    by exists e.
  - done.
  - injection E as <-. by apply list_elem_of_singleton in In as ->.
Qed.

(** C6, as stated, fails: a category outside the enumeration passes
    the validation of the filter request and the view runs the
    pipeline with it. *)
Lemma filter_request_accepts_category_outside_enumeration :
  let body := example_body true false 0 Missing (Given ["casino"]) in
  ("casino" ∉ allowed_categories)
  ∧ validate_category "casino"
    = Raised {| field := "category"; message := "Unallowed category." |}
  ∧ (∃ data, is_valid body = Returned data
             ∧ categories data = Some ["casino"])
  ∧ @FilterPlacesNewAPIView.post example_backend example_view example_db
      {| user := 1; data := body; search := "" |}
    = Response {[ "filters_applied" := JBool true;
                  "is_split" := JBool false;
                  "places" := JPlaces [] ]}.
Proof.
  intros body. split_and!.
  - compute_done.
  - by vm_compute.
  - eexists. split; [by vm_compute|done].
  - by vm_compute.
Qed.

(** C6, amended. Before the filter runs, the members of [categories]
    are validated for their shape only: stripped of surrounding
    whitespace they are not blank and at most 50 characters long.
    Validated data carry exactly the stripped members, and members of
    that shape never cause an error of the field; membership in the
    category enumeration is not looked at. *)
Theorem categories_validated_for_shape_only raw cs :
  raw_categories raw = Given cs →
  (∀ data, is_valid raw = Returned data →
           categories data = Some (strip <$> cs) ∧ Forall well_shaped cs)
  ∧ (Forall well_shaped cs →
     ∀ msg, ¬ fails_with (is_valid raw) ("categories", msg)).
Proof.
  intros Given. split.
  - intros data (_ & _ & _ & _ & _ & C & _)%is_valid_Returned.
    rewrite Given in C. unfold run_validation in C.
    destruct (ListField (CharField_max_length 50) cs) as [?|vs] eqn:L;
      [done|].
    injection C as <-. apply ListField_CharField_Returned in L as [-> ?].
    done.
  - intros Ws msg F. unfold is_valid in F.
    apply fails_with_ap_inv in F as [F|F];
      [|by apply fails_with_field_name in F].
    apply fails_with_ap_inv in F as [F|F];
      [|by apply fails_with_field_name in F].
    apply fails_with_ap_inv in F as [F|F].
    2:{ rewrite Given in F. destruct F as (errs & E & _).
        unfold run_validation in E.
        assert (ListField (CharField_max_length 50) cs
                = Returned (strip <$> cs)) as L
          by (by apply ListField_CharField_Returned).
        by rewrite L in E. }
    apply fails_with_ap_inv in F as [F|F];
      [|by apply fails_with_field_name in F].
    apply fails_with_ap_inv in F as [F|F];
      [|by apply fails_with_required_field_name in F].
    apply fails_with_ap_inv in F as [F|F];
      [|by apply fails_with_required_field_name in F].
    apply fails_with_ap_inv in F as [F|F];
      [|by apply fails_with_required_field_name in F].
    apply fails_with_ap_inv in F as [F|F];
      [|by apply fails_with_required_field_name in F].
    by destruct F as (? & ? & _).
Qed.

Lemma categories_validated_for_shape_only_witness :
  let raw := example_body true false 0 Missing (Given [" casino "]) in
  raw_categories raw = Given [" casino "]
  ∧ ∀ data, is_valid raw = Returned data →
            categories data = Some ["casino"].
Proof.
  intros raw. split; [reflexivity|]. intros data Valid.
  by destruct (proj1 (categories_validated_for_shape_only
                        raw [" casino "] eq_refl) data Valid) as [-> _].
Defined.

End validation_properties.

(** ** Rating aggregation *)

Section rating_properties.

Import models serializers.

(** The subquery of the ordering reads the records [get_rating] reads. *)
Lemma rating_subquery_ratings db user place :
  rating_subquery db user place =
  PlaceRating.rating <$>
    filter (λ r, PlaceRating.user r = user) (ratings db place).
Proof.
  unfold rating_subquery, ratings. f_equal.
  induction (PlaceRating_objects db) as [|r rs IH]; [done|].
  rewrite !filter_cons.
  destruct (decide (PlaceRating.place r = Place.id place)) as [P|P];
    destruct (decide (PlaceRating.user r = user)) as [U|U].
  - rewrite decide_True by done. rewrite filter_cons, decide_True by done.
    by rewrite IH.
  - rewrite decide_False by tauto. rewrite filter_cons, decide_False by done.
    done.
  - by rewrite decide_False by tauto.
  - by rewrite decide_False by tauto.
Qed.

Lemma Avg_singleton (r : Decimal) : Avg [r] = Some (Decimal_to_float r).
Proof. unfold Avg, Decimal_to_float. simpl. by rewrite Z.add_0_r. Qed.

(** C2, as stated, fails: user 1 has no rating record on place 3 of
    the example, and the annotation the rating order sorts by is NULL
    there, not 0. *)
Lemma rating_order_annotation_of_unrated_place_is_null :
  let place := example_place 3 1 "city" 0.03 0.01 in
  place ∈ Place_objects example_db
  ∧ rating_subquery example_db 1 place = []
  ∧ Avg (rating_subquery example_db 1 place) = None
  ∧ Avg (rating_subquery example_db 1 place) ≠ Some (Decimal_to_float 0).
Proof.
  intros place. split_and!; [|done..].
  do 2 apply list_elem_of_further. apply list_elem_of_here.
Qed.

(** C2, amended. When the requesting user has no rating record on a
    place, the annotation of the rating order is NULL, which sorts
    after every value, while the displayed rating is 0. When there is
    exactly one record, both are that record's value. *)
Theorem requesting_user_rating_of_zero_or_one_record db user place :
  (rating_subquery db user place = [] →
     Avg (rating_subquery db user place) = None
     ∧ (∀ value, le_nulls_last (Some value) None
                 ∧ ¬ le_nulls_last None (Some value))
     ∧ GetPlaceSerializer.get_rating db user place = 0%Z)
  ∧ (∀ r, rating_subquery db user place = [r] →
          Avg (rating_subquery db user place) = Some (Decimal_to_float r)
          ∧ GetPlaceSerializer.get_rating db user place = r).
Proof.
  unfold GetPlaceSerializer.get_rating. rewrite rating_subquery_ratings.
  destruct (filter _ (ratings db place)) as [|first rest]; simpl.
  - split; [|done]. intros _. split_and!; [done| |done].
    intros value. simpl. tauto.
  - split; [done|]. intros r [= <- E]. apply fmap_nil_inv in E as ->.
    split; [|done]. apply Avg_singleton.
Qed.

Lemma requesting_user_rating_of_zero_or_one_record_witness :
  rating_subquery example_db 1 (example_place 1 1 "art" 0 0) = [450%Z]
  ∧ Avg (rating_subquery example_db 1 (example_place 1 1 "art" 0 0))
    = Some (Decimal_to_float 450)
  ∧ GetPlaceSerializer.get_rating example_db 1 (example_place 1 1 "art" 0 0)
    = 450%Z.
Proof.
  split; [reflexivity|].
  apply (proj2 (requesting_user_rating_of_zero_or_one_record
                  example_db 1 (example_place 1 1 "art" 0 0))).
  reflexivity.
Defined.

End rating_properties.

(** ** The split by categories *)

Section split_properties.

Import models fields serializers views.
Import PlaceFilterNewSerializer.
Context `{GeoBackend, GenericAPIView}.

Lemma dict_lookup_Some {V} (pairs : list (string * V)) k v :
  dict pairs !! k = Some v → (k, v) ∈ pairs.
Proof.
  unfold dict. induction pairs as [|[k' v'] pairs IH] using rev_ind.
  - simpl. by rewrite lookup_empty.
  - rewrite foldl_snoc. simpl. rewrite elem_of_app, list_elem_of_singleton.
    destruct (decide (k' = k)) as [->|NE].
    + rewrite lookup_insert_eq. intros [= ->]. by right.
    + rewrite lookup_insert_ne by done. intros ?. left. by apply IH.
Qed.

Lemma dict_lookup_of_key {V} (f : string → V) (keys : list string) k :
  k ∈ keys → dict ((λ key, (key, f key)) <$> keys) !! k = Some (f k).
Proof.
  unfold dict. induction keys as [|k' keys IH] using rev_ind.
  - by intros ?%elem_of_nil.
  - rewrite fmap_app. simpl. rewrite foldl_snoc. simpl.
    destruct (decide (k' = k)) as [->|NE].
    + by rewrite lookup_insert_eq.
    + rewrite lookup_insert_ne by done.
      intros [?| ->%list_elem_of_singleton]%elem_of_app; [by apply IH|done].
Qed.

(** The rows of [values("category").annotate(Count("category"))]. *)
Lemma elem_of_values_category_count qs c n :
  (c, n) ∈ values_category_count qs ↔
  (∃ p, p ∈ qs ∧ Place.category p = c)
  ∧ n = length (filter (λ p, Place.category p = c) qs).
Proof.
  unfold values_category_count. rewrite list_elem_of_fmap. split.
  - intros (c' & [= -> ->] & In). split; [|done].
    apply elem_of_remove_dups, list_elem_of_fmap in In as (p & -> & ?).
    by exists p.
  - intros [(p & In & <-) ->]. exists (Place.category p). split; [done|].
    apply elem_of_remove_dups, list_elem_of_fmap. by exists p.
Qed.

Lemma filter_nonempty_length {A} (P : A → Prop) `{!∀ x, Decision (P x)}
    (l : list A) x :
  x ∈ l → P x → length (filter P l) ≠ 0.
Proof.
  intros In Px. assert (x ∈ filter P l) as F by (by apply list_elem_of_filter).
  destruct (filter P l); [by apply elem_of_nil in F|done].
Qed.

(** C8. In split mode the view answers with a mapping in which every
    list of places sits under a category that at least one matching
    place has, holds the first ten matching places of exactly that
    category, in their order, and so has at most ten entries; every
    category of a matching place has its list. *)
Theorem split_buckets_hold_one_category_capped_at_ten db request validated :
  is_valid (data request) = Returned validated →
  split_categories validated = true →
  let qs :=
    FilterPlacesNewAPIView.filter_queryset request
      (get_filters_applied_queryset db (user request) validated) in
  ∃ body,
    FilterPlacesNewAPIView.post db request = Response body
    ∧ (∀ k bucket,
         body !! k = Some (JPlaces bucket) →
         let matching := filter (λ p, Place.category p = k) qs in
         matching ≠ []
         ∧ bucket = GetPlaceSerializer.to_representation db (user request)
                      <$> take 10 matching
         ∧ Forall (λ r, Place.category (GetPlaceSerializer.instance r) = k)
             bucket
         ∧ length bucket = 10 `min` length matching
         ∧ length bucket ≤ 10)
    ∧ (∀ p, p ∈ qs →
            ∃ bucket, body !! Place.category p = Some (JPlaces bucket)).
Proof.
  intros Valid Split qs.
  unfold FilterPlacesNewAPIView.post. rewrite Valid, Split. simpl.
  fold qs. eexists. split; [done|].
  set (bucket_of := λ c, take 10 (filter (λ p, Place.category p = c) qs)).
  set (rows := filter (λ item : string * nat, item.2 ≠ 0)
                 (values_category_count qs)).
  assert (∀ c n, (c, n) ∈ rows ↔ ∃ p, p ∈ qs ∧ Place.category p = c
                                     ∧ n = length (filter (λ p, Place.category p = c) qs))
    as Rows.
  { intros c n. unfold rows.
    rewrite list_elem_of_filter, elem_of_values_category_count. simpl. split.
    - intros (_ & (p & ? & ?) & ->). by exists p.
    - intros (p & In & E & ->). split_and!; [|by exists p|done].
      rewrite <- E. by apply (filter_nonempty_length _ _ p). }
  split.
  - intros k bucket Look. simpl.
    apply lookup_union_Some_raw in Look as [Look|[_ Look]].
    2:{ apply lookup_insert_Some in Look as [[_ ?]|[_ Look]]; [done|].
        by apply lookup_singleton_Some in Look as [_ ?]. }
    rewrite !lookup_fmap in Look.
    destruct (dict _ !! k) as [places|] eqn:D; [|done].
    simpl in Look. injection Look as <-.
    apply dict_lookup_Some, list_elem_of_fmap in D as ([c n] & [= -> ->] & In).
    apply Rows in In as (p & In & E & ->). simpl.
    split_and!.
    + intros Nil.
      apply (filter_nonempty_length (λ q, Place.category q = c) qs p In E).
      by rewrite Nil.
    + done.
    + apply Forall_fmap, Forall_forall. intros q Q. simpl.
      apply elem_of_take in Q as (i & Q & _).
      apply list_elem_of_lookup_2, list_elem_of_filter in Q as [? _]. done.
    + by rewrite length_fmap, length_take.
    + rewrite length_fmap, length_take. lia.
  - intros p In. eexists.
    apply lookup_union_Some_raw. left. rewrite !lookup_fmap.
    assert (dict ((λ item : string * nat, (item.1, bucket_of item.1)) <$> rows)
            !! Place.category p = Some (bucket_of (Place.category p))) as D.
    { assert ((λ item : string * nat, (item.1, bucket_of item.1)) <$> rows
              = (λ key, (key, bucket_of key)) <$> rows.*1) as ->.
      { by rewrite <- list_fmap_compose. }
      apply dict_lookup_of_key, list_elem_of_fmap.
      exists (Place.category p, length (filter (λ q, Place.category q = Place.category p) qs)).
      split; [done|]. apply Rows. by exists p. }
    subst bucket_of. cbv beta in D. rewrite D. done.
Qed.

End split_properties.

Section split_witness.

Import models fields serializers views.
Import PlaceFilterNewSerializer.

(** Twelve places of category city: the list under "city" has ten. *)
Lemma split_buckets_hold_one_category_capped_at_ten_witness :
  let request :=
    {| user := 1; search := "";
       data := example_body false true 0 Missing Missing |} in
  is_valid (data request)
  = Returned (example_data false true None None None)
  ∧ ∃ body,
      @FilterPlacesNewAPIView.post example_backend example_view
        crowded_db request = Response body
      ∧ ∀ bucket, body !! "city" = Some (JPlaces bucket) →
                  length bucket = 10.
Proof.
  intros request.
  assert (is_valid (data request)
          = Returned (example_data false true None None None)) as Valid
    by (vm_compute; reflexivity).
  split; [exact Valid|].
  destruct (@split_buckets_hold_one_category_capped_at_ten
              example_backend example_view crowded_db request _
              Valid eq_refl) as (body & Post & Buckets & _).
  exists body. split; [exact Post|].
  intros bucket Look.
  destruct (Buckets "city" bucket Look) as (_ & _ & _ & Len & _).
  rewrite Len. vm_compute. reflexivity.
Defined.

End split_witness.

(** * Further properties *)

(** ** The order of the filtered places *)

Section ordering_properties.

Import models fields serializers.
Import PlaceFilterNewSerializer.
Context `{GeoBackend}.

#[local] Instance Qcle_transitive : Transitive Qcle.
Proof. intros a b c. apply Qcle_trans. Qed.

#[local] Instance Qcle_total : Total Qcle.
Proof.
  intros a b. destruct (Qclt_le_dec a b) as [L|L]; [left|right]; [|done].
  by apply Qclt_le_weak.
Qed.

#[local] Instance float8_le_transitive : Transitive float8_le.
Proof.
  intros [a| | |] [b| | |] [c| | |]; simpl; try done. apply Qcle_trans.
Qed.

#[local] Instance float8_le_total : Total float8_le.
Proof.
  intros [a| | |] [b| | |]; simpl; try tauto. apply Qcle_total.
Qed.

#[local] Instance le_nulls_last_transitive : Transitive le_nulls_last.
Proof.
  intros [a|] [b|] [c|]; simpl; try done. apply Qcle_trans.
Qed.

#[local] Instance le_nulls_last_total : Total le_nulls_last.
Proof.
  intros [a|] [b|]; simpl; try tauto. apply Qcle_total.
Qed.

Lemma order_by_sorted {K} (le : relation K) `{!RelDecision le}
    `{!Transitive le, !Total le} (annotation : Place.t → K) ordering qs :
  if String.prefix "-" ordering
  then StronglySorted (descending le annotation)
         (order_by le annotation ordering qs)
  else StronglySorted (ascending le annotation)
         (order_by le annotation ordering qs).
Proof.
  unfold order_by. destruct (String.prefix "-" ordering).
  - apply StronglySorted_merge_sort.
    + intros p q r. unfold descending. intros ? ?. by etrans.
    + intros p q. unfold descending. apply total, _.
  - apply StronglySorted_merge_sort.
    + intros p q r. unfold ascending. intros ? ?. by etrans.
    + intros p q. unfold ascending. apply total, _.
Qed.

(** The ordered queryset is the unordered one, sorted by the branch the
    ordering string selects. *)
Lemma filters_applied_ordering db user data :
  apply_filters data = true →
  get_filters_applied_queryset db user data =
  let qs := get_filters_applied_queryset db user (without_ordering data) in
  let ordering := default "" (ordering data) in
  if contains "distance" ordering then
    order_by float8_le (distance_annotation data) ordering qs
  else if contains "rating" ordering then
    order_by le_nulls_last (rating_annotation db user) ordering qs
  else qs.
Proof.
  intros Apply. unfold get_filters_applied_queryset, without_ordering.
  simpl. rewrite Apply. reflexivity.
Qed.

(** X1. Ordering never adds or drops a place: whatever the ordering
    parameter is, the returned list is a permutation of the list the
    same request returns without it. *)
Theorem ordering_permutes_the_filtered_places db user data :
  apply_filters data = true →
  get_filters_applied_queryset db user data
  ≡ₚ get_filters_applied_queryset db user (without_ordering data).
Proof.
  intros Apply. rewrite filters_applied_ordering by done. simpl.
  destruct (contains "distance" _); [|destruct (contains "rating" _)];
    [| |done]; unfold order_by;
    destruct (String.prefix "-" _); apply merge_sort_Permutation.
Qed.

(** X2. With ordering [distance] the returned places are sorted by
    increasing distance in the plane from the query point, with
    [-distance] by decreasing distance: each place is at most (at least)
    as far as every place after it, in the order of the database on
    the distances. *)
Theorem distance_ordering_sorts_by_distance db user data :
  apply_filters data = true →
  (ordering data = Some "distance" →
     StronglySorted
       (λ p q, float8_le (distance_annotation data p)
                 (distance_annotation data q))
       (get_filters_applied_queryset db user data))
  ∧ (ordering data = Some "-distance" →
       StronglySorted
         (λ p q, float8_le (distance_annotation data q)
                   (distance_annotation data p))
         (get_filters_applied_queryset db user data)).
Proof.
  intros Apply. split; intros E;
    rewrite filters_applied_ordering by done; rewrite E; simpl.
  - apply (order_by_sorted float8_le (distance_annotation data) "distance").
  - apply (order_by_sorted float8_le (distance_annotation data)
             "-distance").
Qed.

(** X3. With ordering [rating] the returned places are sorted by
    increasing average of the requesting user's ratings, the places
    without such a rating last; with [-rating] by decreasing average,
    the places without such a rating first. *)
Theorem rating_ordering_sorts_by_average_nulls_last db user data :
  apply_filters data = true →
  (ordering data = Some "rating" →
     StronglySorted
       (λ p q, le_nulls_last (rating_annotation db user p)
                 (rating_annotation db user q))
       (get_filters_applied_queryset db user data))
  ∧ (ordering data = Some "-rating" →
       StronglySorted
         (λ p q, le_nulls_last (rating_annotation db user q)
                   (rating_annotation db user p))
         (get_filters_applied_queryset db user data)).
Proof.
  intros Apply. split; intros E;
    rewrite filters_applied_ordering by done; rewrite E; simpl.
  - apply (order_by_sorted le_nulls_last (rating_annotation db user) "rating").
  - apply (order_by_sorted le_nulls_last (rating_annotation db user) "-rating").
Qed.

End ordering_properties.

(** ** The password rule and the password of the tests *)

Section password_properties.

Import utils passwords.

Lemma findall_nil class password :
  findall class password = [] ↔
  Forall (λ c, class c = false) (list_ascii_of_string password).
Proof.
  unfold findall. induction (list_ascii_of_string password) as [|c l IH].
  - split; [constructor|done].
  - rewrite filter_cons. destruct (class c) eqn:C; simpl.
    + split; [done|]. intros [? _]%Forall_cons. congruence.
    + rewrite IH. split; [by constructor|by intros [_ ?]%Forall_cons].
Qed.

(** What [validate_password] accepts. *)
Lemma validate_password_Returned password :
  validate_password password = Returned () ↔
  8 ≤ String.length password ∧ String.length password ≤ 40
  ∧ findall upper password ≠ [] ∧ findall lower password ≠ []
  ∧ findall digit password ≠ [] ∧ findall special password ≠ []
  ∧ findall space password = [].
Proof.
  unfold validate_password.
  repeat (case_decide; [split; [done|]; intros ?; destruct_and?; first
    [lia | done | tauto]|]).
  split; [|done]. intros _. split_and!; [lia|lia|done..].
Qed.

Lemma list_ascii_of_string_app (a b : string) :
  list_ascii_of_string (a +:+ b)
  = list_ascii_of_string a ++ list_ascii_of_string b.
Proof.
  induction a as [|c a IH]; [done|].
  change (String c a +:+ b) with (String c (a +:+ b)). simpl. by rewrite IH.
Qed.

Lemma findall_app class a b :
  findall class (a +:+ b) = findall class a ++ findall class b.
Proof. unfold findall. by rewrite list_ascii_of_string_app, filter_app. Qed.

(** The characters the tests draw from: the first ten are the digits,
    none is a space. *)
Lemma alphanumerics_classes_bool :
  forallb (λ k, let c := nth k (list_ascii_of_string (digits +:+ ascii_letters))
                           Ascii.zero in
                bool_decide (digit c = bool_decide (k < 10)) && negb (space c))
    (seq 0 62) = true.
Proof. vm_compute. reflexivity. Qed.

Lemma alphanumerics_classes k :
  k < 62 →
  let c := nth k (list_ascii_of_string (digits +:+ ascii_letters)) Ascii.zero in
  digit c = bool_decide (k < 10) ∧ space c = false.
Proof.
  intros K. pose proof alphanumerics_classes_bool as B.
  rewrite forallb_forall in B.
  assert (In k (seq 0 62)) as Hin by (apply in_seq; lia).
  apply B in Hin. apply andb_prop in Hin as [B1 B2].
  apply bool_decide_eq_true in B1. split; [done|].
  by apply negb_true_iff.
Qed.

(** X4. The password the test factories make always has 26 characters,
    and [validate_password] accepts it exactly when one of its twenty
    random characters is a digit: the fixed part has an uppercase
    letter, a lowercase letter and a special character, but no digit. *)
Theorem fake_password_valid_iff_a_digit_is_drawn rng :
  String.length (fake_password rng) = 26
  ∧ (validate_password (fake_password rng) = Returned ()
     ↔ ∃ i, i < 20 ∧ rng i mod 62 < 10).
Proof.
  assert (String.length (fake_password rng) = 26) as Len.
  { unfold fake_password.
    by rewrite string_length_app, string_length_join, choices_length. }
  split; [done|].
  rewrite validate_password_Returned, Len. unfold fake_password.
  rewrite !findall_app.
  set (drawn := join (choices rng (digits +:+ ascii_letters) 20)).
  assert (list_ascii_of_string drawn
          = (λ i, nth (rng i mod 62)
                    (list_ascii_of_string (digits +:+ ascii_letters))
                    Ascii.zero) <$> seq 0 20) as Drawn.
  { unfold drawn, join. by rewrite list_ascii_of_string_of_list_ascii. }
  assert (∀ i, digit (nth (rng i mod 62)
                       (list_ascii_of_string (digits +:+ ascii_letters))
                       Ascii.zero) = bool_decide (rng i mod 62 < 10)
               ∧ space (nth (rng i mod 62)
                          (list_ascii_of_string (digits +:+ ascii_letters))
                          Ascii.zero) = false) as Class.
  { intros i. apply (alphanumerics_classes (rng i mod 62)).
    apply Nat.mod_upper_bound. lia. }
  assert (findall space drawn = []) as NoSpace.
  { apply findall_nil. rewrite Drawn. apply Forall_fmap, Forall_forall.
    intros i _. apply Class. }
  assert (findall digit drawn ≠ [] ↔ ∃ i, i < 20 ∧ rng i mod 62 < 10)
    as Digit.
  { rewrite findall_nil, Drawn, Forall_fmap, Forall_forall. split.
    - intros N.
      destruct (decide (Exists (λ i, rng i mod 62 < 10) (seq 0 20)))
        as [Ex|No].
      + apply Exists_exists in Ex as (i & [_ ?]%elem_of_seq & ?).
        exists i. split; [lia|done].
      + destruct N. intros i In. unfold compose.
        rewrite (proj1 (Class i)). apply bool_decide_eq_false.
        intros ?. apply No, Exists_exists. by exists i.
    - intros (i & ? & D) A. specialize (A i). unfold compose in A.
      rewrite (proj1 (Class i)), bool_decide_eq_false in A.
      apply A; [|done]. apply elem_of_seq. lia. }
  rewrite NoSpace. change (findall digit "pA$$wd") with (@nil ascii).
  change (findall space "pA$$wd") with (@nil ascii). simpl.
  split.
  - intros (_ & _ & _ & _ & D & _). by apply Digit.
  - intros D%Digit. split_and!; [lia|lia|done|done|done|done|done].
Qed.

End password_properties.

(** ** The password reset *)

Section account_facts.

Import validators fields utils passwords accounts.
Context `{AuthBackend}.

Implicit Types (s : cache.store) (users : list User.t).

Lemma list_ascii_of_rev_app (a b : string) :
  list_ascii_of_string (String.rev_app a b)
  = reverse (list_ascii_of_string a) ++ list_ascii_of_string b.
Proof.
  revert b. induction a as [|c a IH]; intros b; simpl; [done|].
  by rewrite IH, reverse_cons, <- app_assoc.
Qed.

Lemma list_ascii_of_rev (a : string) :
  list_ascii_of_string (String.rev a) = reverse (list_ascii_of_string a).
Proof. unfold String.rev. by rewrite list_ascii_of_rev_app, app_nil_r. Qed.

Lemma string_rev_involutive (a : string) : String.rev (String.rev a) = a.
Proof.
  rewrite <- (string_of_list_ascii_of_string (String.rev (String.rev a))).
  rewrite !list_ascii_of_rev, reverse_involutive.
  apply string_of_list_ascii_of_string.
Qed.

Lemma lstrip_id (a : string) :
  Forall (λ c, isspace c = false) (list_ascii_of_string a) → lstrip a = a.
Proof.
  destruct a as [|c a]; simpl; [done|]. intros [E _]%Forall_cons.
  by rewrite E.
Qed.

(** [strip] leaves a text without white space as it is. *)
Lemma strip_id (a : string) :
  Forall (λ c, isspace c = false) (list_ascii_of_string a) → strip a = a.
Proof.
  intros NS. unfold strip. rewrite (lstrip_id a) by done.
  rewrite lstrip_id; [apply string_rev_involutive|].
  rewrite list_ascii_of_rev. by apply Forall_reverse.
Qed.

Lemma PlainCharField_id (a : string) :
  a ≠ "" →
  Forall (λ c, isspace c = false ∧ c ≠ Ascii.zero) (list_ascii_of_string a) →
  PlainCharField a = Returned a.
Proof.
  intros NE Ok. unfold PlainCharField, CharField.
  rewrite strip_id by (eapply Forall_impl; [done|]; by intros ? [? _]).
  rewrite decide_False by done. unfold ProhibitNullCharactersValidator.
  rewrite decide_False; [done|]. intros Z.
  rewrite Forall_forall in Ok. by destruct (Ok _ Z) as [_ ?].
Qed.

Lemma alphanumerics_plain_bool :
  forallb (λ c, negb (isspace c) && negb (bool_decide (c = Ascii.zero)))
    (list_ascii_of_string (digits +:+ ascii_letters)) = true.
Proof. vm_compute. reflexivity. Qed.

Lemma alphanumerics_plain :
  Forall (λ c, isspace c = false ∧ c ≠ Ascii.zero)
    (list_ascii_of_string (digits +:+ ascii_letters)).
Proof.
  apply Forall_forall. intros c In%list_elem_of_In.
  pose proof alphanumerics_plain_bool as B. rewrite forallb_forall in B.
  apply B in In. apply andb_prop in In as [B1 B2].
  apply negb_true_iff in B1. apply negb_true_iff in B2.
  by apply bool_decide_eq_false in B2.
Qed.

Lemma digits_in_alphanumerics c :
  c ∈ list_ascii_of_string digits →
  c ∈ list_ascii_of_string (digits +:+ ascii_letters).
Proof.
  intros In. rewrite list_ascii_of_string_app. apply elem_of_app. by left.
Qed.

Lemma PlainCharField_of_population (a population : string) :
  a ≠ "" →
  Forall (λ c, c ∈ list_ascii_of_string population) (list_ascii_of_string a) →
  Forall (λ c, isspace c = false ∧ c ≠ Ascii.zero)
    (list_ascii_of_string population) →
  PlainCharField a = Returned a.
Proof.
  intros NE In Pop. apply PlainCharField_id; [done|].
  rewrite Forall_forall in Pop. eapply Forall_impl; [done|]. eauto.
Qed.

(** The minted secrets, as the serializers ask them to be. *)
Lemma minted_token_shape rng :
  let token := join (choices rng (digits +:+ ascii_letters) 32) in
  String.length token = 32
  ∧ Forall (λ ch, ch ∈ list_ascii_of_string (digits +:+ ascii_letters))
      (list_ascii_of_string token).
Proof.
  cbv zeta. split.
  - by rewrite string_length_join, choices_length.
  - unfold join. rewrite list_ascii_of_string_of_list_ascii.
    by apply choices_from_population.
Qed.

Lemma nonempty_of_length (a : string) n :
  String.length a = S n → a ≠ "".
Proof. by destruct a. Qed.

(** The key of a code is never the key of a token. *)
Lemma code_key_ne_token_key (a b : string) : a +:+ "__code" ≠ b +:+ "__token".
Proof.
  intros E.
  apply (f_equal (λ k, head (reverse (list_ascii_of_string k)))) in E.
  rewrite !list_ascii_of_string_app, !reverse_app in E. done.
Qed.

Lemma run_required_Given {A B} name (conv : A → except string B) a v :
  conv a = Returned v →
  run_validation_required name conv [] (Given a) = Returned v.
Proof.
  intros C. unfold run_validation_required, run_validation. by rewrite C.
Qed.

(** The outcomes of [CodeWithEmailSerializer.validate]. *)
Lemma code_validate_cases users data now s :
  let norm_email := normalize_email (CodeWithEmailSerializer.email data) in
  let key := norm_email +:+ "__code" in
  let code := CodeWithEmailSerializer.code data in
  (filter_email users norm_email = []
   ∧ CodeWithEmailSerializer.validate users data now s
     = (Raised (no_user_found norm_email), s))
  ∨ (filter_email users norm_email ≠ []
     ∧ ¬ four_digits code
     ∧ CodeWithEmailSerializer.validate users data now s
       = (Raised ("code", "Invalid code provided."), s))
  ∨ (filter_email users norm_email ≠ []
     ∧ four_digits code
     ∧ (∀ e, s !! key = Some e → cache.live now e → cache.value e ≠ code)
     ∧ CodeWithEmailSerializer.validate users data now s
       = (Raised ("code", "Code has expired or it is incorrect."), s))
  ∨ (filter_email users norm_email ≠ []
     ∧ four_digits code
     ∧ (∃ e, s !! key = Some e ∧ cache.live now e ∧ cache.value e = code)
     ∧ CodeWithEmailSerializer.validate users data now s
       = (Returned data, delete key s)).
Proof.
  intros norm_email key code. unfold CodeWithEmailSerializer.validate.
  fold norm_email code.
  destruct (decide (filter_email users norm_email = [])) as [E|NE];
    [by left|right].
  case_decide as F.
  - left. split_and!; [done| |done]. unfold four_digits. tauto.
  - right. assert (four_digits code) as Four.
    { unfold four_digits. split.
      + destruct (decide (String.length code = 4)); [done|tauto].
      + destruct (decide (Forall (λ ch, ch ∈ list_ascii_of_string digits)
                            (list_ascii_of_string code))); [done|tauto]. }
    unfold mbind, cache.bind. rewrite try_use_code_unfold. fold key.
    destruct (try_consume_spec key code now s)
      as [(e & E & L & V & ->)|[N ->]]; simpl.
    + right. split_and!; [done..| |done]. by exists e.
    + left. by split_and!.
Qed.

(** The outcomes of [ChangePasswordForgotSerializer.validate]. *)
Lemma forgot_validate_cases users data now s :
  let norm_email :=
    normalize_email (ChangePasswordForgotSerializer.email data) in
  let key := norm_email +:+ "__token" in
  let token := ChangePasswordForgotSerializer.session_token data in
  (∃ e, ChangePasswordForgotSerializer.validate users data now s
        = (Raised e, s))
  ∨ (∃ instance entry,
       get_email users norm_email = Returned instance
       ∧ ChangePasswordForgotSerializer.new_password data
         = ChangePasswordForgotSerializer.confirmation_password data
       ∧ s !! key = Some entry ∧ cache.live now entry
       ∧ cache.value entry = token
       ∧ ChangePasswordForgotSerializer.validate users data now s
         = (Returned (data, instance), delete key s)).
Proof.
  intros norm_email key token.
  unfold ChangePasswordForgotSerializer.validate. fold norm_email token.
  case_decide; [left; by eexists|].
  destruct (get_email users norm_email) as [?|instance] eqn:G;
    [left; by eexists|].
  case_decide; [left; by eexists|].
  case_decide as P; [left; by eexists|].
  unfold mbind, cache.bind. rewrite try_use_token_unfold. fold key.
  destruct (try_consume_spec key token now s)
    as [(e & E & L & V & ->)|[N ->]]; simpl.
  - right. exists instance, e. by split_and!.
  - left. by eexists.
Qed.

(** What a call of [get_or_create_code] leaves in the cache: a live code
    under the key of the address, and every other key as it was. *)
Lemma get_or_create_code_stable_cases email rng now s :
  let '(code, s') := ResetCodeManager.get_or_create_code email rng now s in
  ∃ c, (cache.get (email +:+ "__code") now s').1 = Some c
       ∧ ∀ key, key ≠ email +:+ "__code" → s' !! key = s !! key.
Proof.
  rewrite get_or_create_code_unfold.
  destruct (get_or_create_cases (email +:+ "__code")
              (join (choices rng digits 4)) 120 now s)
    as [(e & E & L & ->)|[_ ->]]; [lia|..].
  - exists (cache.value e). split; [|done]. apply cache_get_Some. by exists e.
  - eexists. split.
    + apply cache_get_Some. eexists. split; [apply lookup_insert_eq|].
      split; [|done]. unfold cache.live. simpl. lia.
    + intros key NE. by rewrite lookup_insert_ne.
Qed.

End account_facts.

Section account_properties.

Import validators fields utils passwords accounts.
Import ForgotPasswordViewSet.
Context `{AuthBackend}.

Implicit Types (s : cache.store) (users : list User.t).

Lemma send_email_eval users email rng now s :
  EmailField email = Returned email →
  filter_email users (normalize_email email) ≠ [] →
  send_email users (Given email) rng now s =
  let '(code, s') := ResetCodeManager.get_or_create_code email rng now s in
  (match get_email users email with
   | Raised e => ServerError500 e
   | Returned user =>
       Ok200 [("success", "Successfully sent a reset code to "
                          +:+ User.email user +:+ ".")]
   end, s').
Proof.
  intros E NE. unfold send_email, FindEmailSerializer.is_valid.
  rewrite (run_required_Given _ _ _ _ E).
  unfold FindEmailSerializer.validate. rewrite decide_False by done.
  unfold FindEmailSerializer.save, mbind, cache.bind, mret, cache.ret.
  destruct (ResetCodeManager.get_or_create_code email rng now s) as [code s'].
  simpl. by destruct (get_email users email).
Qed.

Lemma send_reset_code_eval users email code rng now s :
  EmailField email = Returned email →
  PlainCharField code = Returned code →
  send_reset_code users (Given email) (Given code) rng now s =
  let data := {| CodeWithEmailSerializer.email := email;
                 CodeWithEmailSerializer.code := code |} in
  let '(checked, s1) := CodeWithEmailSerializer.validate users data now s in
  match checked with
  | Raised e => (BadRequest400 [e], s1)
  | Returned data =>
      let '(token, s2) :=
        SessionTokenManager.get_or_create_token
          (CodeWithEmailSerializer.email data) rng now s1 in
      (Ok200 [("session_token", default "None" token)], s2)
  end.
Proof.
  intros E C. unfold send_reset_code, CodeWithEmailSerializer.is_valid.
  rewrite (run_required_Given _ _ _ _ E), (run_required_Given _ _ _ _ C).
  simpl. unfold mbind, cache.bind, mret, cache.ret.
  destruct (CodeWithEmailSerializer.validate users _ now s) as [[e|d] s1];
    simpl; [done|].
  unfold CodeWithEmailSerializer.save.
  by destruct (SessionTokenManager.get_or_create_token _ rng now s1).
Qed.

Lemma change_password_eval users email token new confirmation salt now s :
  EmailField email = Returned email →
  PlainCharField token = Returned token →
  PasswordField new = Returned new →
  PasswordField confirmation = Returned confirmation →
  change_password users (Given email) (Given token) (Given new)
    (Given confirmation) salt now s =
  let data :=
    {| ChangePasswordForgotSerializer.email := email;
       ChangePasswordForgotSerializer.session_token := token;
       ChangePasswordForgotSerializer.new_password := new;
       ChangePasswordForgotSerializer.confirmation_password := confirmation |}
  in
  let '(checked, s1) :=
    ChangePasswordForgotSerializer.validate users data now s in
  match checked with
  | Raised (inl e) => ((BadRequest400 [e], users), s1)
  | Raised (inr e) => ((ServerError500 e, users), s1)
  | Returned (data, instance) =>
      ((Ok200 [("success", "Successfully changed password for "
                           +:+ User.email instance +:+ ".")],
        set_password salt instance
          (ChangePasswordForgotSerializer.new_password data) users), s1)
  end.
Proof.
  intros E T N C.
  unfold change_password, ChangePasswordForgotSerializer.fields_valid.
  rewrite (run_required_Given _ _ _ _ E), (run_required_Given _ _ _ _ T),
    (run_required_Given _ _ _ _ N), (run_required_Given _ _ _ _ C).
  simpl. unfold mbind, cache.bind, mret, cache.ret.
  by destruct (ChangePasswordForgotSerializer.validate users _ now s)
    as [[[e|e]|[d i]] s1].
Qed.

(** X5. A refused request of the password reset changes nothing: when
    [send_email] or [send_reset_code] answers with a validation error the
    cache is as before, and when [change_password] answers with anything
    but success both the cache and the users are as before. So a wrong
    code or token never uses up the stored one. *)
Theorem refused_reset_request_changes_nothing users re rc rt rn rcf rng salt
    now s :
  (∀ errs s', send_email users re rng now s = (BadRequest400 errs, s') →
              s' = s)
  ∧ (∀ errs s',
       send_reset_code users re rc rng now s = (BadRequest400 errs, s') →
       s' = s)
  ∧ (∀ response users' s',
       change_password users re rt rn rcf salt now s
       = ((response, users'), s') →
       (∀ body, response ≠ Ok200 body) → s' = s ∧ users' = users).
Proof.
  split_and!.
  - intros errs s'. unfold send_email.
    destruct (FindEmailSerializer.is_valid users re) as [e|email];
      [by intros [= _ <-]|].
    unfold FindEmailSerializer.save, mbind, cache.bind, mret, cache.ret.
    destruct (ResetCodeManager.get_or_create_code email rng now s)
      as [code s1]. simpl. by destruct (get_email users email).
  - intros errs s'. unfold send_reset_code, CodeWithEmailSerializer.is_valid.
    unfold mbind, cache.bind, mret, cache.ret.
    destruct (_ <*> _ <*> _) as [e|data]; simpl; [by intros [= _ <-]|].
    destruct (code_validate_cases users data now s)
      as [[_ ->]|[(_ & _ & ->)|[(_ & _ & _ & ->)|(_ & _ & _ & ->)]]]; simpl;
      try (by intros [= _ <-]).
    unfold CodeWithEmailSerializer.save.
    by destruct (SessionTokenManager.get_or_create_token _ _ _ _).
  - intros response users' s'. unfold change_password.
    destruct (ChangePasswordForgotSerializer.fields_valid re rt rn rcf)
      as [e|data]; [by intros [= _ <- <-]|].
    unfold mbind, cache.bind, mret, cache.ret.
    destruct (forgot_validate_cases users data now s)
      as [[e ->]|(i & en & _ & _ & _ & _ & _ & ->)]; simpl.
    + destruct e; by intros [= _ <- <-].
    + intros [= <- _ _] No. exfalso. by eapply No.
Qed.

(** X6. A reset code works once: after [send_reset_code] has answered
    with a session token, the same request is refused at any later time,
    with the message for a wrong or expired code, and changes nothing. *)
Theorem accepted_reset_code_is_refused_afterwards users re rc rng now s
    body s1 :
  send_reset_code users re rc rng now s = (Ok200 body, s1) →
  ∀ rng' now',
    send_reset_code users re rc rng' now' s1
    = (BadRequest400 [("code", "Code has expired or it is incorrect.")], s1).
Proof.
  unfold send_reset_code, CodeWithEmailSerializer.is_valid.
  unfold mbind, cache.bind, mret, cache.ret.
  destruct (_ <*> _ <*> _) as [e|data]; simpl; [done|].
  set (key := normalize_email (CodeWithEmailSerializer.email data) +:+ "__code").
  destruct (code_validate_cases users data now s)
    as [[_ ->]|[(_ & _ & ->)|[(_ & _ & _ & ->)|(NE & Four & _ & ->)]]];
    simpl; [done..|].
  unfold CodeWithEmailSerializer.save.
  rewrite get_or_create_token_unfold.
  set (tkey := CodeWithEmailSerializer.email data +:+ "__token").
  set (mint := join _).
  assert (key ≠ tkey) as NK by apply code_key_ne_token_key.
  intros First rng' now'. fold key in First.
  assert (s1 !! key = None) as Gone.
  { destruct (get_or_create_cases tkey mint 600 now (delete key s))
      as [(e & _ & _ & E)|[_ E]]; [lia| |]; rewrite E in First;
      injection First as _ <-.
    - by rewrite lookup_delete_eq.
    - rewrite lookup_insert_ne by done. by rewrite lookup_delete_eq. }
  destruct (code_validate_cases users data now' s1)
    as [[E _]|[(_ & NF & _)|[(_ & _ & _ & ->)|(_ & _ & (e & E & _) & _)]]];
    [done..| |].
  - done.
  - fold key in E. by rewrite Gone in E.
Qed.

(** X7. The whole reset: for a registered address that is its own
    normalization, with no code and no token stored, [send_email] stores
    the freshly drawn code; [send_reset_code] with that code, less than
    120 seconds later, answers with the freshly drawn token; and
    [change_password] with that token, less than 600 seconds later, sets
    the new password of that user. Afterwards neither secret is left. *)
Theorem reset_flow_sets_the_new_password users user email new rng1 rng2 salt
    t0 t1 t2 s :
  EmailField email = Returned email →
  normalize_email email = email →
  filter_email users email = [user] →
  PasswordField new = Returned new →
  (cache.get (email +:+ "__code") t0 s).1 = None →
  (cache.get (email +:+ "__token") t1 s).1 = None →
  t1 < t0 + 120 → t2 < t1 + 600 →
  let code := join (choices rng1 digits 4) in
  let token := join (choices rng2 (digits +:+ ascii_letters) 32) in
  let '(response0, s0) := send_email users (Given email) rng1 t0 s in
  let '(response1, s1) :=
    send_reset_code users (Given email) (Given code) rng2 t1 s0 in
  let '((response2, users2), s2) :=
    change_password users (Given email) (Given token) (Given new) (Given new)
      salt t2 s1 in
  response0 = Ok200 [("success", "Successfully sent a reset code to "
                                 +:+ User.email user +:+ ".")]
  ∧ (cache.get (email +:+ "__code") t1 s0).1 = Some code
  ∧ response1 = Ok200 [("session_token", token)]
  ∧ response2 = Ok200 [("success", "Successfully changed password for "
                                   +:+ User.email user +:+ ".")]
  ∧ users2 = set_password salt user new users
  ∧ s2 !! (email +:+ "__code") = None
  ∧ s2 !! (email +:+ "__token") = None.
Proof.
  intros E Norm One New NoCode NoToken T1 T2 code token.
  set (ckey := email +:+ "__code"). set (tkey := email +:+ "__token").
  assert (ckey ≠ tkey) as NK by apply code_key_ne_token_key.
  assert (filter_email users (normalize_email email) ≠ []) as NE
    by (by rewrite Norm, One).
  assert (get_email users email = Returned user) as Get
    by (unfold get_email; by rewrite One).
  pose proof (minted_code_four_digits rng1) as Four. fold code in Four.
  pose proof (minted_token_shape rng2) as Shape. cbv zeta in Shape.
  fold token in Shape.
  assert (PlainCharField code = Returned code) as PC.
  { destruct Four as [L D].
    apply (PlainCharField_of_population code (digits +:+ ascii_letters)).
    - by eapply nonempty_of_length.
    - eapply Forall_impl; [done|]. apply digits_in_alphanumerics.
    - apply alphanumerics_plain. }
  assert (PlainCharField token = Returned token) as PT.
  { destruct Shape as [L D].
    apply (PlainCharField_of_population token (digits +:+ ascii_letters));
      [by eapply nonempty_of_length|done|apply alphanumerics_plain]. }
  (* the code is issued *)
  rewrite send_email_eval by done.
  rewrite get_or_create_code_unfold. fold ckey code.
  rewrite get_or_create_fresh by (by apply cache_get_None || lia).
  rewrite Get.
  set (s0 := <[ckey:=cache.Entry code (t0 + 120)]> s).
  assert ((cache.get ckey t1 s0).1 = Some code) as Live0.
  { apply cache_get_Some. eexists. split; [apply lookup_insert_eq|].
    split; [|done]. unfold cache.live. cbn [cache.expires]. lia. }
  (* the code is used and the token is issued *)
  rewrite send_reset_code_eval by done. cbv zeta.
  destruct (code_validate_cases users
              {| CodeWithEmailSerializer.email := email;
                 CodeWithEmailSerializer.code := code |} t1 s0)
    as [[Nil _]|[(_ & NF & _)|[(_ & _ & Miss & _)|(_ & _ & _ & ->)]]];
    cbn [CodeWithEmailSerializer.email CodeWithEmailSerializer.code] in *.
  { done. }
  { done. }
  { rewrite Norm in Miss. fold ckey in Miss.
    edestruct Miss; [apply lookup_insert_eq| |done].
    unfold cache.live. cbn [cache.expires]. lia. }
  rewrite Norm. fold ckey.
  rewrite get_or_create_token_unfold. fold tkey token.
  assert (delete ckey s0 !! tkey = s !! tkey) as Same.
  { rewrite lookup_delete_ne by done. unfold s0.
    by rewrite lookup_insert_ne. }
  rewrite get_or_create_fresh; [| |lia].
  2:{ intros e0. rewrite Same. by apply cache_get_None. }
  set (s1 := <[tkey:=cache.Entry token (t1 + 600)]> (delete ckey s0)).
  (* the token is used and the password is set *)
  rewrite change_password_eval by done. cbv zeta.
  destruct (forgot_validate_cases users
              {| ChangePasswordForgotSerializer.email := email;
                 ChangePasswordForgotSerializer.session_token := token;
                 ChangePasswordForgotSerializer.new_password := new;
                 ChangePasswordForgotSerializer.confirmation_password := new |}
              t2 s1) as [[e Bad]|(i & en & G & _ & _ & _ & _ & ->)];
    cbn [ChangePasswordForgotSerializer.email
         ChangePasswordForgotSerializer.session_token
         ChangePasswordForgotSerializer.new_password
         ChangePasswordForgotSerializer.confirmation_password] in *.
  { exfalso. revert Bad. unfold ChangePasswordForgotSerializer.validate.
    cbn [ChangePasswordForgotSerializer.email
         ChangePasswordForgotSerializer.session_token
         ChangePasswordForgotSerializer.new_password
         ChangePasswordForgotSerializer.confirmation_password].
    rewrite decide_False by done. rewrite Norm, Get.
    rewrite decide_False by (destruct Shape; tauto).
    rewrite decide_False by tauto.
    unfold mbind, cache.bind. rewrite try_use_token_unfold. fold tkey.
    rewrite (try_consume_hit tkey token t2 s1 (cache.Entry token (t1 + 600)));
      [done|apply lookup_insert_eq| |done].
    unfold cache.live. cbn [cache.expires]. lia. }
  rewrite Norm, Get in G. injection G as <-.
  rewrite Norm. fold tkey.
  split_and!; try done.
  - rewrite lookup_delete_ne by done. unfold s1.
    rewrite lookup_insert_ne by done. apply lookup_delete_eq.
  - apply lookup_delete_eq.
Qed.

(** The outcomes of [send_reset_code]. *)
Lemma send_reset_code_cases users re rc rng now s :
  (∃ errs, send_reset_code users re rc rng now s = (BadRequest400 errs, s))
  ∨ (∃ data entry body s1,
       run_validation_required "email" EmailField [] re
       = Returned (CodeWithEmailSerializer.email data)
       ∧ s !! (normalize_email (CodeWithEmailSerializer.email data)
               +:+ "__code") = Some entry
       ∧ cache.live now entry
       ∧ send_reset_code users re rc rng now s = (Ok200 body, s1)).
Proof.
  unfold send_reset_code, CodeWithEmailSerializer.is_valid.
  unfold mbind, cache.bind, mret, cache.ret.
  destruct (_ <*> _ <*> _) as [e|data] eqn:F; simpl; [left; by eexists|].
  apply ap_Returned in F as (g & code & F & _ & ->).
  apply ap_Returned in F as (g0 & email & [= <-] & E & ->).
  destruct (code_validate_cases users (CodeWithEmailSerializer.Build_validated_data email code) now s)
    as [[_ ->]|[(_ & _ & ->)|[(_ & _ & _ & ->)|(_ & _ & (e & En & L & _) & ->)]]];
    simpl; [left; by eexists..|].
  right. unfold CodeWithEmailSerializer.save. simpl.
  destruct (SessionTokenManager.get_or_create_token email rng now _)
    as [token s1].
  by exists (CodeWithEmailSerializer.Build_validated_data email code), e,
    [("session_token", default "None" token)], s1.
Qed.

(** X8. An address that is registered only in its normalized form breaks
    the reset: [send_email] stores a code under the address as given and
    then fails, because no user has that address; and as
    [send_reset_code] looks under the normalized address, where nothing
    is stored, it refuses every code for the address. *)
Theorem unnormalized_address_cannot_reset users email rng now s :
  EmailField email = Returned email →
  filter_email users (normalize_email email) ≠ [] →
  filter_email users email = [] →
  let '(response, s') := send_email users (Given email) rng now s in
  response = ServerError500 DoesNotExist
  ∧ (∃ code, (cache.get (email +:+ "__code") now s').1 = Some code)
  ∧ (s !! (normalize_email email +:+ "__code") = None →
     ∀ rc rng' now',
       ∃ errs, send_reset_code users (Given email) rc rng' now' s'
               = (BadRequest400 errs, s')).
Proof.
  intros E Registered NotRaw.
  assert (normalize_email email ≠ email) as Differ by congruence.
  rewrite send_email_eval by done.
  pose proof (get_or_create_code_stable_cases email rng now s) as Cases.
  destruct (ResetCodeManager.get_or_create_code email rng now s)
    as [code s'] eqn:G.
  destruct Cases as (c & Live & Other).
  unfold get_email. rewrite NotRaw. split_and!; [done|by exists c|].
  intros None rc rng' now'.
  destruct (send_reset_code_cases users (Given email) rc rng' now' s')
    as [?|(data & entry & body & s1 & F & En & _)]; [done|].
  rewrite (run_required_Given _ _ _ _ E) in F. injection F as F.
  rewrite <- F in En. rewrite Other in En; [congruence|].
  intros K. by apply string_app_inj_r in K.
Qed.

(** X9. When [change_password] succeeds, the fields were valid, the new
    password passed [validate_password] and equals its confirmation,
    one user has the normalized address, and exactly the users with
    that user's key got the hash of the new password; the token is
    deleted, so the same request is refused from then on, whatever the
    users are. *)
Theorem change_password_success_effects users re rt rn rcf salt now s body
    users' s' :
  change_password users re rt rn rcf salt now s = ((Ok200 body, users'), s') →
  ∃ data instance,
    ChangePasswordForgotSerializer.fields_valid re rt rn rcf = Returned data
    ∧ get_email users
        (normalize_email (ChangePasswordForgotSerializer.email data))
      = Returned instance
    ∧ ChangePasswordForgotSerializer.new_password data
      = ChangePasswordForgotSerializer.confirmation_password data
    ∧ validate_password (ChangePasswordForgotSerializer.new_password data)
      = Returned ()
    ∧ users' = set_password salt instance
                 (ChangePasswordForgotSerializer.new_password data) users
    ∧ (∀ u, u ∈ users' →
            (User.id u = User.id instance
             ∧ User.password u
               = make_password salt
                   (ChangePasswordForgotSerializer.new_password data))
            ∨ (User.id u ≠ User.id instance ∧ u ∈ users))
    ∧ s' = delete (normalize_email
                     (ChangePasswordForgotSerializer.email data)
                   +:+ "__token") s
    ∧ ∀ users2 salt2 now2,
        ∃ response users3,
          change_password users2 re rt rn rcf salt2 now2 s'
          = ((response, users3), s')
          ∧ ∀ body2, response ≠ Ok200 body2.
Proof.
  unfold change_password.
  destruct (ChangePasswordForgotSerializer.fields_valid re rt rn rcf)
    as [e|data] eqn:F; [done|].
  unfold mbind, cache.bind, mret, cache.ret.
  destruct (forgot_validate_cases users data now s)
    as [[e ->]|(i & en & G & Same & En & L & V & ->)]; simpl.
  { by destruct e. }
  intros [= _ <- <-]. exists data, i.
  split_and!; try done.
  - unfold ChangePasswordForgotSerializer.fields_valid in F.
    apply ap_Returned in F as (g4 & a4 & F & _ & ->).
    apply ap_Returned in F as (g3 & new & F & N & ->).
    apply ap_Returned in F as (g2 & a2 & F & _ & ->).
    apply ap_Returned in F as (g1 & a1 & [= <-] & _ & ->). simpl.
    apply run_validation_required_Returned in N as (raw & _ & P & _).
    unfold PasswordField in P. destruct (CharField raw) as [?|v]; [done|].
    destruct (validate_password v) as [?|[]] eqn:VP; [done|].
    destruct (ProhibitNullCharactersValidator v); [done|].
    by injection P as <-.
  - intros u (u0 & -> & In)%list_elem_of_fmap. case_decide; [by left|].
    by right.
  - intros users2 salt2 now2.
    unfold mbind, cache.bind, mret, cache.ret.
    destruct (forgot_validate_cases users2 data now2
                (delete (normalize_email
                           (ChangePasswordForgotSerializer.email data)
                         +:+ "__token") s))
      as [[e ->]|(i2 & en2 & _ & _ & En2 & _)]; simpl.
    + destruct e; eexists _, _; by split.
    + by rewrite lookup_delete_eq in En2.
Qed.

(** X10. An address that no user has, in its normalized form, is
    reported as such by all three actions, before any code or token is
    looked at: the answer is the error for the field [email] naming the
    normalized address, and the cache and the users stay as they are. *)
Theorem unknown_address_is_reported users email rng salt now s :
  EmailField email = Returned email →
  filter_email users (normalize_email email) = [] →
  send_email users (Given email) rng now s
  = (BadRequest400 [no_user_found (normalize_email email)], s)
  ∧ (∀ code, PlainCharField code = Returned code →
             send_reset_code users (Given email) (Given code) rng now s
             = (BadRequest400 [no_user_found (normalize_email email)], s))
  ∧ (∀ token new confirmation,
       PlainCharField token = Returned token →
       PasswordField new = Returned new →
       PasswordField confirmation = Returned confirmation →
       change_password users (Given email) (Given token) (Given new)
         (Given confirmation) salt now s
       = ((BadRequest400 [no_user_found (normalize_email email)], users), s)).
Proof.
  intros E Unknown. split_and!.
  - unfold send_email, FindEmailSerializer.is_valid.
    rewrite (run_required_Given _ _ _ _ E).
    unfold FindEmailSerializer.validate. by rewrite decide_True.
  - intros code C. rewrite send_reset_code_eval by done. simpl.
    unfold CodeWithEmailSerializer.validate. simpl.
    by rewrite decide_True.
  - intros token new confirmation T N C.
    rewrite change_password_eval by done. simpl.
    unfold ChangePasswordForgotSerializer.validate. simpl.
    by rewrite decide_True.
Qed.

End account_properties.

(** ** Examples of the further properties *)

Section ordering_examples.

Import models fields serializers.

Lemma ordering_permutes_the_filtered_places_witness :
  let data := example_data true false None None (Some "-distance") in
  @PlaceFilterNewSerializer.get_filters_applied_queryset
    example_backend example_db 1 data
  ≡ₚ @PlaceFilterNewSerializer.get_filters_applied_queryset
       example_backend example_db 1 (without_ordering data).
Proof.
  intros data.
  apply (@ordering_permutes_the_filtered_places
           example_backend example_db 1 data).
  reflexivity.
Defined.

Lemma distance_ordering_sorts_by_distance_witness :
  let data := example_data true false None None (Some "distance") in
  StronglySorted
    (λ p q, float8_le (@distance_annotation example_backend data p)
              (@distance_annotation example_backend data q))
    (@PlaceFilterNewSerializer.get_filters_applied_queryset
       example_backend example_db 1 data).
Proof.
  intros data.
  apply (proj1 (@distance_ordering_sorts_by_distance
                  example_backend example_db 1 data eq_refl)).
  reflexivity.
Defined.

Lemma rating_ordering_sorts_by_average_nulls_last_witness :
  let data := example_data true false None None (Some "-rating") in
  StronglySorted
    (λ p q, le_nulls_last (rating_annotation example_db 1 q)
              (rating_annotation example_db 1 p))
    (@PlaceFilterNewSerializer.get_filters_applied_queryset
       example_backend example_db 1 data).
Proof.
  intros data.
  apply (proj2 (@rating_ordering_sorts_by_average_nulls_last
                  example_backend example_db 1 data eq_refl)).
  reflexivity.
Defined.

End ordering_examples.

Section account_examples.

Import fields utils passwords accounts.
Import ForgotPasswordViewSet.

(** Ann's code is stored and she sends it: the second time it is
    refused. *)
Lemma accepted_reset_code_is_refused_afterwards_witness :
  let s : cache.store := {[ "ann@mail.io__code" := cache.Entry "0042" 120 ]} in
  ∃ body s1,
    @send_reset_code example_auth example_users (Given "ann@mail.io")
      (Given "0042") (λ i, i) 60 s = (Ok200 body, s1)
    ∧ @send_reset_code example_auth example_users (Given "ann@mail.io")
        (Given "0042") (λ i, i + 1) 61 s1
      = (BadRequest400 [("code", "Code has expired or it is incorrect.")],
         s1).
Proof.
  intros s.
  destruct (@send_reset_code example_auth example_users (Given "ann@mail.io")
              (Given "0042") (λ i, i) 60 s) as [response s1] eqn:First.
  assert (∃ body, response = Ok200 body) as [body ->].
  { apply (f_equal fst) in First. vm_compute in First. subst. by eexists. }
  exists body, s1. split; [done|].
  apply (@accepted_reset_code_is_refused_afterwards example_auth
           example_users (Given "ann@mail.io") (Given "0042") (λ i, i) 60 s
           body s1 First).
Defined.

Lemma reset_flow_sets_the_new_password_witness :
  let ann := {| User.id := 1; User.email := "ann@mail.io";
                User.password := "hash$pA$$w0rd-old" |} in
  let code := join (choices (λ i, i) digits 4) in
  let token := join (choices (λ i, 3 * i) (digits +:+ ascii_letters) 32) in
  let '(response0, s0) :=
    @send_email example_auth example_users (Given "ann@mail.io")
      (λ i, i) 0 ∅ in
  let '(response1, s1) :=
    @send_reset_code example_auth example_users (Given "ann@mail.io")
      (Given code) (λ i, 3 * i) 100 s0 in
  let '((response2, users2), s2) :=
    @change_password example_auth example_users (Given "ann@mail.io")
      (Given token) (Given "n3w-Passw0rd") (Given "n3w-Passw0rd") 7 500 s1 in
  response0 = Ok200 [("success", "Successfully sent a reset code to "
                                 +:+ User.email ann +:+ ".")]
  ∧ (cache.get "ann@mail.io__code" 100 s0).1 = Some code
  ∧ response1 = Ok200 [("session_token", token)]
  ∧ response2 = Ok200 [("success", "Successfully changed password for "
                                   +:+ User.email ann +:+ ".")]
  ∧ users2 = @set_password example_auth 7 ann "n3w-Passw0rd" example_users
  ∧ s2 !! "ann@mail.io__code" = None
  ∧ s2 !! "ann@mail.io__token" = None.
Proof.
  intros ann.
  apply (@reset_flow_sets_the_new_password example_auth example_users ann
           "ann@mail.io" "n3w-Passw0rd" (λ i, i) (λ i, 3 * i) 7 0 100 500 ∅);
    first [lia | vm_compute; reflexivity].
Defined.

(** Ann writes the domain of her address in capitals. *)
Lemma unnormalized_address_cannot_reset_witness :
  let '(response, s') :=
    @send_email example_auth example_users (Given "ann@MAIL.io")
      (λ i, i) 0 ∅ in
  response = ServerError500 DoesNotExist
  ∧ (∃ code, (cache.get "ann@MAIL.io__code" 0 s').1 = Some code)
  ∧ ((∅ : cache.store) !! "ann@mail.io__code" = None →
     ∀ rc rng' now',
       ∃ errs, @send_reset_code example_auth example_users
                 (Given "ann@MAIL.io") rc rng' now' s'
               = (BadRequest400 errs, s')).
Proof.
  apply (@unnormalized_address_cannot_reset example_auth example_users
           "ann@MAIL.io" (λ i, i) 0 ∅).
  - vm_compute. reflexivity.
  - vm_compute. discriminate.
  - vm_compute. reflexivity.
Defined.

(** Bob holds a token and changes his password: the token is gone and
    the same request is refused. *)
Lemma change_password_success_effects_witness :
  let token := "0123456789abcdefghijklmnopqrstuv" in
  let s : cache.store :=
    {[ "bob@mail.io__token" := cache.Entry token 600 ]} in
  ∃ body users' s',
    @change_password example_auth example_users (Given "bob@mail.io")
      (Given token) (Given "n3w-Passw0rd") (Given "n3w-Passw0rd") 7 10 s
    = ((Ok200 body, users'), s')
    ∧ s' = delete "bob@mail.io__token" s
    ∧ ∀ users2 salt2 now2,
        ∃ response users3,
          @change_password example_auth users2 (Given "bob@mail.io")
            (Given token) (Given "n3w-Passw0rd") (Given "n3w-Passw0rd")
            salt2 now2 s'
          = ((response, users3), s')
          ∧ ∀ body2, response ≠ Ok200 body2.
Proof.
  intros token s.
  destruct (@change_password example_auth example_users (Given "bob@mail.io")
              (Given token) (Given "n3w-Passw0rd") (Given "n3w-Passw0rd")
              7 10 s) as [[response users'] s'] eqn:Run.
  assert (∃ body, response = Ok200 body) as [body ->].
  { apply (f_equal (fst ∘ fst)) in Run. vm_compute in Run. subst.
    by eexists. }
  exists body, users', s'. split; [done|].
  destruct (@change_password_success_effects example_auth example_users
              (Given "bob@mail.io") (Given token) (Given "n3w-Passw0rd")
              (Given "n3w-Passw0rd") 7 10 s body users' s' Run)
    as (data & instance & F & _ & _ & _ & _ & _ & -> & Again).
  assert (ChangePasswordForgotSerializer.email data = "bob@mail.io") as E.
  { vm_compute in F. by injection F as <-. }
  rewrite E in *. split; [done|]. exact Again.
Defined.

Lemma unknown_address_is_reported_witness :
  @send_email example_auth example_users (Given "eve@mail.io") (λ i, i) 0 ∅
  = (BadRequest400 [no_user_found "eve@mail.io"], ∅).
Proof.
  apply (@unknown_address_is_reported example_auth example_users
           "eve@mail.io" (λ i, i) 0 0 ∅);
    vm_compute; reflexivity.
Defined.

End account_examples.

(** ** The places: permission, listing and deletion *)

Section place_view_properties.

Import models fields serializers permissions place_models place_serializers.
Import place_views.

Lemma has_object_permission_unsafe method user place :
  method ∉ SAFE_METHODS →
  IsSameUserOrReadonly.has_object_permission method user place = true
  ↔ user = Some (Place.added_by place).
Proof.
  intros Unsafe. unfold IsSameUserOrReadonly.has_object_permission.
  rewrite decide_False by done. destruct user as [u|]; [|done].
  rewrite bool_decide_eq_true. split; [by intros ->|by intros [= ->]].
Qed.

(** X11. [get_places] lists every place of the table, whoever owns it,
    in the order of the table, while [homepage] lists the places of the
    user; and in both the flag [can_edit] of a place tells what the
    permission decides: it is the answer of [has_object_permission] to
    every method that is not safe, for the user who asks. *)
Theorem can_edit_agrees_with_the_permission db user :
  ∃ all_places own_places,
    PlaceViewSet.get_places db (Some user) = Done all_places
    ∧ homepage db (Some user) = Done own_places
    ∧ GetPlaceSerializer.instance <$> all_places = Place_objects db
    ∧ GetPlaceSerializer.instance <$> own_places = places db user
    ∧ (∀ rep method,
         rep ∈ all_places ++ own_places → method ∉ SAFE_METHODS →
         IsSameUserOrReadonly.has_object_permission method (Some user)
           (GetPlaceSerializer.instance rep)
         = GetPlaceSerializer.can_edit rep)
    ∧ (∀ rep, rep ∈ own_places → GetPlaceSerializer.can_edit rep = true).
Proof.
  eexists _, _. split_and!; [done|done| | | |].
  - rewrite <- list_fmap_compose. by rewrite list_fmap_id.
  - rewrite <- list_fmap_compose. by rewrite list_fmap_id.
  - intros rep method In Unsafe.
    assert (∃ p, rep = GetPlaceSerializer.to_representation db user p)
      as [p ->].
    { apply elem_of_app in In as [In|In];
        apply list_elem_of_fmap in In as (p & -> & _); by exists p. }
    simpl. unfold IsSameUserOrReadonly.has_object_permission.
    rewrite decide_False by done. unfold GetPlaceSerializer.get_can_edit.
    apply bool_decide_ext. split; by intros ->.
  - intros rep (p & -> & In)%list_elem_of_fmap. simpl.
    unfold GetPlaceSerializer.get_can_edit. apply bool_decide_eq_true.
    unfold places in In. by apply list_elem_of_filter in In as [? _].
Qed.

Lemma get_object_cases db method user pk :
  match get_object db method user pk with
  | Done place =>
      place ∈ Place_objects db ∧ Place.id place = pk
      ∧ IsSameUserOrReadonly.has_object_permission method user place = true
  | NotFound => pk ∉ Place.id <$> Place_objects db
  | PermissionDenied =>
      ∃ place, place ∈ Place_objects db ∧ Place.id place = pk
               ∧ IsSameUserOrReadonly.has_object_permission method user place
                 = false
  | Invalid _ | Errored _ => False
  | Failed e =>
      e = accounts.MultipleObjectsReturned
      ∧ ¬ NoDup (Place.id <$> Place_objects db)
  end.
Proof.
  unfold get_object.
  destruct (filter _ _) as [|obj [|obj2 rest]] eqn:F.
  - intros (p & E & In)%list_elem_of_fmap.
    assert (p ∈ filter (λ p, Place.id p = pk) (Place_objects db)) as In'
      by (by apply list_elem_of_filter).
    rewrite F in In'. by apply elem_of_nil in In'.
  - assert (obj ∈ filter (λ p, Place.id p = pk) (Place_objects db)) as In
      by (rewrite F; apply list_elem_of_here).
    apply list_elem_of_filter in In as [E In].
    destruct (IsSameUserOrReadonly.has_object_permission _ _ _) eqn:P;
      [done|]. by exists obj.
  - split; [done|]. intros ND.
    assert (NoDup (Place.id <$> filter (λ p, Place.id p = pk)
                                  (Place_objects db))) as ND'.
    { apply (sublist_NoDup _ (Place.id <$> Place_objects db)); [done|].
      apply fmap_sublist, sublist_filter. }
    rewrite F in ND'. simpl in ND'.
    assert (Place.id obj = pk ∧ Place.id obj2 = pk) as [E1 E2].
    { split.
      - assert (obj ∈ filter (λ p, Place.id p = pk) (Place_objects db)) as In
          by (rewrite F; apply list_elem_of_here).
        by apply list_elem_of_filter in In as [E _].
      - assert (obj2 ∈ filter (λ p, Place.id p = pk) (Place_objects db))
          as In by (rewrite F; apply list_elem_of_further, list_elem_of_here).
        by apply list_elem_of_filter in In as [E _]. }
    apply NoDup_cons in ND' as [Notin _]. apply Notin. rewrite E1, <- E2.
    apply list_elem_of_here.
Qed.

(** X12. [delete_place] either deletes or changes nothing. It deletes
    when the key is that of a place of the user who asks: then exactly
    the place, its ratings and its images are gone, and every other row
    is as before. A key of no place is not found, and the place of
    another user, or a request of nobody, is refused. *)
Theorem delete_place_removes_the_place_and_what_hangs_on_it tb user pk :
  let '(outcome, tb') := PlaceViewSet.delete_place tb user pk in
  match outcome with
  | Done _ =>
      (∃ place, place ∈ Place_objects (rows tb) ∧ Place.id place = pk
                ∧ user = Some (Place.added_by place))
      ∧ (∀ p, p ∈ Place_objects (rows tb')
              ↔ p ∈ Place_objects (rows tb) ∧ Place.id p ≠ pk)
      ∧ (∀ r, r ∈ PlaceRating_objects (rows tb')
              ↔ r ∈ PlaceRating_objects (rows tb) ∧ PlaceRating.place r ≠ pk)
      ∧ (∀ i, i ∈ PlaceImage_objects tb'
              ↔ i ∈ PlaceImage_objects tb ∧ PlaceImage.place i ≠ pk)
  | NotFound => (pk ∉ Place.id <$> Place_objects (rows tb)) ∧ tb' = tb
  | PermissionDenied =>
      (∃ place, place ∈ Place_objects (rows tb) ∧ Place.id place = pk
                ∧ user ≠ Some (Place.added_by place))
      ∧ tb' = tb
  | Invalid _ | Errored _ => False
  | Failed _ => ¬ NoDup (Place.id <$> Place_objects (rows tb)) ∧ tb' = tb
  end.
Proof.
  unfold PlaceViewSet.delete_place.
  pose proof (get_object_cases (rows tb) DELETE user pk) as Cases.
  assert (DELETE ∉ SAFE_METHODS) as Unsafe.
  { unfold SAFE_METHODS. intros In. by repeat
      (apply elem_of_cons in In as [?|In]; [done|]); apply elem_of_nil in In. }
  destruct (get_object (rows tb) DELETE user pk) as [place| | |errs|e|e].
  - destruct Cases as (In & <- & P).
    apply has_object_permission_unsafe in P; [|done].
    split_and!.
    + by exists place.
    + intros p. simpl. rewrite list_elem_of_filter. tauto.
    + intros r. simpl. rewrite list_elem_of_filter. tauto.
    + intros i. simpl. rewrite list_elem_of_filter. tauto.
  - done.
  - destruct Cases as (place & In & E & P). split; [|done].
    exists place. split_and!; [done..|]. intros Owner.
    apply (has_object_permission_unsafe DELETE) in Owner; [|done].
    congruence.
  - done.
  - by destruct Cases as [_ ND].
  - done.
Qed.

End place_view_properties.

(** ** The places: creation, update, and the rating of the owner *)

Section place_write_properties.

Import models fields serializers place_models place_serializers.
Import CreateUpdatePlaceSerializer.

Lemma filter_fmap_preserved {A} (P : A → Prop) `{!∀ x, Decision (P x)}
    (g : A → A) (l : list A) :
  (∀ x, P (g x) ↔ P x) → filter P (g <$> l) = g <$> filter P l.
Proof.
  intros Same. induction l as [|a l IH]; [done|].
  rewrite fmap_cons, !filter_cons.
  destruct (decide (P a)) as [Pa|Pa].
  - rewrite decide_True by (by apply Same). by rewrite fmap_cons, IH.
  - by rewrite decide_False by (by rewrite Same).
Qed.

Lemma filter_none {A} (P : A → Prop) `{!∀ x, Decision (P x)} (l : list A) :
  (∀ x, x ∈ l → ¬ P x) → filter P l = [].
Proof.
  induction l as [|a l IH]; [done|]. intros No.
  rewrite filter_cons, decide_False by (apply No, list_elem_of_here).
  apply IH. intros x In. by apply No, list_elem_of_further.
Qed.

Lemma filter_unique {A B} `{EqDecision B} (f : A → B) (l : list A) x :
  NoDup (f <$> l) → x ∈ l → filter (λ y, f y = f x) l = [x].
Proof.
  induction l as [|a l IH]; [by intros _ ?%elem_of_nil|].
  rewrite fmap_cons. intros [N ND]%NoDup_cons [->|In]%elem_of_cons.
  - rewrite filter_cons, decide_True by done. f_equal.
    apply filter_none. intros y Iny E.
    apply N. rewrite <- E. by apply list_elem_of_fmap_2.
  - rewrite filter_cons, decide_False; [by apply IH|].
    intros E. apply N. rewrite E. by apply list_elem_of_fmap_2.
Qed.

Lemma owner_rated_empty :
  owner_rated {| Place_objects := []; PlaceRating_objects := [] |}.
Proof.
  split_and!; simpl; [constructor|constructor| |];
    by intros ? ?%elem_of_nil.
Qed.

Lemma create_Returned db user validated_data place_pk rating_pk db' instance :
  create db user validated_data place_pk rating_pk = Returned (db', instance)
  → ∃ r loc,
      rating validated_data = Some r ∧ location validated_data = Some loc
      ∧ Place.id instance = place_pk ∧ Place.added_by instance = user
      ∧ Place.location instance = loc
      ∧ Place_objects db' = Place_objects db ++ [instance]
      ∧ PlaceRating_objects db'
        = PlaceRating_objects db
          ++ [ {| PlaceRating.id := rating_pk; PlaceRating.user := user;
                  PlaceRating.place := place_pk;
                  PlaceRating.rating := r |} ].
Proof.
  unfold create. destruct (main_image validated_data); [|done].
  destruct (rating validated_data) as [r|]; [|done].
  destruct (location validated_data) as [loc|]; [|done].
  intros [= <- <-]. by exists r, loc.
Qed.

Lemma owner_rated_create db user validated_data place_pk rating_pk db'
    instance :
  owner_rated db →
  place_pk ∉ Place.id <$> Place_objects db →
  create db user validated_data place_pk rating_pk = Returned (db', instance)
  → owner_rated db'.
Proof.
  intros (Keys & One & Rated & Owner) Fresh
    (r & loc & _ & _ & Id & By & _ & Ps & Rs)%create_Returned.
  unfold owner_rated. rewrite Ps, Rs. clear Ps Rs.
  assert (place_pk ∉ PlaceRating.place <$> PlaceRating_objects db) as Unrated.
  { intros (r0 & E & In)%list_elem_of_fmap.
    destruct (Owner r0 In) as (p & Inp & Ep & _). apply Fresh.
    rewrite E, <- Ep. by apply list_elem_of_fmap_2. }
  split_and!.
  - rewrite fmap_app. apply NoDup_app. split_and!; [done| |].
    + intros i In [->|[]%elem_of_nil]%elem_of_cons. by rewrite Id in In.
    + simpl. apply NoDup_singleton.
  - rewrite fmap_app. apply NoDup_app. split_and!; [done| |].
    + by intros i In [->|[]%elem_of_nil]%elem_of_cons.
    + simpl. apply NoDup_singleton.
  - intros p [In|[->|[]%elem_of_nil]%elem_of_cons]%elem_of_app;
      rewrite fmap_app, elem_of_app.
    + left. by apply Rated.
    + right. rewrite Id. apply list_elem_of_here.
  - intros r0 [In|[->|[]%elem_of_nil]%elem_of_cons]%elem_of_app.
    + destruct (Owner r0 In) as (p & Inp & ? & ?). exists p.
      split_and!; [|done..]. apply elem_of_app. by left.
    + exists instance. split_and!; [|done..]. apply elem_of_app. right.
      apply list_elem_of_here.
Qed.

Lemma update_unfold db user instance validated_data :
  instance ∈ Place_objects db →
  ∃ saved g,
    update db user instance validated_data
    = ({| Place_objects :=
            (λ p, if decide (Place.id p = Place.id instance)
                  then saved else p) <$> Place_objects db;
          PlaceRating_objects := g <$> PlaceRating_objects db |}, saved)
    ∧ Place.id saved = Place.id instance
    ∧ Place.added_by saved = Place.added_by instance
    ∧ (∀ r, PlaceRating.id (g r) = PlaceRating.id r
            ∧ PlaceRating.user (g r) = PlaceRating.user r
            ∧ PlaceRating.place (g r) = PlaceRating.place r)
    ∧ (∀ r, PlaceRating.rating (g r)
            = match rating validated_data with
              | Some new =>
                  if decide (PlaceRating.place r = Place.id instance
                             ∧ PlaceRating.user r = user)
                  then new else PlaceRating.rating r
              | None => PlaceRating.rating r
              end).
Proof.
  intros In. unfold update. cbn [Place.id].
  rewrite decide_True by (by apply list_elem_of_fmap_2).
  eexists _. destruct (rating validated_data) as [new|].
  - eexists. split_and!; [reflexivity|done|done| |].
    + intros r. simpl. by case_decide.
    + intros r. simpl. by case_decide.
  - exists id. rewrite list_fmap_id. by split_and!.
Qed.

Lemma owner_rated_update db user instance validated_data :
  owner_rated db → instance ∈ Place_objects db →
  owner_rated (update db user instance validated_data).1.
Proof.
  intros (Keys & One & Rated & Owner) In.
  destruct (update_unfold db user instance validated_data In)
    as (saved & g & -> & Id & By & Same & _). simpl.
  set (f := λ p, if decide (Place.id p = Place.id instance) then saved else p).
  assert (∀ p, Place.id (f p) = Place.id p) as Fid.
  { intros p. unfold f. case_decide; congruence. }
  assert (∀ p, p ∈ Place_objects db → Place.added_by (f p) = Place.added_by p)
    as Fby.
  { intros p Inp. unfold f. case_decide as E; [|done]. rewrite By.
    f_equal. symmetry. by eapply place_of_id. }
  assert (Place.id <$> (f <$> Place_objects db) = Place.id <$> Place_objects db)
    as Ids.
  { rewrite <- list_fmap_compose. apply list_fmap_ext. intros ? p _.
    apply Fid. }
  assert (PlaceRating.place <$> (g <$> PlaceRating_objects db)
          = PlaceRating.place <$> PlaceRating_objects db) as Places.
  { rewrite <- list_fmap_compose. apply list_fmap_ext. intros ? r _.
    apply Same. }
  split_and!; simpl.
  - by rewrite Ids.
  - by rewrite Places.
  - intros p' (p & -> & Inp)%list_elem_of_fmap. rewrite Places, Fid.
    by apply Rated.
  - intros r' (r & -> & Inr)%list_elem_of_fmap.
    destruct (Owner r Inr) as (p & Inp & Ep & Eu). exists (f p).
    destruct (Same r) as (_ & -> & ->).
    split_and!; [by apply list_elem_of_fmap_2|by rewrite Fid|].
    by rewrite Fby.
Qed.

Lemma owner_rated_delete db images place :
  owner_rated db →
  owner_rated (rows (Place_delete
                       {| rows := db; PlaceImage_objects := images |} place)).
Proof.
  intros (Keys & One & Rated & Owner). split_and!; simpl.
  - apply (sublist_NoDup _ (Place.id <$> Place_objects db)); [done|].
    apply fmap_sublist, sublist_filter.
  - apply (sublist_NoDup _ (PlaceRating.place <$> PlaceRating_objects db));
      [done|]. apply fmap_sublist, sublist_filter.
  - intros p [Ne In]%list_elem_of_filter.
    destruct (proj1 (list_elem_of_fmap _ _ _) (Rated p In)) as (r & E & Inr).
    rewrite E. apply list_elem_of_fmap_2, list_elem_of_filter.
    split; [congruence|done].
  - intros r [Ne In]%list_elem_of_filter.
    destruct (Owner r In) as (p & Inp & Ep & Eu). exists p.
    split_and!; [|done..]. apply list_elem_of_filter. split; [congruence|done].
Qed.

(** X13. Every database that [create], [update] and the deletion of a
    place build from the empty one keeps the places and their ratings
    in step: every place has its own key and exactly one rating row,
    which is the owner's, and no rating row is left without its
    place. *)
Theorem built_databases_are_owner_rated db : built db → owner_rated db.
Proof.
  induction 1 as [|db user vd ppk rpk db' inst _ IH Fresh Created
                  |db user inst vd _ IH In|db images place _ IH].
  - apply owner_rated_empty.
  - by eapply owner_rated_create.
  - by apply owner_rated_update.
  - by apply owner_rated_delete.
Qed.

Lemma owner_rated_ratings db p :
  owner_rated db → p ∈ Place_objects db →
  ∃ r, ratings db p = [r] ∧ PlaceRating.user r = Place.added_by p
       ∧ PlaceRating.place r = Place.id p.
Proof.
  intros (Keys & One & Rated & Owner) In.
  destruct (proj1 (list_elem_of_fmap _ _ _) (Rated p In)) as (r & E & Inr).
  exists r. unfold ratings. rewrite E. split_and!; [|  |done].
  - by apply (filter_unique PlaceRating.place).
  - destruct (Owner r Inr) as (q & Inq & Eq & <-). f_equal.
    eapply place_of_id; [done..|congruence].
Qed.

(** X14. When the places and the ratings are in step, the rating the
    owner is shown for a place is the rating the filter compares with
    the threshold, and the one the rating order sorts by; every other
    user is shown 0 for the place, and the rating order has nothing to
    sort it by. *)
Theorem owner_is_shown_the_rating_the_filter_reads db p :
  owner_rated db → p ∈ Place_objects db →
  ∃ r, owner_rating db p = Some r
       ∧ GetPlaceSerializer.get_rating db (Place.added_by p) p = r
       ∧ rating_subquery db (Place.added_by p) p = [r]
       ∧ ∀ other, other ≠ Place.added_by p →
                  GetPlaceSerializer.get_rating db other p = 0%Z
                  ∧ rating_subquery db other p = [].
Proof.
  intros Inv In.
  destruct (owner_rated_ratings db p Inv In) as (r & R & U & _).
  exists (PlaceRating.rating r).
  unfold owner_rating, ratings_from_author, GetPlaceSerializer.get_rating.
  setoid_rewrite rating_subquery_ratings. rewrite R.
  rewrite !filter_cons, !filter_nil, decide_True by done.
  split_and!; [done..|]. intros other Other.
  rewrite !filter_cons, !filter_nil, decide_False by congruence. done.
Qed.

(** X15. A place that [create] stores under a new key is listed among
    the places of its user, after those that were there, and for no one
    else; it is shown to its user with the rating and the coordinates
    that were sent and with [can_edit]; and what is shown of the places
    that were there does not change. *)
Theorem created_place_is_listed_with_its_rating db user validated_data
    place_pk rating_pk db' instance :
  owner_rated db →
  place_pk ∉ Place.id <$> Place_objects db →
  create db user validated_data place_pk rating_pk = Returned (db', instance)
  → places db' user = places db user ++ [instance]
    ∧ (∀ other, other ≠ user → places db' other = places db other)
    ∧ (∃ r loc,
         rating validated_data = Some r ∧ location validated_data = Some loc
         ∧ GetPlaceSerializer.to_representation db' user instance
           = {| GetPlaceSerializer.instance := instance;
                GetPlaceSerializer.rating := r;
                GetPlaceSerializer.can_edit := true;
                GetPlaceSerializer.latitude := y loc;
                GetPlaceSerializer.longitude := x loc |})
    ∧ ∀ p viewer, p ∈ Place_objects db →
        GetPlaceSerializer.to_representation db' viewer p
        = GetPlaceSerializer.to_representation db viewer p.
Proof.
  intros Inv Fresh Created.
  pose proof Inv as (Keys & One & Rated & Owner).
  apply create_Returned in Created
    as (r & loc & R & L & Id & By & Loc & Ps & Rs).
  assert (∀ q, Place.id q ≠ place_pk →
               ratings db' q = ratings db q) as Old.
  { intros q Ne. unfold ratings. rewrite Rs, filter_app, filter_cons.
    rewrite decide_False by (simpl; congruence).
    by rewrite filter_nil, app_nil_r. }
  assert (ratings db instance = []) as None.
  { unfold ratings. apply filter_none.
    intros r0 In E. destruct (Owner r0 In) as (p & Inp & Ep & _).
    apply Fresh. rewrite <- Id, <- E, <- Ep. by apply list_elem_of_fmap_2. }
  split_and!.
  - unfold places. rewrite Ps, filter_app, filter_cons.
    by rewrite decide_True, filter_nil by done.
  - intros other Other. unfold places. rewrite Ps, filter_app, filter_cons.
    rewrite decide_False by congruence. by rewrite filter_nil, app_nil_r.
  - exists r, loc. split_and!; [done..|].
    unfold GetPlaceSerializer.to_representation,
      GetPlaceSerializer.get_rating, GetPlaceSerializer.get_can_edit,
      GetPlaceSerializer.get_latitude, GetPlaceSerializer.get_longitude.
    rewrite Loc, By, bool_decide_eq_true_2 by done. f_equal.
    unfold ratings in *. rewrite Rs, filter_app, None, Id. simpl.
    rewrite filter_cons, decide_True by done. simpl.
    by rewrite filter_cons, decide_True by done.
  - intros p viewer In.
    unfold GetPlaceSerializer.to_representation,
      GetPlaceSerializer.get_rating. rewrite Old; [done|].
    intros E. apply Fresh. rewrite <- E. by apply list_elem_of_fmap_2.
Qed.

(** What the user is shown as the rating of the place that was made. *)
Lemma create_shown db user validated_data place_pk rating_pk db' instance :
  owner_rated db →
  place_pk ∉ Place.id <$> Place_objects db →
  create db user validated_data place_pk rating_pk = Returned (db', instance)
  → Some (GetPlaceSerializer.get_rating db' user instance)
    = rating validated_data.
Proof.
  intros (Keys & One & Rated & Owner) Fresh
    (r & loc & R & L & Id & By & Loc & Ps & Rs)%create_Returned.
  assert (ratings db instance = []) as None.
  { unfold ratings. apply filter_none.
    intros r0 In E. destruct (Owner r0 In) as (p & Inp & Ep & _).
    apply Fresh. rewrite <- Id, <- E, <- Ep. by apply list_elem_of_fmap_2. }
  rewrite R. f_equal. unfold GetPlaceSerializer.get_rating.
  unfold ratings in *. rewrite Rs, filter_app, None, Id. simpl.
  rewrite filter_cons, decide_True by done. simpl.
  by rewrite filter_cons, decide_True by done.
Qed.

(** X16. [update] of a row of the table keeps the key and the owner of
    the place and leaves every other place as it is; it neither makes
    nor deletes a rating row; and a rating that is sent changes what
    the user who sends it is shown for this place, provided that user
    has a rating row for it: for a user without one the rating is
    dropped, and nobody else is shown anything new. *)
Theorem update_sets_the_rating_of_the_user_who_asks db user instance
    validated_data :
  instance ∈ Place_objects db →
  let '(db', saved) := update db user instance validated_data in
  Place.id saved = Place.id instance
  ∧ Place.added_by saved = Place.added_by instance
  ∧ (∀ p, Place.id p ≠ Place.id instance →
          p ∈ Place_objects db' ↔ p ∈ Place_objects db)
  ∧ length (PlaceRating_objects db') = length (PlaceRating_objects db)
  ∧ ∀ viewer p,
      GetPlaceSerializer.get_rating db' viewer p
      = match rating validated_data with
        | Some new =>
            if decide (viewer = user ∧ Place.id p = Place.id instance
                       ∧ rating_subquery db viewer p ≠ [])
            then new else GetPlaceSerializer.get_rating db viewer p
        | None => GetPlaceSerializer.get_rating db viewer p
        end.
Proof.
  intros In.
  destruct (update_unfold db user instance validated_data In)
    as (saved & g & -> & Id & By & Same & New).
  split_and!; [done|done| | |].
  - intros p Ne. simpl. rewrite list_elem_of_fmap. split.
    + intros (q & -> & Inq). case_decide as E; [|done].
      destruct Ne. by rewrite Id.
    + intros Inp. exists p. by rewrite decide_False.
  - simpl. by rewrite length_fmap.
  - intros viewer p. unfold GetPlaceSerializer.get_rating.
    rewrite rating_subquery_ratings. unfold ratings. simpl.
    rewrite !(filter_fmap_preserved _ g);
      [|intros r; by destruct (Same r) as (_ & -> & _)
       |intros r; by destruct (Same r) as (_ & _ & ->)].
    destruct (filter _ (filter _ _)) as [|first rest] eqn:F; simpl.
    { destruct (rating validated_data); [|done].
      by rewrite decide_False by tauto. }
    assert (first ∈ filter (λ r, PlaceRating.user r = viewer)
                      (filter (λ r, PlaceRating.place r = Place.id p)
                         (PlaceRating_objects db))) as Inf
      by (rewrite F; apply list_elem_of_here).
    apply list_elem_of_filter in Inf as [U [P _]%list_elem_of_filter].
    rewrite New. destruct (rating validated_data) as [new|]; [|done].
    destruct (decide (PlaceRating.place first = Place.id instance
                      ∧ PlaceRating.user first = user)) as [[E1 E2]|No].
    + rewrite decide_True; [done|]. split_and!; congruence.
    + rewrite decide_False; [done|]. intros (-> & E & _). apply No.
      split; congruence.
Qed.

End place_write_properties.

(** ** The secondary images of a place *)

Section place_image_properties.

Import models fields serializers accounts permissions place_models.
Import place_serializers place_views.
Import UpdatePlaceImagesSerializer.

Lemma length_filter_split {A} (P : A → Prop) `{!∀ x, Decision (P x)}
    (l : list A) :
  length (filter P l) + length (filter (λ x, ¬ P x) l) = length l.
Proof.
  induction l as [|a l IH]; [done|]. rewrite !filter_cons.
  destruct (decide (P a)).
  - rewrite decide_False by tauto. simpl. lia.
  - rewrite decide_True by done. simpl. lia.
Qed.

Lemma filter_all {A} (P : A → Prop) `{!∀ x, Decision (P x)} (l : list A) :
  (∀ x, x ∈ l → P x) → filter P l = l.
Proof.
  induction l as [|a l IH]; [done|]. intros All.
  rewrite filter_cons, decide_True by (apply All, list_elem_of_here).
  f_equal. apply IH. intros x In. by apply All, list_elem_of_further.
Qed.

Lemma secondary_images_filter (P : PlaceImage.t → Prop)
    `{!∀ x, Decision (P x)} images place :
  secondary_images (filter P images) place
  = filter P (secondary_images images place).
Proof.
  unfold secondary_images. rewrite !list_filter_filter.
  apply list_filter_iff. tauto.
Qed.

(** What [validate] accepts. *)
Lemma validate_Returned images place uploads ids validated_data :
  validate images place uploads ids = Returned validated_data ↔
  (∀ i, i ∈ remove_dups (default [] ids) → i ∈ values_list_id images place)
  ∧ length (remove_dups (default [] ids)) + length (default [] uploads) ≤ 10
  ∧ validated_data
    = {| images_to_upload := default [] uploads;
         image_ids_to_delete := remove_dups (default [] ids) |}.
Proof.
  unfold validate.
  set (ups := default [] uploads). set (dels := remove_dups (default [] ids)).
  set (count := length (secondary_images images place)).
  split.
  - case_decide as Few; [done|]. case_decide as Ex; [done|].
    case_decide as Cap; [done|]. intros [= <-]. split_and!; [|lia|done].
    intros i In. destruct (decide (i ∈ values_list_id images place)); [done|].
    destruct Ex. apply Exists_exists. by exists i.
  - intros (All & Cap & ->).
    assert (length dels ≤ count) as Few.
    { unfold count. rewrite <- (length_fmap (λ i, Z.of_nat (PlaceImage.id i))).
      apply submseteq_length, NoDup_submseteq; [|done].
      apply NoDup_remove_dups. }
    rewrite decide_False by lia. rewrite decide_False.
    + by rewrite decide_False by lia.
    + intros (i & In & No)%Exists_exists. by apply No, All.
Qed.

(** X17. [validate] accepts a request exactly when every id to delete,
    counted once, is the key of an image of the place, and the ids to
    delete and the images to upload are ten or fewer together. The
    bound of ten is on the request: the number of images the place has
    and the number it will have are not compared with it. *)
Theorem image_request_accepted_iff_ids_exist_and_request_is_small images
    place uploads ids :
  let deleted := remove_dups (default [] ids) in
  let uploaded := default [] uploads in
  match validate images place uploads ids with
  | Returned validated_data =>
      (∀ i, i ∈ deleted → i ∈ values_list_id images place)
      ∧ length deleted + length uploaded ≤ 10
      ∧ images_to_upload validated_data = uploaded
      ∧ image_ids_to_delete validated_data = deleted
  | Raised (field_name, _) =>
      (field_name = "image_ids_to_delete"
       ∧ ∃ i, i ∈ deleted ∧ i ∉ values_list_id images place)
      ∨ (field_name = "images_to_upload"
         ∧ (∀ i, i ∈ deleted → i ∈ values_list_id images place)
         ∧ 10 < length deleted + length uploaded)
  end.
Proof.
  intros deleted uploaded.
  destruct (validate images place uploads ids) as [[field_name msg]|vd] eqn:V.
  - destruct (decide (Forall (λ i, i ∈ values_list_id images place) deleted))
      as [All|No]; [rewrite Forall_forall in All|].
    + right.
      destruct (decide (length deleted + length uploaded ≤ 10)) as [Cap|Cap].
      { assert (validate images place uploads ids
                = Returned {| images_to_upload := uploaded;
                              image_ids_to_delete := deleted |}) as V'
          by (by apply validate_Returned).
        congruence. }
      revert V. unfold validate. fold deleted uploaded.
      case_decide as Few.
      { exfalso. revert Few.
        rewrite <- (length_fmap (λ i, Z.of_nat (PlaceImage.id i))).
        assert (length deleted ≤ length (values_list_id images place)).
        { apply submseteq_length, NoDup_submseteq; [|done].
          apply NoDup_remove_dups. }
        unfold values_list_id in *. lia. }
      case_decide as Ex.
      { apply Exists_exists in Ex as (i & In & Out). destruct Out. by apply All. }
      case_decide; [|done]. intros [= <- _]. split_and!; [done..|lia].
    + left. apply not_Forall_Exists in No; [|apply _].
      apply Exists_exists in No as (i & In & Out).
      revert V. unfold validate. fold deleted uploaded.
      case_decide; [intros [= <- _]; split; [done|by exists i]|].
      case_decide as Ex; [intros [= <- _]; split; [done|by exists i]|].
      destruct Ex. apply Exists_exists. by exists i.
  - apply validate_Returned in V as (All & Cap & ->). by split_and!.
Qed.

Lemma get_delete_existing place _id images :
  NoDup (PlaceImage.id <$> images) →
  _id ∈ values_list_id images place →
  ∃ image,
    image ∈ secondary_images images place
    ∧ Z.of_nat (PlaceImage.id image) = _id
    ∧ get_delete place _id images
      = Returned (filter (λ i, Z.of_nat (PlaceImage.id i) ≠ _id) images).
Proof.
  intros Keys (image & -> & In)%list_elem_of_fmap. exists image.
  split_and!; [done..|]. unfold get_delete.
  assert (NoDup (PlaceImage.id <$> secondary_images images place)) as Keys'.
  { apply (sublist_NoDup _ (PlaceImage.id <$> images)); [done|].
    apply fmap_sublist, sublist_filter. }
  rewrite (list_filter_iff _ (λ i, PlaceImage.id i = PlaceImage.id image))
    by (intros i; lia).
  rewrite (filter_unique PlaceImage.id) by done. f_equal.
  apply list_filter_iff. intros i. lia.
Qed.

Lemma delete_loop place ids images :
  NoDup (PlaceImage.id <$> images) → NoDup ids →
  (∀ i, i ∈ ids → i ∈ values_list_id images place) →
  foldl (λ acc _id,
           match acc with
           | Raised e => Raised e
           | Returned images => get_delete place _id images
           end)
    (Returned images) ids
  = Returned (filter (λ i, Z.of_nat (PlaceImage.id i) ∉ ids) images)
  ∧ length (secondary_images
              (filter (λ i, Z.of_nat (PlaceImage.id i) ∉ ids) images) place)
    + length ids
    = length (secondary_images images place).
Proof.
  revert images. induction ids as [|_id ids IH]; intros images Keys ND All.
  - simpl. rewrite filter_all by (by intros i _ ?%elem_of_nil).
    split; [done|lia].
  - apply NoDup_cons in ND as [Notin ND].
    destruct (get_delete_existing place _id images Keys)
      as (image & In & E & Step); [apply All, list_elem_of_here|].
    cbn [foldl]. rewrite Step.
    set (images1 := filter (λ i, Z.of_nat (PlaceImage.id i) ≠ _id) images).
    destruct (IH images1) as [Loop Count]; [|done| |].
    { apply (sublist_NoDup _ (PlaceImage.id <$> images)); [done|].
      apply fmap_sublist, sublist_filter. }
    { intros i Ini.
      destruct (proj1 (list_elem_of_fmap _ _ _)
                  (All i (list_elem_of_further _ _ _ Ini)))
        as (img & -> & Inimg).
      apply (list_elem_of_fmap_2 (λ i, Z.of_nat (PlaceImage.id i))).
      unfold images1. rewrite secondary_images_filter. apply list_elem_of_filter.
      split; [|done]. intros Eq. apply Notin. by rewrite <- Eq. }
    assert (filter (λ i, Z.of_nat (PlaceImage.id i) ∉ ids) images1
            = filter (λ i, Z.of_nat (PlaceImage.id i) ∉ _id :: ids) images)
      as Both.
    { unfold images1. rewrite list_filter_filter. apply list_filter_iff.
      intros i. rewrite not_elem_of_cons. tauto. }
    rewrite Loop, Both in *. split; [done|].
    assert (length (secondary_images images1 place) + 1
            = length (secondary_images images place)) as One.
    { unfold images1. rewrite secondary_images_filter.
      rewrite <- (length_filter_split
                    (λ i, Z.of_nat (PlaceImage.id i) = _id)
                    (secondary_images images place)).
      assert (NoDup (PlaceImage.id <$> secondary_images images place))
        as Keys'.
      { apply (sublist_NoDup _ (PlaceImage.id <$> images)); [done|].
        apply fmap_sublist, sublist_filter. }
      rewrite (list_filter_iff (λ i, Z.of_nat (PlaceImage.id i) = _id)
                 (λ i, PlaceImage.id i = PlaceImage.id image))
        by (intros i; lia).
      rewrite (filter_unique PlaceImage.id) by done. simpl. lia. }
    simpl. lia.
Qed.

Lemma secondary_images_new images place pk n :
  secondary_images
    (images ++ ((λ k, {| PlaceImage.id := k;
                         PlaceImage.place := Place.id place |})
                <$> seq pk n)) place
  = secondary_images images place
    ++ ((λ k, {| PlaceImage.id := k; PlaceImage.place := Place.id place |})
        <$> seq pk n).
Proof.
  unfold secondary_images. rewrite filter_app. f_equal.
  apply filter_all. by intros i (k & -> & _)%list_elem_of_fmap.
Qed.

Lemma PUT_unsafe : PUT ∉ SAFE_METHODS.
Proof.
  unfold SAFE_METHODS. intros In.
  by repeat (apply elem_of_cons in In as [?|In]; [done|]);
    apply elem_of_nil in In.
Qed.

(** X18. When [put] succeeds, the user who asks owns the place; the
    table of the images is the former one without the rows whose key
    is named for deletion, in their order, followed by one new row of
    the place for every upload, with the keys the database gives from
    [image_pk] on; the images of the place, which the view returns, are
    accordingly those it had, without the ones named for deletion and
    in their order, followed by the new rows. So their number is what
    it was, less the ids named, plus the uploads; the images of the
    other places and the places themselves are as before; the keys of
    the images are still distinct; and a place that had no image has
    ten images or fewer. *)
Theorem accepted_image_request_deletes_and_uploads_what_it_names tb user pk
    uploads ids image_pk images tb' :
  NoDup (PlaceImage.id <$> PlaceImage_objects tb) →
  (∀ i, i ∈ PlaceImage_objects tb → PlaceImage.id i < image_pk) →
  UpdatePlaceSecondaryImagesAPIView.put tb user pk uploads ids image_pk
  = (Done images, tb') →
  ∃ place,
    place ∈ Place_objects (rows tb) ∧ Place.id place = pk
    ∧ user = Some (Place.added_by place)
    ∧ rows tb' = rows tb
    ∧ images = secondary_images (PlaceImage_objects tb') place
    ∧ PlaceImage_objects tb'
      = filter (λ i, Z.of_nat (PlaceImage.id i)
                     ∉ remove_dups (default [] ids))
          (PlaceImage_objects tb)
        ++ ((λ k, {| PlaceImage.id := k; PlaceImage.place := pk |})
            <$> seq image_pk (length (default [] uploads)))
    ∧ images
      = filter (λ i, Z.of_nat (PlaceImage.id i)
                     ∉ remove_dups (default [] ids))
          (secondary_images (PlaceImage_objects tb) place)
        ++ ((λ k, {| PlaceImage.id := k; PlaceImage.place := pk |})
            <$> seq image_pk (length (default [] uploads)))
    ∧ length images + length (remove_dups (default [] ids))
      = length (secondary_images (PlaceImage_objects tb) place)
        + length (default [] uploads)
    ∧ (∀ i, i ∈ images →
            Z.of_nat (PlaceImage.id i) ∉ remove_dups (default [] ids))
    ∧ (∀ i, PlaceImage.place i ≠ pk →
            i ∈ PlaceImage_objects tb' ↔ i ∈ PlaceImage_objects tb)
    ∧ NoDup (PlaceImage.id <$> PlaceImage_objects tb')
    ∧ (secondary_images (PlaceImage_objects tb) place = [] →
       length images ≤ 10).
Proof.
  intros Keys Fresh. unfold UpdatePlaceSecondaryImagesAPIView.put.
  pose proof (get_object_cases (rows tb) PUT user pk) as Cases.
  destruct (get_object (rows tb) PUT user pk) as [place| | |errs|e|e];
    [|done..].
  destruct Cases as (In & Id & Owner%has_object_permission_unsafe);
    [|apply PUT_unsafe].
  subst pk.
  destruct (validate (PlaceImage_objects tb) place uploads ids) as [?|vd]
    eqn:V; [done|].
  apply validate_Returned in V as (All & Cap & ->).
  set (deleted := remove_dups (default [] ids)) in *.
  set (uploaded := default [] uploads) in *.
  destruct (delete_loop place deleted (PlaceImage_objects tb) Keys)
    as [Loop Count]; [apply NoDup_remove_dups|done|].
  unfold save. cbn [image_ids_to_delete images_to_upload]. rewrite Loop.
  set (kept := filter (λ i, Z.of_nat (PlaceImage.id i) ∉ deleted)
                 (PlaceImage_objects tb)) in *.
  set (new := (λ k, {| PlaceImage.id := k;
                       PlaceImage.place := Place.id place |})
              <$> seq image_pk (length uploaded)).
  intros [= <- <-]. exists place. cbn [rows PlaceImage_objects].
  assert (∀ i, i ∈ new → image_pk ≤ PlaceImage.id i
                         ∧ PlaceImage.place i = Place.id place) as New.
  { intros i (k & -> & [? _]%elem_of_seq)%list_elem_of_fmap. by split. }
  assert (length new = length uploaded) as LNew
    by (unfold new; by rewrite length_fmap, length_seq).
  split_and!; [done..| | | | | |].
  - unfold new, kept. by rewrite secondary_images_new, secondary_images_filter.
  - unfold new. rewrite secondary_images_new, length_app. fold new. lia.
  - intros i. unfold new. rewrite secondary_images_new. fold new.
    intros [Ini|Ini]%elem_of_app.
    + unfold secondary_images, kept in Ini.
      by apply list_elem_of_filter in Ini as [_ [? _]%list_elem_of_filter].
    + intros Ind. apply All, list_elem_of_fmap in Ind as (old & E & Old).
      unfold secondary_images in Old.
      apply list_elem_of_filter in Old as [_ Old%Fresh].
      destruct (New i Ini) as [? _]. lia.
  - intros i Other. rewrite elem_of_app. unfold kept.
    rewrite list_elem_of_filter. split.
    + intros [[_ ?]|Ini]; [done|]. destruct (New i Ini) as [_ ?]. congruence.
    + intros Ini. left. split; [|done]. intros Ind.
      apply All, list_elem_of_fmap in Ind as (old & E & Old).
      unfold secondary_images in Old.
      apply list_elem_of_filter in Old as [P Old].
      assert (i = old) as ->; [|congruence].
      assert (PlaceImage.id i = PlaceImage.id old) as Same by lia.
      clear -Keys Ini Old Same. revert Keys Ini Old.
      induction (PlaceImage_objects tb) as [|a l IH]; [by intros _ ?%elem_of_nil|].
      rewrite fmap_cons.
      intros [N ND]%NoDup_cons [->|Hi]%elem_of_cons [->|Ho]%elem_of_cons.
      * done.
      * destruct N. rewrite Same. by apply list_elem_of_fmap_2.
      * destruct N. rewrite <- Same. by apply list_elem_of_fmap_2.
      * by apply IH.
  - rewrite fmap_app. apply NoDup_app. split_and!.
    + apply (sublist_NoDup _ (PlaceImage.id <$> PlaceImage_objects tb));
        [done|]. apply fmap_sublist, sublist_filter.
    + intros k (old & -> & [_ Old%Fresh]%list_elem_of_filter)%list_elem_of_fmap
        (i & E & Ini)%list_elem_of_fmap.
      destruct (New i Ini) as [? _]. lia.
    + unfold new. rewrite <- list_fmap_compose.
      rewrite (list_fmap_ext _ id) by done.
      rewrite list_fmap_id. apply NoDup_seq.
  - intros Empty. unfold new. rewrite secondary_images_new, length_app.
    fold new. rewrite Empty in Count. simpl in Count. lia.
Qed.

(** X19. An upload of ten images or fewer that names nothing for
    deletion is accepted from the owner whatever number of images the
    place has, and adds its images to them: the place can come to hold
    more than ten. *)
Theorem upload_is_accepted_whatever_the_place_holds tb place uploads
    image_pk :
  filter (λ p, Place.id p = Place.id place) (Place_objects (rows tb))
  = [place] →
  length uploads ≤ 10 →
  ∃ images tb',
    UpdatePlaceSecondaryImagesAPIView.put tb (Some (Place.added_by place))
      (Place.id place) (Some uploads) None image_pk
    = (Done images, tb')
    ∧ length images
      = length (secondary_images (PlaceImage_objects tb) place)
        + length uploads.
Proof.
  intros One Cap. unfold UpdatePlaceSecondaryImagesAPIView.put, get_object.
  rewrite One. unfold IsSameUserOrReadonly.has_object_permission.
  rewrite decide_False by apply PUT_unsafe.
  rewrite bool_decide_eq_true_2 by done.
  rewrite (proj2 (validate_Returned (PlaceImage_objects tb) place
                    (Some uploads) None
                    {| images_to_upload := uploads;
                       image_ids_to_delete := [] |}));
    [|split_and!; [by intros i ?%elem_of_nil|simpl; lia|done]].
  unfold save. cbn [image_ids_to_delete images_to_upload default remove_dups
                    foldl].
  eexists _, _. split; [done|].
  by rewrite secondary_images_new, length_app, length_fmap, length_seq.
Qed.

End place_image_properties.

(** ** The nearest places *)

Section nearest_properties.

Import validators models fields serializers place_serializers place_views.
Import NearestPlacesAPIView.
Context `{GeoBackend, QueryText}.

Lemma not_null_Returned {A B} name (conv : A → except string B) validators
    r v :
  LocationSerializer.not_null name conv validators r = Returned v →
  ∃ a, r = Given a ∧ conv a = Returned v
       ∧ run_validators validators v = Returned ().
Proof.
  unfold LocationSerializer.not_null. destruct r as [| |a]; [done| |];
    apply run_validation_required_Returned.
Qed.

(** A parameter the serializer has a value for is a text that [float]
    reads. *)
Lemma data_of_Given param v :
  data_of param = Given v →
  ∃ text, param = Some text ∧ python_float text = Some v.
Proof.
  unfold data_of. destruct param as [text|]; [|done].
  case_decide; [done|].
  destruct (python_float text) as [value|] eqn:F; [|done].
  intros [= <-]. by exists text.
Qed.

Lemma D_km_mono a b : float8_le a b → float8_le (D_km a) (D_km b).
Proof.
  destruct a as [p| | |], b as [q| | |]; simpl; try done.
  intros L. apply Qcmult_le_compat_r; [done|]. by vm_compute.
Qed.

#[local] Instance float8_le_trans : Transitive float8_le.
Proof.
  intros [a| | |] [b| | |] [c| | |]; simpl; try done. apply Qcle_trans.
Qed.

(** X20. The nearest-places view, case by case. When it has a
    queryset, the query string has a longitude and a latitude, which
    are texts that [float] reads and from which GEOS reads a point.
    What [float] reads in them lies in the range of the field, unless
    it is NaN, which the validators let through; the distance [float]
    reads, 10 when the query string has none, lies strictly between 0
    and 40076, or is NaN. The places listed are exactly the places of
    the user that lie within 0.1 degree of the point GEOS has read, in
    the plane, and within the distance, in kilometres, on the sphere,
    in the order of the table. When the view raises the errors of a
    validation, they are those of the serializer on what [float] reads.
    Otherwise the serializer has accepted a longitude and a latitude
    that [float] reads, and GEOS does not read a point from the two
    texts. *)
Theorem nearest_places_are_the_places_of_the_user_within_reach db user lon
    lat dist :
  match get_queryset db user lon lat dist with
  | Returned qs =>
      ∃ lon_text lat_text x y d current_point,
        lon = Some lon_text ∧ lat = Some lat_text
        ∧ python_float lon_text = Some x ∧ python_float lat_text = Some y
        ∧ km dist = Some d
        ∧ (x = nan ∨ (float_le (float (-180)) x ∧ float_le x (float 180)))
        ∧ (y = nan ∨ (float_le (float (-90)) y ∧ float_le y (float 90)))
        ∧ (d = nan ∨ (float_lt (float 0) d ∧ float_lt d (float 40076)))
        ∧ GEOSGeometry ("POINT(" +:+ lon_text +:+ " " +:+ lat_text +:+ ")")
          = Some current_point
        ∧ qs `sublist_of` places db user
        ∧ ∀ p, p ∈ qs ↔
               p ∈ places db user
               ∧ float8_le
                   (planar_distance (Place.location p) current_point)
                   (float 0.1)
               ∧ float8_le
                   (sphere_distance (Place.location p) current_point)
                   (D_km d)
  | Raised (ValidationErrors errs) =>
      LocationSerializer.is_valid (data_of lat) (data_of lon)
        match dist with
        | None => Given (float 10)
        | Some _ => data_of dist
        end
      = Raised errs
  | Raised ValueError =>
      ∃ lon_text lat_text x y,
        lon = Some lon_text ∧ lat = Some lat_text
        ∧ python_float lon_text = Some x ∧ python_float lat_text = Some y
        ∧ (x = nan ∨ (float_le (float (-180)) x ∧ float_le x (float 180)))
        ∧ (y = nan ∨ (float_le (float (-90)) y ∧ float_le y (float 90)))
        ∧ GEOSGeometry ("POINT(" +:+ lon_text +:+ " " +:+ lat_text +:+ ")")
          = None
  end.
Proof.
  unfold get_queryset.
  set (distance := match dist with None => Given (float 10) | _ => _ end).
  destruct (LocationSerializer.is_valid _ _ distance) as [?|data] eqn:V;
    [done|].
  unfold LocationSerializer.is_valid in V.
  apply ap_Returned in V as (g3 & a3 & V & E3 & ->).
  apply ap_Returned in V as (g2 & a2 & V & E2 & ->).
  apply ap_Returned in V as (g1 & a1 & _ & E1 & ->).
  apply not_null_Returned in E1 as (y & Ey & [= <-] & Vy).
  apply not_null_Returned in E2 as (x & Ex & [= <-] & Vx).
  apply data_of_Given in Ey as (lat_text & -> & Fy).
  apply data_of_Given in Ex as (lon_text & -> & Fx).
  apply validate_latitude_Returned in Vy.
  apply validate_longitude_Returned in Vx.
  change (format (Some lon_text)) with lon_text.
  change (format (Some lat_text)) with lat_text.
  assert (∃ d, km dist = Some d ∧ distance = Given d) as (d & K & D).
  { subst distance. destruct dist as [text|]; [|by exists (float 10)].
    unfold data_of in *. simpl.
    destruct (decide (1000 < String.length text)); [done|].
    destruct (python_float text) as [d|]; [by exists d|done]. }
  destruct (GEOSGeometry _) as [current_point|] eqn:G;
    [|by exists lon_text, lat_text, x, y].
  rewrite K. exists lon_text, lat_text, x, y, d, current_point.
  split_and!; [done..| | | |].
  - rewrite D in E3.
    destruct a3 as [d'|]; [|by apply run_validation_None in E3].
    apply run_validation_Some in E3 as (? & [= <-] & [= <-] & Vd).
    by apply validate_distance_Returned.
  - done.
  - etrans; apply sublist_filter.
  - intros p. rewrite !list_elem_of_filter. tauto.
Qed.

(** Membership in the queryset of the view, for the point GEOS reads. *)
Lemma elem_of_nearest db user lon lat dist qs p :
  get_queryset db user lon lat dist = Returned qs →
  ∃ current_point d,
    GEOSGeometry ("POINT(" +:+ format lon +:+ " " +:+ format lat +:+ ")")
    = Some current_point
    ∧ km dist = Some d
    ∧ (p ∈ qs ↔
       p ∈ places db user
       ∧ float8_le (planar_distance (Place.location p) current_point)
           (float 0.1)
       ∧ float8_le (sphere_distance (Place.location p) current_point)
           (D_km d)).
Proof.
  unfold get_queryset.
  destruct (LocationSerializer.is_valid _ _ _) as [?|data]; [done|].
  destruct (GEOSGeometry _) as [current_point|]; [|done].
  destruct (km dist) as [d|]; [|done].
  intros [= <-]. exists current_point, d. split_and!; [done..|].
  rewrite !list_elem_of_filter. tauto.
Qed.

(** X21. The nearest-places view is the wider of the two searches: at
    the same point, every place the filter returns when it applies the
    filters is among the nearest places, provided the distance of the
    filter, 5 when it has none, is at most that of the view, 10 when it
    has none. The point is the same when GEOS reads, in the texts of
    the query string, the point of the coordinates of the filter. *)
Theorem filtered_places_are_among_the_nearest db user data lon lat dist qs :
  PlaceFilterNewSerializer.apply_filters data = true →
  GEOSGeometry ("POINT(" +:+ lon +:+ " " +:+ lat +:+ ")")
  = Some (GEOSGeometry_POINT (PlaceFilterNewSerializer.longitude data)
            (PlaceFilterNewSerializer.latitude data)) →
  get_queryset db user (Some lon) (Some lat) dist = Returned qs →
  (∀ d, km dist = Some d →
        float8_le
          (default (float 5.0) (PlaceFilterNewSerializer.distance data)) d) →
  ∀ p,
    p ∈ PlaceFilterNewSerializer.get_filters_applied_queryset db user data →
    p ∈ qs.
Proof.
  intros Apply Point Near Le p In.
  apply elem_of_filters_applied in In as [(Own & Plane & Sphere & _) _];
    [|done].
  destruct (elem_of_nearest _ _ _ _ _ _ p Near) as (pt & d & G & K & Iff).
  change (format (Some lon)) with lon in G.
  change (format (Some lat)) with lat in G.
  rewrite Point in G. injection G as <-.
  apply Iff. split_and!; [done| |].
  - etrans; [done|]. by vm_compute.
  - etrans; [done|]. by apply D_km_mono, Le.
Qed.

End nearest_properties.

(** ** The GeoJSON form of the place data and the list of the errors *)

Section place_utils_properties.

Import place_utils.

(** X22. [convert_placedata_to_geojson] makes a geometry exactly when
    the data have both a latitude and a longitude that are not [None]:
    then the coordinates are the longitude followed by the latitude and
    both keys are popped, from the properties and from the dictionary
    that was passed. Otherwise nothing is popped, so a single
    coordinate stays among the properties. No other key is touched,
    and a second call on the same dictionary makes no geometry. *)
Theorem geometry_is_made_of_both_coordinates_or_not_at_all data :
  let '(feature, popped) := convert_placedata_to_geojson data in
  type feature = "Feature"
  ∧ properties feature = popped
  ∧ (∀ key, key ≠ "latitude" → key ≠ "longitude" →
            popped !! key = data !! key)
  ∧ match geometry feature with
    | Some point =>
        get data "latitude" ≠ VNone ∧ get data "longitude" ≠ VNone
        ∧ geometry_type point = "Point"
        ∧ coordinates point = [get data "longitude"; get data "latitude"]
        ∧ popped !! "latitude" = None ∧ popped !! "longitude" = None
    | None =>
        (get data "latitude" = VNone ∨ get data "longitude" = VNone)
        ∧ popped = data
    end
  ∧ geometry (convert_placedata_to_geojson popped).1 = None.
Proof.
  unfold convert_placedata_to_geojson.
  destruct (decide (get data "latitude" ≠ VNone
                    ∧ get data "longitude" ≠ VNone)) as [[Lat Lon]|No].
  - cbn [type properties geometry geometry_type coordinates fst].
    assert (get (delete "latitude" data) "longitude" = get data "longitude")
      as Same by (unfold get; by rewrite lookup_delete_ne).
    split_and!; try done.
    + intros key ? ?. by rewrite !lookup_delete_ne.
    + by rewrite Same.
    + rewrite lookup_delete_ne by done. apply lookup_delete_eq.
    + apply lookup_delete_eq.
    + rewrite decide_False; [done|]. intros [L _]. apply L.
      unfold get. rewrite lookup_delete_ne by done.
      by rewrite lookup_delete_eq.
  - cbn [type properties geometry fst].
    split_and!; try done.
    + destruct (decide (get data "latitude" = VNone)); [by left|].
      destruct (decide (get data "longitude" = VNone)); [by right|].
      by destruct No.
    + by rewrite decide_False.
Qed.

Lemma get_list_from_errors_ErrorList items :
  get_list_from_errors (ErrorList items)
  = mjoin (get_list_from_errors <$> items).
Proof.
  simpl. induction items as [|err items IH]; [done|]. simpl. by rewrite IH.
Qed.

Lemma get_list_from_errors_ErrorDict items :
  get_list_from_errors (ErrorDict items)
  = mjoin (get_list_from_errors <$> items.*2).
Proof.
  simpl. induction items as [|[key err] items IH]; [done|]. simpl.
  by rewrite IH.
Qed.

(** X23. The list of the errors keeps the messages and forgets where
    they were: a dictionary gives the list of its values, whatever its
    keys are; the lists of the parts of a list follow one another, so
    nesting a list in a list changes nothing; and the list of the
    messages of a list gives itself. The handler answers with this
    list beside the data it was given, and with nothing when the
    framework has no response. *)
Theorem error_list_forgets_keys_and_nesting :
  (∀ items,
     get_list_from_errors (ErrorDict items)
     = get_list_from_errors (ErrorList items.*2))
  ∧ (∀ items1 items2,
       get_list_from_errors (ErrorList (items1 ++ items2))
       = get_list_from_errors (ErrorList items1)
         ++ get_list_from_errors (ErrorList items2))
  ∧ (∀ items1 items2 items3,
       get_list_from_errors
         (ErrorList (items1 ++ [ErrorList items2] ++ items3))
       = get_list_from_errors (ErrorList (items1 ++ items2 ++ items3)))
  ∧ (∀ data,
       get_list_from_errors
         (ErrorList (ErrorDetail <$> get_list_from_errors data))
       = get_list_from_errors data)
  ∧ (∀ response,
       custom_exception_handler response
       = (λ data, {| errors := get_list_from_errors data;
                     old_repr := data |}) <$> response).
Proof.
  split_and!.
  - intros items.
    by rewrite get_list_from_errors_ErrorDict, get_list_from_errors_ErrorList.
  - intros items1 items2.
    by rewrite !get_list_from_errors_ErrorList, fmap_app, join_app.
  - intros items1 items2 items3.
    rewrite !get_list_from_errors_ErrorList, !fmap_app, !join_app.
    rewrite fmap_cons, fmap_nil. cbn [mjoin list_join].
    by rewrite app_nil_r, get_list_from_errors_ErrorList.
  - intros data.
    induction (get_list_from_errors data) as [|m l IH]; [done|].
    simpl in *. by f_equal.
  - by intros [data|].
Qed.

End place_utils_properties.

(** ** The password of the user *)

Section change_my_password_properties.

Import fields passwords accounts place_serializers place_views.
Context `{AuthBackend}.

Lemma fields_valid_Returned rp rn rc data :
  ChangePasswordSerializer.fields_valid rp rn rc = Returned data →
  run_validation "password" (CharField_max_length 128) [] rp
  = Returned (ChangePasswordSerializer.password data)
  ∧ run_validation "new_password" PasswordField [] rn
    = Returned (ChangePasswordSerializer.new_password data)
  ∧ run_validation "confirmation_password" PasswordField [] rc
    = Returned (ChangePasswordSerializer.confirmation_password data).
Proof.
  unfold ChangePasswordSerializer.fields_valid. intros V.
  apply ap_Returned in V as (g3 & a3 & V & E3 & ->).
  apply ap_Returned in V as (g2 & a2 & V & E2 & ->).
  apply ap_Returned in V as (g1 & a1 & [= <-] & E1 & ->). by split_and!.
Qed.

Lemma PasswordField_Returned raw new :
  PasswordField raw = Returned new → validate_password new = Returned ().
Proof.
  unfold PasswordField. destruct (CharField raw) as [?|v]; [done|].
  destruct (validate_password v) as [?|[]] eqn:V; [done|].
  destruct (ProhibitNullCharactersValidator v); [done|]. by intros [= <-].
Qed.

(** X24. When [change_my_password] succeeds, all three fields were
    sent, the old password is the one of the user, the new one is not,
    passes [validate_password] and equals its confirmation, and the
    rows with the key of the user, and no others, carry the hash of the
    new password. If the hasher tells passwords apart, the new password
    differs from the old one, and the same request, sent again for the
    user as stored, is refused, because the old password is no longer
    right. *)
Theorem changed_password_replaces_the_old_one users instance rp rn rc salt
    body users' :
  (∀ salt raw candidate,
     check_password candidate (make_password salt raw) = true →
     candidate = raw) →
  change_my_password users (Some instance) rp rn rc salt
  = (Done body, users') →
  ∃ old new,
    run_validation "password" (CharField_max_length 128) [] rp
    = Returned (Some old)
    ∧ run_validation "new_password" PasswordField [] rn = Returned (Some new)
    ∧ run_validation "confirmation_password" PasswordField [] rc
      = Returned (Some new)
    ∧ check_password old (User.password instance) = true
    ∧ check_password new (User.password instance) = false
    ∧ old ≠ new
    ∧ validate_password new = Returned ()
    ∧ users' = set_password salt instance new users
    ∧ (∀ u, u ∈ users' →
            (User.id u = User.id instance
             ∧ User.password u = make_password salt new)
            ∨ (User.id u ≠ User.id instance ∧ u ∈ users))
    ∧ ∀ stored salt',
        stored ∈ users' → User.id stored = User.id instance →
        change_my_password users' (Some stored) rp rn rc salt'
        = (Invalid [("non_field_errors", "Old password is incorrect!")],
           users').
Proof.
  intros Apart. unfold change_my_password, ChangePasswordSerializer.is_valid.
  destruct (ChangePasswordSerializer.fields_valid rp rn rc) as [?|data]
    eqn:F; [done|].
  destruct (fields_valid_Returned _ _ _ _ F) as (P & N & C).
  unfold ChangePasswordSerializer.validate.
  destruct (ChangePasswordSerializer.password data) as [old|]; [|done].
  destruct (ChangePasswordSerializer.new_password data) as [new|] eqn:EN;
    [|by destruct (ChangePasswordSerializer.confirmation_password data)].
  destruct (ChangePasswordSerializer.confirmation_password data) as [conf|];
    [|done].
  destruct (check_password old (User.password instance)) eqn:Old; [|done].
  destruct (check_password new (User.password instance)) eqn:Same; [done|].
  simpl. case_decide as Ne; [done|].
  assert (new = conf) as <- by (by destruct (decide (new = conf))).
  intros [= <- <-]. unfold ChangePasswordSerializer.save. rewrite EN.
  exists old, new. simpl.
  assert (old ≠ new) as Differ by (intros ->; congruence).
  split_and!; [done..| | | |].
  - apply run_validation_Some in N as (raw & _ & V & _).
    by eapply PasswordField_Returned.
  - done.
  - intros u (u0 & -> & In)%list_elem_of_fmap. case_decide; [by left|].
    by right.
  - intros stored salt' (u0 & -> & In)%list_elem_of_fmap Id.
    case_decide as Hit; [|done]. simpl.
    destruct (check_password old (make_password salt new)) eqn:Again; [|done].
    by apply Apart in Again.
Qed.

End change_my_password_properties.

(** ** Examples for the places and the password *)

Section place_examples.

Import models fields serializers accounts permissions place_models.
Import place_serializers place_views.

Lemma example_created_is_created :
  CreateUpdatePlaceSerializer.create empty_db 1
    (example_place_data "art" 450) 1 1
  = Returned (example_created, example_place 1 1 "art" 0 0).
Proof. reflexivity. Qed.

Lemma example_created_owner_rated : owner_rated example_created.
Proof.
  eapply (owner_rated_create empty_db);
    [apply owner_rated_empty| |apply example_created_is_created].
  by intros ?%elem_of_nil.
Qed.

Lemma built_databases_are_owner_rated_witness : owner_rated example_created.
Proof.
  apply (built_databases_are_owner_rated example_created).
  apply (built_create empty_db 1 (example_place_data "art" 450) 1 1
           example_created (example_place 1 1 "art" 0 0)).
  - apply built_empty.
  - by intros ?%elem_of_nil.
  - reflexivity.
Defined.

Lemma owner_is_shown_the_rating_the_filter_reads_witness :
  let p := example_place 1 1 "art" 0 0 in
  ∃ r, owner_rating example_created p = Some r
       ∧ GetPlaceSerializer.get_rating example_created 1 p = r
       ∧ rating_subquery example_created 1 p = [r]
       ∧ ∀ other, other ≠ 1 →
                  GetPlaceSerializer.get_rating example_created other p = 0%Z
                  ∧ rating_subquery example_created other p = [].
Proof.
  intros p.
  apply (owner_is_shown_the_rating_the_filter_reads example_created p).
  - apply example_created_owner_rated.
  - apply list_elem_of_here.
Defined.

(** User 2 makes a place in the database of user 1's place. *)
Lemma created_place_is_listed_with_its_rating_witness :
  let db := example_created in
  let new := example_place 2 2 "city" 0 0 in
  let db' :=
    {| Place_objects := Place_objects db ++ [new];
       PlaceRating_objects :=
         PlaceRating_objects db ++ [example_rating 7 2 2 300] |} in
  places db' 2 = places db 2 ++ [new]
  ∧ (∀ other, other ≠ 2 → places db' other = places db other)
  ∧ (∃ r loc,
       Some 300%Z = Some r
       ∧ Some (GEOSGeometry_POINT (float 0) (float 0)) = Some loc
       ∧ GetPlaceSerializer.to_representation db' 2 new
         = {| GetPlaceSerializer.instance := new;
              GetPlaceSerializer.rating := r;
              GetPlaceSerializer.can_edit := true;
              GetPlaceSerializer.latitude := y loc;
              GetPlaceSerializer.longitude := x loc |})
  ∧ ∀ p viewer, p ∈ Place_objects db →
      GetPlaceSerializer.to_representation db' viewer p
      = GetPlaceSerializer.to_representation db viewer p.
Proof.
  intros db new db'.
  apply (created_place_is_listed_with_its_rating db 2
           (example_place_data "city" 300) 2 7 db' new).
  - apply example_created_owner_rated.
  - simpl. intros [[=]|[]%elem_of_nil]%elem_of_cons.
  - reflexivity.
Defined.

(** User 1 sends the rating 3.00 for the place. *)
Lemma update_sets_the_rating_of_the_user_who_asks_witness :
  let p := example_place 1 1 "art" 0 0 in
  let '(db', saved) :=
    CreateUpdatePlaceSerializer.update example_created 1 p
      (example_rating_data 300) in
  Place.id saved = 1 ∧ Place.added_by saved = 1
  ∧ (∀ q, Place.id q ≠ 1 →
          q ∈ Place_objects db' ↔ q ∈ Place_objects example_created)
  ∧ length (PlaceRating_objects db') = 1
  ∧ ∀ viewer q,
      GetPlaceSerializer.get_rating db' viewer q
      = if decide (viewer = 1 ∧ Place.id q = 1
                   ∧ rating_subquery example_created viewer q ≠ [])
        then 300%Z
        else GetPlaceSerializer.get_rating example_created viewer q.
Proof.
  intros p.
  apply (update_sets_the_rating_of_the_user_who_asks example_created 1 p
           (example_rating_data 300)).
  apply list_elem_of_here.
Defined.

Lemma example_images_keys :
  NoDup (PlaceImage.id <$> PlaceImage_objects example_tables)
  ∧ ∀ i, i ∈ PlaceImage_objects example_tables → PlaceImage.id i < 4.
Proof.
  split.
  - simpl. repeat (apply NoDup_cons; split;
      [intros In; repeat (apply elem_of_cons in In as [[=]|In]);
       by apply elem_of_nil in In|]). apply NoDup_nil_2.
  - intros i In. simpl in In.
    repeat (apply elem_of_cons in In as [->|In]; [simpl; lia|]).
    by apply elem_of_nil in In.
Qed.

(** User 1 replaces image 1 of place 1, which has images 1 and 3, by
    an upload. *)
Lemma accepted_image_request_deletes_and_uploads_what_it_names_witness :
  ∃ images tb',
    UpdatePlaceSecondaryImagesAPIView.put example_tables (Some 1) 1
      (Some ["a.png"]) (Some [1; 1]%Z) 4
    = (Done images, tb')
    ∧ rows tb' = example_db
    ∧ PlaceImage_objects tb'
      = filter (λ i, Z.of_nat (PlaceImage.id i)
                     ∉ remove_dups (default [] (Some [1; 1]%Z)))
          (PlaceImage_objects example_tables)
        ++ ((λ k, {| PlaceImage.id := k; PlaceImage.place := 1 |})
            <$> seq 4 (length (default [] (Some ["a.png"]))))
    ∧ length images + 1 = 2 + 1
    ∧ NoDup (PlaceImage.id <$> PlaceImage_objects tb').
Proof.
  eexists _, _. split; [reflexivity|].
  destruct (accepted_image_request_deletes_and_uploads_what_it_names
              example_tables (Some 1) 1 (Some ["a.png"]) (Some [1; 1]%Z) 4
              _ _ (proj1 example_images_keys) (proj2 example_images_keys)
              eq_refl)
    as (place & _ & _ & _ & Rows & _ & Table & _ & Count & _ & _ & Keys & _).
  split_and!; [exact Rows|exact Table| |exact Keys].
  reflexivity.
Defined.

(** Ten uploads for place 1, which has two images. *)
Lemma upload_is_accepted_whatever_the_place_holds_witness :
  ∃ images tb',
    UpdatePlaceSecondaryImagesAPIView.put example_tables (Some 1) 1
      (Some (replicate 10 "a.png")) None 4
    = (Done images, tb')
    ∧ length images = 2 + 10.
Proof.
  apply (upload_is_accepted_whatever_the_place_holds example_tables
           (example_place 1 1 "art" 0 0) (replicate 10 "a.png") 4).
  - reflexivity.
  - simpl. lia.
Defined.

(** User 1 asks for the places around the origin, without [dist]; the
    longitude [0_0] is one that [float] reads and GEOS does not. *)
Lemma nearest_places_are_the_places_of_the_user_within_reach_witness :
  (∃ qs,
     @NearestPlacesAPIView.get_queryset example_backend example_text
       example_db 1 (Some "0") (Some "0") None = Returned qs
     ∧ qs `sublist_of` places example_db 1)
  ∧ @NearestPlacesAPIView.get_queryset example_backend example_text
      example_db 1 (Some "0_0") (Some "0") None
    = Raised NearestPlacesAPIView.ValueError.
Proof.
  split; [|by vm_compute].
  pose proof (@nearest_places_are_the_places_of_the_user_within_reach
                example_backend example_text example_db 1 (Some "0")
                (Some "0") None) as Cases.
  destruct (@NearestPlacesAPIView.get_queryset example_backend example_text
              example_db 1 (Some "0") (Some "0") None) as [errs|qs] eqn:Q;
    [by vm_compute in Q|].
  exists qs. split; [done|].
  by destruct Cases
    as (lon & lat & x & y & d & pt & _ & _ & _ & _ & _ & _ & _ & _ & _
        & Sub & _).
Defined.

Lemma filtered_places_are_among_the_nearest_witness :
  let data := example_data true false None None None in
  ∃ qs,
    @NearestPlacesAPIView.get_queryset example_backend example_text
      example_db 1 (Some "0") (Some "0") None = Returned qs
    ∧ ∀ p,
        p ∈ @PlaceFilterNewSerializer.get_filters_applied_queryset
              example_backend example_db 1 data →
        p ∈ qs.
Proof.
  intros data.
  destruct (@NearestPlacesAPIView.get_queryset example_backend example_text
              example_db 1 (Some "0") (Some "0") None) as [errs|qs] eqn:Q;
    [by vm_compute in Q|].
  exists qs. split; [done|].
  apply (@filtered_places_are_among_the_nearest example_backend example_text
           example_db 1 data "0" "0" None qs);
    [reflexivity|reflexivity|exact Q|].
  intros d [= <-]. by vm_compute.
Defined.

(** Ann changes her password. *)
Lemma changed_password_replaces_the_old_one_witness :
  let ann := {| User.id := 1; User.email := "ann@mail.io";
                User.password := "hash$pA$$w0rd-old" |} in
  ∃ body users',
    @change_my_password example_auth example_users (Some ann)
      (Given "pA$$w0rd-old") (Given "n3w-Passw0rd") (Given "n3w-Passw0rd") 7
    = (Done body, users')
    ∧ ∀ stored salt',
        stored ∈ users' → User.id stored = 1 →
        @change_my_password example_auth users' (Some stored)
          (Given "pA$$w0rd-old") (Given "n3w-Passw0rd")
          (Given "n3w-Passw0rd") salt'
        = (Invalid [("non_field_errors", "Old password is incorrect!")],
           users').
Proof.
  intros ann.
  destruct (@change_my_password example_auth example_users (Some ann)
              (Given "pA$$w0rd-old") (Given "n3w-Passw0rd")
              (Given "n3w-Passw0rd") 7) as [outcome users'] eqn:Run.
  assert (∃ body, outcome = Done body) as [body ->].
  { apply (f_equal fst) in Run. vm_compute in Run. subst. by eexists. }
  exists body, users'. split; [done|].
  destruct (@changed_password_replaces_the_old_one example_auth
              example_users ann (Given "pA$$w0rd-old") (Given "n3w-Passw0rd")
              (Given "n3w-Passw0rd") 7 body users') as
    (old & new & _ & _ & _ & _ & _ & _ & _ & _ & _ & Again); [|exact Run|].
  - intros salt raw candidate Check. simpl in Check.
    apply bool_decide_eq_true in Check. by injection Check.
  - exact Again.
Defined.

End place_examples.

(** ** The registration *)

Section registration_properties.

Import validators fields utils passwords accounts registration.
Context `{AuthBackend}.

Lemma register_is_valid_Returned users re rph rp rc data :
  RegisterUserSerializer.is_valid users re rph rp rc = Returned data →
  ∃ typed,
    re = Given typed
    ∧ EmailField typed = Returned (RegisterUserSerializer.email data)
    ∧ filter_email users (RegisterUserSerializer.email data) = []
    ∧ validate_password (RegisterUserSerializer.password data) = Returned ()
    ∧ RegisterUserSerializer.confirmation_password data
      = RegisterUserSerializer.password data
    ∧ ∃ typed_password typed_confirmation,
        rp = Given typed_password
        ∧ PasswordField typed_password
          = Returned (RegisterUserSerializer.password data)
        ∧ rc = Given typed_confirmation
        ∧ PasswordField typed_confirmation
          = Returned (RegisterUserSerializer.password data).
Proof.
  unfold RegisterUserSerializer.is_valid.
  destruct (_ <*> _ <*> _ <*> _ <*> _) as [?|raw_data] eqn:F; [done|].
  unfold RegisterUserSerializer.validate. case_decide as Ne; [done|].
  intros [= <-].
  apply ap_Returned in F as (g3 & a3 & F & E3 & ->).
  apply ap_Returned in F as (g2 & a2 & F & E2 & ->).
  apply ap_Returned in F as (g0 & a0 & F & _ & ->).
  apply ap_Returned in F as (g1 & a1 & [= <-] & E1 & ->).
  cbn [RegisterUserSerializer.email RegisterUserSerializer.password
       RegisterUserSerializer.confirmation_password] in *.
  apply run_validation_required_Returned in E1 as (typed & -> & E & V).
  apply run_validation_required_Returned in E2 as (typed2 & -> & P & _).
  apply run_validation_required_Returned in E3 as (typed3 & -> & C & _).
  assert (a3 = a2) as -> by (by destruct (decide (a2 = a3)) as [->|]).
  exists typed. split_and!; [done|done| | |done|].
  - revert V. simpl. destruct (MaxLengthValidator 254 a1); [done|].
    unfold UniqueValidator. case_decide as U; [done|]. intros _.
    by destruct (decide (filter_email users a1 = [])).
  - by eapply PasswordField_Returned.
  - by exists typed2, typed3.
Qed.

Lemma PasswordField_strip data value :
  PasswordField data = Returned value → value = strip data.
Proof.
  unfold PasswordField, CharField. case_decide; [done|].
  destruct (validate_password _); [done|].
  destruct (ProhibitNullCharactersValidator _); [done|]. by intros [= <-].
Qed.

(** X25. A registration that succeeds adds one row after the rows that
    were there. Its address is the normalization of the address that
    was sent, which nobody had as it was sent. Its password is the hash
    of the password that was sent, taken without the white space around
    it: that is what the field reads from it, it passes
    [validate_password], and the field reads the same from the
    confirmation that was sent. Afterwards exactly that row has the
    normalized address. *)
Theorem registration_stores_the_normalized_address users re rph rp rc pk
    salt user users' :
  RegisterAPIView.create users re rph rp rc pk salt
  = (Created201 user, users') →
  ∃ typed email typed_password typed_confirmation password,
    re = Given typed ∧ EmailField typed = Returned email
    ∧ filter_email users email = []
    ∧ rp = Given typed_password ∧ rc = Given typed_confirmation
    ∧ password = strip typed_password
    ∧ password = strip typed_confirmation
    ∧ PasswordField typed_password = Returned password
    ∧ PasswordField typed_confirmation = Returned password
    ∧ validate_password password = Returned ()
    ∧ user = {| User.id := pk; User.email := normalize_email email;
                User.password := make_password salt password |}
    ∧ users' = users ++ [user]
    ∧ filter_email users' (normalize_email email) = [user].
Proof.
  unfold RegisterAPIView.create.
  destruct (RegisterUserSerializer.is_valid users re rph rp rc) as [?|data]
    eqn:V; [done|].
  apply register_is_valid_Returned in V
    as (typed & -> & E & U & P & C & tp & tc & -> & Pp & -> & Pc).
  unfold RegisterUserSerializer.create, create_user, _create_user.
  case_decide; [done|]. case_decide as Taken; [done|].
  intros [= <- <-].
  exists typed, (RegisterUserSerializer.email data), tp, tc,
    (RegisterUserSerializer.password data).
  split_and!; [done|done|done|done|done| | |done..|].
  - by apply PasswordField_strip.
  - by apply PasswordField_strip.
  - unfold filter_email in *. rewrite filter_app, filter_cons.
    rewrite decide_True by done.
    destruct (decide (filter (λ u, User.email u
                                   = normalize_email
                                       (RegisterUserSerializer.email data))
                        users = [])) as [->|]; [done|]. by destruct Taken.
Qed.

(** X26. The registration looks for the address as it was sent, and
    stores its normalization: when the normalization of a valid address
    is registered and the address itself is not, a request without
    telephone number passes the validation and fails in the database,
    and no user is added. *)
Theorem registration_checks_the_address_as_it_was_sent users email password
    pk salt :
  EmailField email = Returned email →
  String.length email ≤ 254 →
  PasswordField password = Returned password →
  filter_email users email = [] →
  filter_email users (normalize_email email) ≠ [] →
  (∃ data, RegisterUserSerializer.is_valid users (Given email) Missing
             (Given password) (Given password) = Returned data)
  ∧ RegisterAPIView.create users (Given email) Missing (Given password)
      (Given password) pk salt
    = (ServerError500 IntegrityError, users).
Proof.
  intros E L P Free Taken.
  assert (validate_password password = Returned ()) as VP
    by (by eapply PasswordField_Returned).
  assert (String.length password ≤ 40) as LP.
  { apply validate_password_Returned in VP. lia. }
  assert (email ≠ "") as NE.
  { intros ->. unfold EmailField, CharField in E.
    by rewrite decide_True in E by done. }
  assert (RegisterUserSerializer.is_valid users (Given email) Missing
            (Given password) (Given password)
          = Returned {| RegisterUserSerializer.email := email;
                        RegisterUserSerializer.phone_number := "+000000000";
                        RegisterUserSerializer.password := password;
                        RegisterUserSerializer.confirmation_password :=
                          password |}) as Valid.
  { unfold RegisterUserSerializer.is_valid, run_validation_required,
      run_validation. rewrite E, P. simpl.
    unfold MaxLengthValidator, UniqueValidator.
    rewrite !decide_False by (lia || (by rewrite Free; intros [])).
    simpl. unfold RegisterUserSerializer.validate.
    by rewrite decide_False by (by intros []). }
  split; [by eexists|].
  unfold RegisterAPIView.create. rewrite Valid.
  unfold RegisterUserSerializer.create, create_user, _create_user. simpl.
  rewrite decide_False by done. by rewrite decide_True.
Qed.

(** X27. Who registers with an address that is not its own
    normalization cannot ask for a reset code with the address as it
    was sent at the registration: [send_email] finds the user under the
    normalized address, stores a code under the address as sent, and
    then fails, because no user has the address as sent. *)
Theorem registered_address_as_sent_cannot_ask_for_a_code users re rph rp rc
    pk salt user users' email rng now s :
  RegisterAPIView.create users re rph rp rc pk salt
  = (Created201 user, users') →
  re = Given email → EmailField email = Returned email →
  normalize_email email ≠ email →
  let '(response, s') :=
    ForgotPasswordViewSet.send_email users' (Given email) rng now s in
  response = accounts.ServerError500 DoesNotExist
  ∧ ∃ code, (cache.get (email +:+ "__code") now s').1 = Some code.
Proof.
  unfold RegisterAPIView.create. intros Run -> E Differ.
  destruct (RegisterUserSerializer.is_valid users (Given email) rph rp rc)
    as [?|data] eqn:V; [done|].
  apply register_is_valid_Returned in V as (typed & [= <-] & E' & U & _).
  rewrite E in E'. injection E' as E'.
  unfold RegisterUserSerializer.create, create_user, _create_user in Run.
  rewrite <- E' in *. case_decide; [done|]. case_decide as Taken; [done|].
  injection Run as <- <-.
  set (user := {| User.id := pk; User.email := normalize_email email;
                  User.password := _ |}).
  assert (filter_email (users ++ [user]) (normalize_email email) ≠ []) as In.
  { unfold filter_email. rewrite filter_app, filter_cons.
    rewrite decide_True by done. by destruct (filter _ users). }
  assert (filter_email (users ++ [user]) email = []) as Out.
  { unfold filter_email in *. rewrite filter_app, U, filter_cons.
    by rewrite decide_False by done. }
  rewrite send_email_eval by done.
  pose proof (get_or_create_code_stable_cases email rng now s) as Cases.
  destruct (ResetCodeManager.get_or_create_code email rng now s)
    as [code s'].
  destruct Cases as (c & Live & _).
  unfold get_email. rewrite Out. split; [done|]. by exists c.
Qed.

End registration_properties.

(** ** The views that make and change a place *)

Section place_request_properties.

Import validators models fields serializers permissions place_utils.
Import place_models place_serializers place_views.

Lemma field_Some {A B} partial required name (conv : A → except string B)
    validators r v :
  field partial required name conv validators r = Returned (Some v) →
  ∃ a, r = Given a ∧ conv a = Returned v
       ∧ run_validators validators v = Returned ().
Proof.
  unfold field. destruct (required && negb partial).
  - destruct (run_validation_required name conv validators r) as [?|b] eqn:V;
      [done|]. intros [= <-]. by apply run_validation_required_Returned in V.
  - apply run_validation_Some.
Qed.

Lemma field_None {A B} partial required name (conv : A → except string B)
    validators r :
  field partial required name conv validators r = Returned None →
  r = Missing ∧ (required = false ∨ partial = true).
Proof.
  unfold field. destruct required, partial; simpl;
    try (intros ?%run_validation_None; split; [done|]; by (left + right)).
  by destruct (run_validation_required name conv validators r).
Qed.

Lemma lookup_entry_eq {B} key (to_value : B → value) v data :
  ClientValidatePlaceSerializer.entry key to_value v data !! key
  = match v with
    | Some b => Some (to_value b)
    | None => data !! key
    end.
Proof.
  unfold ClientValidatePlaceSerializer.entry. destruct v as [b|]; [|done].
  apply lookup_insert_eq.
Qed.

Lemma lookup_entry_ne {B} key (to_value : B → value) v data k :
  k ≠ key →
  ClientValidatePlaceSerializer.entry key to_value v data !! k = data !! k.
Proof.
  intros Ne. unfold ClientValidatePlaceSerializer.entry.
  destruct v as [b|]; [|done]. by apply lookup_insert_ne.
Qed.

Ltac lookup_entries :=
  rewrite ?lookup_entry_ne by done;
  rewrite ?lookup_entry_eq;
  first [ done
        | case_match; [done|];
          rewrite ?lookup_entry_ne by done; by rewrite ?lookup_empty ].

(** The fields behind the validated data of a request. *)
Lemma client_is_valid_Returned partial data validated :
  ClientValidatePlaceSerializer.is_valid partial data = Returned validated →
  ∃ latitude longitude rating images name description address category
      main_image,
    field partial true "latitude" FloatField [validate_latitude]
      (ClientValidatePlaceSerializer.raw_latitude data) = Returned latitude
    ∧ field partial true "longitude" FloatField [validate_longitude]
        (ClientValidatePlaceSerializer.raw_longitude data)
      = Returned longitude
    ∧ field partial true "rating" (DecimalField 3) [validate_rating]
        (ClientValidatePlaceSerializer.raw_rating data) = Returned rating
    ∧ field partial true "category" CharField
        [validate_category; MaxLengthValidator 200;
         ProhibitNullCharactersValidator]
        (ClientValidatePlaceSerializer.raw_category data) = Returned category
    ∧ field partial true "main_image" ImageField []
        (ClientValidatePlaceSerializer.raw_main_image data)
      = Returned main_image
    ∧ validated !! "latitude" = VFloat <$> latitude
    ∧ validated !! "longitude" = VFloat <$> longitude
    ∧ validated !! "rating" = VDecimal <$> rating
    ∧ validated !! "secondary_images" = VFiles <$> images
    ∧ validated !! "name" = VStr <$> name
    ∧ validated !! "description" = VStr <$> description
    ∧ validated !! "address" = VStr <$> address
    ∧ validated !! "category" = VStr <$> category
    ∧ validated !! "main_image" = VFile <$> main_image.
Proof.
  unfold ClientValidatePlaceSerializer.is_valid. intros V.
  apply ap_Returned in V as (g9 & a9 & V & E9 & ->).
  apply ap_Returned in V as (g8 & a8 & V & E8 & ->).
  apply ap_Returned in V as (g7 & a7 & V & E7 & ->).
  apply ap_Returned in V as (g6 & a6 & V & E6 & ->).
  apply ap_Returned in V as (g5 & a5 & V & E5 & ->).
  apply ap_Returned in V as (g4 & a4 & V & E4 & ->).
  apply ap_Returned in V as (g3 & a3 & V & E3 & ->).
  apply ap_Returned in V as (g2 & a2 & V & E2 & ->).
  apply ap_Returned in V as (g1 & a1 & [= <-] & E1 & ->).
  exists a1, a2, a3, a4, a5, a6, a7, a8, a9.
  split_and!; [done..| | | | | | | | |]; lookup_entries.
Qed.

Lemma convert_lookup data k :
  k ≠ "latitude" → k ≠ "longitude" →
  properties (convert_placedata_to_geojson data).1 !! k = data !! k.
Proof.
  intros K1 K2. unfold convert_placedata_to_geojson.
  case_decide; cbn [fst properties]; [|done]. by rewrite !lookup_delete_ne.
Qed.

Lemma convert_geometry data :
  geometry (convert_placedata_to_geojson data).1
  = if decide (get data "latitude" ≠ VNone ∧ get data "longitude" ≠ VNone)
    then Some {| geometry_type := "Point";
                 coordinates := [get data "longitude";
                                 get data "latitude"] |}
    else None.
Proof.
  unfold convert_placedata_to_geojson. case_decide; cbn [fst geometry]; [|done].
  do 3 f_equal. unfold get. by rewrite lookup_delete_ne.
Qed.

(** The fields behind the validated data of a feature. *)
Lemma inner_is_valid_Returned partial feature inner :
  CreateUpdatePlaceSerializer.is_valid partial feature = Returned inner →
  field partial true "rating" (DecimalField 3) []
    (CreateUpdatePlaceSerializer.read (properties feature) "rating"
       CreateUpdatePlaceSerializer.as_decimal)
  = Returned (CreateUpdatePlaceSerializer.rating inner)
  ∧ field partial true "category" (CharField_max_length 200) []
      (CreateUpdatePlaceSerializer.read (properties feature) "category"
         CreateUpdatePlaceSerializer.as_str)
    = Returned (CreateUpdatePlaceSerializer.category inner)
  ∧ field partial true "location" (λ p : Point, Returned p) []
      (CreateUpdatePlaceSerializer.read_geometry (geometry feature))
    = Returned (CreateUpdatePlaceSerializer.location inner).
Proof.
  unfold CreateUpdatePlaceSerializer.is_valid. intros V.
  apply ap_Returned in V as (g7 & a7 & V & E7 & ->).
  apply ap_Returned in V as (g6 & a6 & V & E6 & ->).
  apply ap_Returned in V as (g5 & a5 & V & E5 & ->).
  apply ap_Returned in V as (g4 & a4 & V & E4 & ->).
  apply ap_Returned in V as (g3 & a3 & V & E3 & ->).
  apply ap_Returned in V as (g2 & a2 & V & E2 & ->).
  apply ap_Returned in V as (g1 & a1 & [= <-] & E1 & ->).
  by split_and!.
Qed.

Lemma read_Given {B} attrs key (as_value : value → option B) b :
  CreateUpdatePlaceSerializer.read attrs key as_value = Given b →
  ∃ v, attrs !! key = Some v ∧ as_value v = Some b.
Proof.
  unfold CreateUpdatePlaceSerializer.read.
  destruct (attrs !! key) as [v|]; [|done].
  destruct (as_value v) as [b'|] eqn:E; [|done]. intros [= <-]. by exists v.
Qed.

Lemma read_Missing {B} attrs key (as_value : value → option B) :
  CreateUpdatePlaceSerializer.read attrs key as_value = Missing →
  attrs !! key = None.
Proof.
  unfold CreateUpdatePlaceSerializer.read.
  destruct (attrs !! key) as [v|]; [|done]. by destruct (as_value v).
Qed.

(** What the two serializers, one after the other, make of the
    coordinates of a request. A coordinate that is sent lies in its
    range or is NaN. *)
Lemma location_of_request partial data validated inner :
  ClientValidatePlaceSerializer.is_valid partial data = Returned validated →
  CreateUpdatePlaceSerializer.is_valid partial
    (convert_placedata_to_geojson validated).1 = Returned inner →
  CreateUpdatePlaceSerializer.location inner
  = match ClientValidatePlaceSerializer.raw_latitude data,
          ClientValidatePlaceSerializer.raw_longitude data with
    | Given latitude, Given longitude =>
        Some (GEOSGeometry_POINT longitude latitude)
    | _, _ => None
    end
  ∧ (∀ latitude, ClientValidatePlaceSerializer.raw_latitude data
                 = Given latitude →
                 latitude = nan
                 ∨ (float_le (float (-90)) latitude
                    ∧ float_le latitude (float 90)))
  ∧ (∀ longitude, ClientValidatePlaceSerializer.raw_longitude data
                  = Given longitude →
                  longitude = nan
                  ∨ (float_le (float (-180)) longitude
                     ∧ float_le longitude (float 180))).
Proof.
  intros (lat & lon & r & imgs & n & d & a & c & m & Lat & Lon & _ & _ & _
          & DLat & DLon & _)%client_is_valid_Returned
    (_ & _ & Loc)%inner_is_valid_Returned.
  rewrite convert_geometry in Loc. unfold get in Loc.
  rewrite DLat, DLon in Loc.
  assert (∀ latitude, ClientValidatePlaceSerializer.raw_latitude data
                      = Given latitude →
                      lat = Some latitude
                      ∧ (latitude = nan
                         ∨ (float_le (float (-90)) latitude
                            ∧ float_le latitude (float 90)))) as InLat.
  { intros q Q. destruct lat as [q'|].
    - apply field_Some in Lat as (q0 & Q0 & [= <-] & V).
      rewrite Q in Q0. injection Q0 as <-.
      by apply validate_latitude_Returned in V.
    - apply field_None in Lat as [Q0 _]. congruence. }
  assert (∀ longitude, ClientValidatePlaceSerializer.raw_longitude data
                       = Given longitude →
                       lon = Some longitude
                       ∧ (longitude = nan
                          ∨ (float_le (float (-180)) longitude
                             ∧ float_le longitude (float 180)))) as InLon.
  { intros q Q. destruct lon as [q'|].
    - apply field_Some in Lon as (q0 & Q0 & [= <-] & V).
      rewrite Q in Q0. injection Q0 as <-.
      by apply validate_longitude_Returned in V.
    - apply field_None in Lon as [Q0 _]. congruence. }
  split_and!; [|intros q Q; by destruct (InLat q Q) as (_ & ?)
               |intros q Q; by destruct (InLon q Q) as (_ & ?)].
  destruct lat as [q1|], lon as [q2|]; simpl in Loc.
  - apply field_Some in Lat as (? & -> & [= <-] & _).
    apply field_Some in Lon as (? & -> & [= <-] & _).
    destruct (CreateUpdatePlaceSerializer.location inner) as [loc|].
    + by apply field_Some in Loc as (? & [= <-] & [= <-] & _).
    + by apply field_None in Loc as [? _].
  - apply field_None in Lon as [-> _].
    destruct (CreateUpdatePlaceSerializer.location inner) as [loc|].
    + by apply field_Some in Loc as (? & ? & _).
    + by destruct (ClientValidatePlaceSerializer.raw_latitude data).
  - apply field_None in Lat as [-> _].
    destruct (CreateUpdatePlaceSerializer.location inner) as [loc|];
      [|done]. by apply field_Some in Loc as (? & ? & _).
  - apply field_None in Lat as [-> _].
    destruct (CreateUpdatePlaceSerializer.location inner) as [loc|];
      [|done]. by apply field_Some in Loc as (? & ? & _).
Qed.

Lemma allowed_categories_stripped c :
  c ∈ allowed_categories → CharField_max_length 200 c = Returned c.
Proof.
  unfold allowed_categories. intros In.
  repeat (apply elem_of_cons in In as [->|In]; [by vm_compute|]).
  by apply elem_of_nil in In.
Qed.

(** What the two serializers make of the rating and of the category of
    a request. *)
Lemma rating_and_category_of_request partial data validated inner :
  ClientValidatePlaceSerializer.is_valid partial data = Returned validated →
  CreateUpdatePlaceSerializer.is_valid partial
    (convert_placedata_to_geojson validated).1 = Returned inner →
  CreateUpdatePlaceSerializer.rating inner
  = match ClientValidatePlaceSerializer.raw_rating data with
    | Given rating => Some rating
    | _ => None
    end
  ∧ (∀ rating, CreateUpdatePlaceSerializer.rating inner = Some rating →
               (0 ≤ rating)%Z ∧ (rating ≤ 500)%Z)
  ∧ (∀ category, CreateUpdatePlaceSerializer.category inner = Some category
                 → category ∈ allowed_categories)
  ∧ (CreateUpdatePlaceSerializer.category inner = None →
     ClientValidatePlaceSerializer.raw_category data = Missing).
Proof.
  intros (lat & lon & r & imgs & n & d & a & c & m & _ & _ & R & C & _
          & _ & _ & DR & _ & _ & _ & _ & DC & _)%client_is_valid_Returned
    (R' & C' & _)%inner_is_valid_Returned.
  rewrite <- (convert_lookup validated "rating") in DR by done.
  rewrite <- (convert_lookup validated "category") in DC by done.
  unfold CreateUpdatePlaceSerializer.read in R', C'.
  rewrite DR in R'. rewrite DC in C'. clear DR DC.
  assert (CreateUpdatePlaceSerializer.rating inner = r) as ->.
  { destruct r as [r|]; simpl in R'.
    - destruct (CreateUpdatePlaceSerializer.rating inner) as [r'|].
      + apply field_Some in R' as (? & [= <-] & D & _).
        apply field_Some in R as (? & _ & D' & _).
        unfold DecimalField in *. case_decide; [|done]. congruence.
      + by apply field_None in R' as [? _].
    - destruct (CreateUpdatePlaceSerializer.rating inner) as [r'|]; [|done].
      by apply field_Some in R' as (? & ? & _). }
  split_and!.
  - destruct r as [r|].
    + apply field_Some in R as (r0 & -> & D & _).
      unfold DecimalField in D. case_decide; [|done]. congruence.
    + by apply field_None in R as [-> _].
  - intros rating ->. apply field_Some in R as (r0 & _ & _ & V).
    revert V. simpl. unfold validate_rating. case_decide; [done|]. lia.
  - intros category E. rewrite E in C'. destruct c as [c|]; simpl in C'.
    + apply field_Some in C' as (? & [= <-] & D & _).
      apply field_Some in C as (c0 & _ & _ & V).
      assert (c ∈ allowed_categories) as In.
      { revert V. simpl. unfold validate_category.
        case_decide as N; [done|]. intros _.
        by destruct (decide (c ∈ allowed_categories)). }
      rewrite allowed_categories_stripped in D by done. congruence.
    + by apply field_Some in C' as (? & ? & _).
  - intros E. rewrite E in C'. destruct c as [c|]; simpl in C'.
    + by apply field_None in C' as [? _].
    + by apply field_None in C as [? _].
Qed.

Lemma field_required {A B} name (conv : A → except string B) validators r :
  field false true name conv validators r ≠ Returned None.
Proof. intros [_ [?|?]]%field_None; done. Qed.

Lemma PATCH_unsafe : PATCH ∉ SAFE_METHODS.
Proof.
  unfold SAFE_METHODS. intros In.
  by repeat (apply elem_of_cons in In as [?|In]; [done|]);
    apply elem_of_nil in In.
Qed.

(** X28. When [create_place] succeeds, the latitude, the longitude and
    the rating were sent; the rating lies in its range, and so do the
    latitude and the longitude unless they are NaN, which their
    validators let through. The new row is the last of the table, has
    the new key, belongs to the user who asks, has a category of the
    enumeration, and lies at the point whose x is the longitude and
    whose y is the latitude that were sent, so the place is shown with
    the latitude and the longitude that were sent, and with
    [can_edit]. If the places and the ratings were in step and the key
    is new, they still are, and the place is shown with the rating that
    was sent. *)
Theorem created_place_is_shown_as_it_was_sent tb user data place_pk
    rating_pk image_pk shown tb' :
  PlaceViewSet.create_place tb user data place_pk rating_pk image_pk
  = (Done shown, tb') →
  ∃ owner latitude longitude rating,
    user = Some owner
    ∧ ClientValidatePlaceSerializer.raw_latitude data = Given latitude
    ∧ ClientValidatePlaceSerializer.raw_longitude data = Given longitude
    ∧ ClientValidatePlaceSerializer.raw_rating data = Given rating
    ∧ (latitude = nan
       ∨ (float_le (float (-90)) latitude ∧ float_le latitude (float 90)))
    ∧ (longitude = nan
       ∨ (float_le (float (-180)) longitude
          ∧ float_le longitude (float 180)))
    ∧ (0 ≤ rating)%Z ∧ (rating ≤ 500)%Z
    ∧ Place_objects (rows tb')
      = Place_objects (rows tb) ++ [GetPlaceSerializer.instance shown]
    ∧ Place.id (GetPlaceSerializer.instance shown) = place_pk
    ∧ Place.added_by (GetPlaceSerializer.instance shown) = owner
    ∧ Place.category (GetPlaceSerializer.instance shown) ∈ allowed_categories
    ∧ Place.location (GetPlaceSerializer.instance shown)
      = GEOSGeometry_POINT longitude latitude
    ∧ GetPlaceSerializer.latitude shown = latitude
    ∧ GetPlaceSerializer.longitude shown = longitude
    ∧ GetPlaceSerializer.can_edit shown = true
    ∧ (owner_rated (rows tb) →
       place_pk ∉ Place.id <$> Place_objects (rows tb) →
       GetPlaceSerializer.rating shown = rating ∧ owner_rated (rows tb')).
Proof.
  unfold PlaceViewSet.create_place. destruct user as [owner|]; [|done].
  destruct (ClientValidatePlaceSerializer.is_valid false data)
    as [?|validated] eqn:Client; [done|].
  destruct (CreateUpdatePlaceSerializer.is_valid false _)
    as [?|inner] eqn:Inner; [done|].
  destruct (CreateUpdatePlaceSerializer.create (rows tb) owner inner place_pk
              rating_pk) as [?|[db place]] eqn:Created; [done|].
  intros Run.
  assert (shown = GetPlaceSerializer.to_representation db owner place
          ∧ rows tb' = db) as [-> Rows].
  { revert Run. cbn [PlaceImage_objects].
    destruct (properties _ !! "secondary_images") as [[]|];
      try (by intros [= <- <-]); try done.
    destruct (UpdatePlaceImagesSerializer.validate _ _ _ _); [done|].
    destruct (UpdatePlaceImagesSerializer.save _ _ _ _); [done|].
    by intros [= <- <-]. }
  clear Run. rewrite Rows. clear Rows tb'.
  destruct (location_of_request _ _ _ _ Client Inner) as (Loc & InLat & InLon).
  destruct (rating_and_category_of_request _ _ _ _ Client Inner)
    as (Rating & InRating & InCategory & _).
  pose proof (inner_is_valid_Returned _ _ _ Inner) as (_ & Category & _).
  pose proof Created as
    (r & loc & R & L & Id & By & PLoc & Ps & Rs)%create_Returned.
  rewrite L in Loc. rewrite R in Rating.
  destruct (ClientValidatePlaceSerializer.raw_latitude data) as [| |latitude];
    [done..|].
  destruct (ClientValidatePlaceSerializer.raw_longitude data)
    as [| |longitude]; [done..|].
  destruct (ClientValidatePlaceSerializer.raw_rating data) as [| |rating];
    [done..|].
  injection Loc as ->. injection Rating as ->.
  exists owner, latitude, longitude, rating.
  pose proof (InLat latitude eq_refl). pose proof (InLon longitude eq_refl).
  destruct (InRating rating R).
  assert (Place.category place ∈ allowed_categories) as Allowed.
  { destruct (CreateUpdatePlaceSerializer.category inner) as [c|] eqn:C;
      [|by apply field_required in Category].
    revert Created. unfold CreateUpdatePlaceSerializer.create.
    rewrite R, L, C. destruct (CreateUpdatePlaceSerializer.main_image inner);
      [|done]. intros [= _ <-]. simpl. by apply InCategory. }
  split_and!; try done; simpl.
  - unfold GetPlaceSerializer.get_latitude. by rewrite PLoc.
  - unfold GetPlaceSerializer.get_longitude. by rewrite PLoc.
  - unfold GetPlaceSerializer.get_can_edit. by apply bool_decide_eq_true.
  - intros Inv Fresh. split; [|by eapply owner_rated_create].
    pose proof (create_shown _ _ _ _ _ _ _ Inv Fresh Created) as Shown.
    rewrite R in Shown. by injection Shown.
Qed.

(** X29. When [update_place] succeeds, the user who asks owns the
    place, and the row keeps its key and its owner. The place moves
    only when both the latitude and the longitude are sent: then it
    lies at the point they give; a latitude or a longitude that is
    sent alone is dropped, and the place stays where it was. A category
    that is sent is one of the enumeration; when none is sent the
    category stays. No rating row and no image is made or deleted. *)
Theorem update_place_moves_the_place_only_with_both_coordinates tb user pk
    data shown tb' :
  PlaceViewSet.update_place tb user pk data = (Done shown, tb') →
  ∃ place,
    place ∈ Place_objects (rows tb) ∧ Place.id place = pk
    ∧ user = Some (Place.added_by place)
    ∧ Place.id (GetPlaceSerializer.instance shown) = pk
    ∧ Place.added_by (GetPlaceSerializer.instance shown)
      = Place.added_by place
    ∧ Place.location (GetPlaceSerializer.instance shown)
      = match ClientValidatePlaceSerializer.raw_latitude data,
              ClientValidatePlaceSerializer.raw_longitude data with
        | Given latitude, Given longitude =>
            GEOSGeometry_POINT longitude latitude
        | _, _ => Place.location place
        end
    ∧ (Place.category (GetPlaceSerializer.instance shown)
         ∈ allowed_categories
       ∨ (ClientValidatePlaceSerializer.raw_category data = Missing
          ∧ Place.category (GetPlaceSerializer.instance shown)
            = Place.category place))
    ∧ PlaceImage_objects tb' = PlaceImage_objects tb
    ∧ length (PlaceRating_objects (rows tb'))
      = length (PlaceRating_objects (rows tb)).
Proof.
  unfold PlaceViewSet.update_place.
  pose proof (get_object_cases (rows tb) PATCH user pk) as Cases.
  destruct (get_object (rows tb) PATCH user pk) as [place| | |errs|e|e];
    [|done..].
  destruct Cases as (In & Id & Owner%has_object_permission_unsafe);
    [|apply PATCH_unsafe].
  rewrite Owner.
  destruct (ClientValidatePlaceSerializer.is_valid true data)
    as [?|validated] eqn:Client; [done|].
  destruct (CreateUpdatePlaceSerializer.is_valid true _)
    as [?|inner] eqn:Inner; [done|].
  destruct (location_of_request _ _ _ _ Client Inner) as (Loc & _).
  destruct (rating_and_category_of_request _ _ _ _ Client Inner)
    as (_ & _ & InCategory & NoCategory).
  unfold CreateUpdatePlaceSerializer.update. intros [= <- <-].
  exists place. cbn [GetPlaceSerializer.instance
                     GetPlaceSerializer.to_representation Place.id
                     Place.added_by Place.location Place.category rows
                     PlaceImage_objects PlaceRating_objects].
  split_and!; try done.
  - rewrite Loc.
    by destruct (ClientValidatePlaceSerializer.raw_latitude data),
      (ClientValidatePlaceSerializer.raw_longitude data).
  - destruct (CreateUpdatePlaceSerializer.category inner) as [c|]; simpl.
    + left. by apply InCategory.
    + right. by split; [apply NoCategory|].
  - destruct (CreateUpdatePlaceSerializer.rating inner); [|done].
    by rewrite length_fmap.
Qed.

End place_request_properties.

(** ** Examples for the registration and the requests *)

Section request_examples.

Import validators models fields serializers accounts permissions place_utils.
Import place_models place_serializers place_views registration.

(** Eve registers with the domain of her address in capitals, and a
    space after the confirmation of her password. *)
Lemma registration_stores_the_normalized_address_witness :
  ∃ typed email typed_password typed_confirmation password,
    Given "eve@MAIL.io" = Given typed
    ∧ @EmailField example_auth typed = Returned email
    ∧ filter_email example_users email = []
    ∧ Given "n3w-Passw0rd" = Given typed_password
    ∧ Given "n3w-Passw0rd " = Given typed_confirmation
    ∧ password = strip typed_password
    ∧ password = strip typed_confirmation
    ∧ PasswordField typed_password = Returned password
    ∧ PasswordField typed_confirmation = Returned password
    ∧ passwords.validate_password password = Returned ()
    ∧ example_eve
      = {| User.id := 3; User.email := example_normalize_email email;
           User.password := "hash$" +:+ password |}
    ∧ example_users ++ [example_eve] = example_users ++ [example_eve]
    ∧ filter_email (example_users ++ [example_eve])
        (example_normalize_email email) = [example_eve].
Proof.
  apply (@registration_stores_the_normalized_address example_auth
           example_users (Given "eve@MAIL.io") (Given "+375291234567")
           (Given "n3w-Passw0rd") (Given "n3w-Passw0rd ") 3 7 example_eve
           (example_users ++ [example_eve])).
  vm_compute. reflexivity.
Defined.

(** Somebody registers with Ann's address, its domain in capitals. *)
Lemma registration_checks_the_address_as_it_was_sent_witness :
  @RegisterAPIView.create example_auth example_users (Given "ann@MAIL.io")
    Missing (Given "n3w-Passw0rd") (Given "n3w-Passw0rd") 3 7
  = (ServerError500 IntegrityError, example_users).
Proof.
  apply (@registration_checks_the_address_as_it_was_sent example_auth
           example_users "ann@MAIL.io" "n3w-Passw0rd" 3 7).
  - vm_compute. reflexivity.
  - simpl. lia.
  - vm_compute. reflexivity.
  - vm_compute. reflexivity.
  - vm_compute. discriminate.
Defined.

(** Eve asks for a reset code with the address she registered with. *)
Lemma registered_address_as_sent_cannot_ask_for_a_code_witness :
  let '(response, s') :=
    @ForgotPasswordViewSet.send_email example_auth
      (example_users ++ [example_eve]) (Given "eve@MAIL.io") (λ i, i) 0 ∅ in
  response = accounts.ServerError500 DoesNotExist
  ∧ ∃ code, (cache.get "eve@MAIL.io__code" 0 s').1 = Some code.
Proof.
  apply (@registered_address_as_sent_cannot_ask_for_a_code example_auth
           example_users (Given "eve@MAIL.io") Missing (Given "n3w-Passw0rd")
           (Given "n3w-Passw0rd") 3 7 example_eve
           (example_users ++ [example_eve]) "eve@MAIL.io" (λ i, i) 0 ∅).
  - vm_compute. reflexivity.
  - reflexivity.
  - vm_compute. reflexivity.
  - vm_compute. discriminate.
Defined.

(** User 2 makes the cafe. *)
Lemma created_place_is_shown_as_it_was_sent_witness :
  ∃ shown tb',
    PlaceViewSet.create_place example_tables (Some 2) example_place_request
      5 4 4 = (Done shown, tb')
    ∧ GetPlaceSerializer.latitude shown = float 0.5
    ∧ GetPlaceSerializer.longitude shown = float 1.5
    ∧ Place.category (GetPlaceSerializer.instance shown) ∈ allowed_categories.
Proof.
  destruct (PlaceViewSet.create_place example_tables (Some 2)
              example_place_request 5 4 4) as [outcome tb'] eqn:Run.
  assert (∃ shown, outcome = Done shown) as [shown ->].
  { apply (f_equal fst) in Run. vm_compute in Run. subst. by eexists. }
  exists shown, tb'. split; [done|].
  destruct (created_place_is_shown_as_it_was_sent example_tables (Some 2)
              example_place_request 5 4 4 shown tb' Run)
    as (owner & latitude & longitude & rating & _ & [= <-] & [= <-] & _ & _
        & _ & _ & _ & _ & _ & _ & Category & _ & Lat & Lon & _).
  by split_and!.
Defined.

(** User 1 sends a latitude for place 1, and nothing else. *)
Lemma update_place_moves_the_place_only_with_both_coordinates_witness :
  ∃ shown tb',
    PlaceViewSet.update_place example_tables (Some 1) 1
      example_latitude_request = (Done shown, tb')
    ∧ Place.location (GetPlaceSerializer.instance shown)
      = GEOSGeometry_POINT (float 0) (float 0).
Proof.
  destruct (PlaceViewSet.update_place example_tables (Some 1) 1
              example_latitude_request) as [outcome tb'] eqn:Run.
  assert (∃ shown, outcome = Done shown) as [shown ->].
  { apply (f_equal fst) in Run. vm_compute in Run. subst. by eexists. }
  exists shown, tb'. split; [done|].
  destruct (update_place_moves_the_place_only_with_both_coordinates
              example_tables (Some 1) 1 example_latitude_request shown tb'
              Run)
    as (place & In & Id & _ & _ & _ & Loc & _).
  rewrite Loc. simpl.
  simpl in In. repeat (apply elem_of_cons in In as [->|In]; [by simpl in *|]).
  by apply elem_of_nil in In.
Defined.

End request_examples.

(** ** The two filter views *)

Section filter_view_properties.

Import validators models fields serializers views filter_views.
Context `{GeoBackend, GenericAPIView}.

Lemma required_as_optional {A B} name (conv : A → except string B)
    validators r v :
  run_validation_required name conv validators r = Returned v →
  run_validation name conv validators r = Returned (Some v).
Proof.
  unfold run_validation_required.
  by destruct (run_validation name conv validators r) as [?|[b|]];
    intros [= <-].
Qed.

(** X30. The first filter view answers as the second one does, up to
    the key [is_split], which only the second has. A body that is not
    empty and passes [PlaceFilterSerializer] is answered as the second
    view answers the same fields with [apply_filters] and without
    [split_categories]; a body that does not pass is refused with the
    errors of the serializer. An empty body is answered with the split
    of all the places of the user, whatever the search, which is how
    the second view answers a request for the split, from any valid
    point, without filters, when the search keeps every place. *)
Theorem first_filter_view_answers_as_the_second db user search data :
  (FilterPlacesAPIView.filters_applied data = true →
   match FilterPlacesAPIView.is_valid data with
   | Returned _ =>
       same_but_is_split
         (FilterPlacesAPIView.post db user search data)
         (FilterPlacesNewAPIView.post db (filtering_request user search data))
   | Raised errs =>
       FilterPlacesAPIView.post db user search data = BadRequest errs
   end)
  ∧ (FilterPlacesAPIView.filters_applied data = false →
     (∀ search', FilterPlacesAPIView.post db user search' data
                 = FilterPlacesAPIView.post db user search data)
     ∧ ∀ latitude longitude,
         float_le (float (-90)) latitude → float_le latitude (float 90) →
         float_le (float (-180)) longitude →
         float_le longitude (float 180) →
         (∀ p, p ∈ places db user → search_matches search p = true) →
         same_but_is_split
           (FilterPlacesAPIView.post db user search data)
           (FilterPlacesNewAPIView.post db
              (splitting_request user search latitude longitude))).
Proof.
  split.
  - intros Applied. unfold FilterPlacesAPIView.post. rewrite Applied.
    destruct (FilterPlacesAPIView.is_valid data) as [errs|validated] eqn:V;
      [done|].
    assert (PlaceFilterNewSerializer.is_valid
              (views.data (filtering_request user search data))
            = Returned (as_new validated)) as V'.
    { unfold FilterPlacesAPIView.is_valid in V.
      apply ap_Returned in V as (g6 & a6 & V & E6 & ->).
      apply ap_Returned in V as (g5 & a5 & V & E5 & ->).
      apply ap_Returned in V as (g4 & a4 & V & E4 & ->).
      apply ap_Returned in V as (g3 & a3 & V & E3 & ->).
      apply ap_Returned in V as (g2 & a2 & V & E2 & ->).
      apply ap_Returned in V as (g1 & a1 & [= <-] & E1 & ->).
      unfold PlaceFilterNewSerializer.is_valid, filtering_request.
      cbn [views.data PlaceFilterNewSerializer.raw_apply_filters
           PlaceFilterNewSerializer.raw_split_categories
           PlaceFilterNewSerializer.raw_latitude
           PlaceFilterNewSerializer.raw_longitude
           PlaceFilterNewSerializer.raw_distance
           PlaceFilterNewSerializer.raw_categories
           PlaceFilterNewSerializer.raw_rating
           PlaceFilterNewSerializer.raw_ordering].
      rewrite E1, E2, (required_as_optional _ _ _ _ _ E3), E4, E5, E6.
      reflexivity. }
    unfold FilterPlacesNewAPIView.post. rewrite V'.
    cbn [as_new PlaceFilterNewSerializer.apply_filters
         PlaceFilterNewSerializer.split_categories negb views.user].
    rewrite <- old_filter_as_new.
    unfold FilterPlacesNewAPIView.filter_queryset.
    cbn [views.search views.user filtering_request].
    destruct (paginate_queryset _) as [page|];
      [by destruct (GetPlaceSerializer.data db None page)|].
    destruct (GetPlaceSerializer.data db (Some user) _) as [?|places];
      [done|].
    intros k K. rewrite !lookup_insert.
    by repeat case_decide; simplify_eq.
  - intros Empty.
    split; [intros search'; unfold FilterPlacesAPIView.post; by rewrite Empty|].
    intros latitude longitude La1 La2 Lo1 Lo2 All.
    unfold FilterPlacesAPIView.post. rewrite Empty.
    unfold FilterPlacesNewAPIView.post.
    assert (PlaceFilterNewSerializer.is_valid
              (views.data (splitting_request user search latitude longitude))
            = Returned
                {| PlaceFilterNewSerializer.apply_filters := false;
                   PlaceFilterNewSerializer.split_categories := true;
                   PlaceFilterNewSerializer.latitude := latitude;
                   PlaceFilterNewSerializer.longitude := longitude;
                   PlaceFilterNewSerializer.distance := None;
                   PlaceFilterNewSerializer.categories := None;
                   PlaceFilterNewSerializer.rating := None;
                   PlaceFilterNewSerializer.ordering := None |}) as ->.
    { unfold PlaceFilterNewSerializer.is_valid, splitting_request,
        run_validation_required, run_validation, FloatField.
      cbn [views.data PlaceFilterNewSerializer.raw_apply_filters
           PlaceFilterNewSerializer.raw_split_categories
           PlaceFilterNewSerializer.raw_latitude
           PlaceFilterNewSerializer.raw_longitude
           PlaceFilterNewSerializer.raw_distance
           PlaceFilterNewSerializer.raw_categories
           PlaceFilterNewSerializer.raw_rating
           PlaceFilterNewSerializer.raw_ordering run_validators foldr
           BooleanField].
      unfold validate_latitude, validate_longitude.
      rewrite !decide_False; [done| |].
      - intros [L|L]; by apply float_lt_not_le in L.
      - intros [L|L]; by apply float_lt_not_le in L. }
    cbn [PlaceFilterNewSerializer.apply_filters
         PlaceFilterNewSerializer.split_categories negb views.user
         splitting_request].
    unfold PlaceFilterNewSerializer.get_filters_applied_queryset.
    cbn [PlaceFilterNewSerializer.apply_filters negb].
    unfold FilterPlacesNewAPIView.filter_queryset.
    cbn [views.search splitting_request].
    rewrite (filter_all _ (places db user))
      by (intros p In; by rewrite All).
    intros k K. rewrite !lookup_union. f_equal.
    rewrite lookup_insert, !lookup_singleton.
    by repeat case_decide; simplify_eq.
Qed.

End filter_view_properties.

Section filter_view_examples.

Import models fields serializers views filter_views.

Lemma first_filter_view_answers_as_the_second_witness :
  same_but_is_split
    (@FilterPlacesAPIView.post example_backend example_view example_db 1 ""
       example_filter_body)
    (@FilterPlacesNewAPIView.post example_backend example_view example_db
       (filtering_request 1 "" example_filter_body))
  ∧ same_but_is_split
      (@FilterPlacesAPIView.post example_backend example_view crowded_db 1
         "" empty_body)
      (@FilterPlacesNewAPIView.post example_backend example_view crowded_db
         (splitting_request 1 "" (float 0) (float 0))).
Proof.
  split.
  - pose proof (proj1 (@first_filter_view_answers_as_the_second
                         example_backend example_view example_db 1 ""
                         example_filter_body) eq_refl) as Same.
    destruct (FilterPlacesAPIView.is_valid example_filter_body) eqn:V;
      [by vm_compute in V|done].
  - apply (proj2 (@first_filter_view_answers_as_the_second
                    example_backend example_view crowded_db 1 ""
                    empty_body) eq_refl); by vm_compute.
Defined.

End filter_view_examples.
